(** * Kokorofile: a shallow embedding of [kokorofile.py] and [server.py]

    The repository is a command-line tool ([kokorofile.py]) and an HTTP
    service ([server.py]) around an external text-to-speech engine.  The
    Python code is embedded as functions over explicit state: a Python
    function that mutates globals, writes files or calls the engine becomes
    a computation in a state-and-exception monad, and what the external
    collaborators (file system, network, engine, audio device) answer is a
    field of an environment record. *)

From Stdlib Require Import ZArith Lia Bool List.
From Stdlib.Strings Require Import Ascii String Byte.
From Stdlib Require QArith_base DecimalString.
From stdpp Require Import base tactics option list strings gmap.
Import ListNotations.

Local Open Scope string_scope.
Local Open Scope Z_scope.

(** ** Python values shared by both programs *)

Module Py.

(** Exceptions raised by the code or by the libraries it calls, all of
    them subclasses of [Exception]. *)
Inductive exn : Type :=
| HTTPException (status_code : Z) (detail : string)
| RuntimeError (msg : string)
| AttributeError
| StructError
| WaveError (msg : string)
| OSError (path : string)
| URLError (url : string)
| UnicodeDecodeError
| OverflowError
| EngineError.

(** How a call ends: it returns, it raises, or [sys.exit] was called
    ([SystemExit], which [except Exception] does not catch). *)
Inductive result (A : Type) : Type :=
| Ok (a : A)
| Raise (e : exn)
| Exit (code : Z).
Arguments Ok {A} a.
Arguments Raise {A} e.
Arguments Exit {A} code.

(** What an external call answers: a value or an exception. *)
Inductive answer (A : Type) : Type :=
| Returns (a : A)
| Fails (e : exn).
Arguments Returns {A} a.
Arguments Fails {A} e.

(** A computation over a mutable state [S].  A raised exception keeps the
    mutations made before it, as in Python. *)
Definition M (S A : Type) : Type := S -> result A * S.

Definition ret {S A} (a : A) : M S A := fun s => (Ok a, s).
Definition raise {S A} (e : exn) : M S A := fun s => (Raise e, s).
Definition bind {S A B} (m : M S A) (k : A -> M S B) : M S B :=
  fun s => match m s with
           | (Ok a, s') => k a s'
           | (Raise e, s') => (Raise e, s')
           | (Exit c, s') => (Exit c, s')
           end.
Definition get {S} : M S S := fun s => (Ok s, s).
Definition gets {S A} (f : S -> A) : M S A := fun s => (Ok (f s), s).
Definition modify {S} (f : S -> S) : M S unit := fun s => (Ok tt, f s).
Definition lift {S A} (r : result A) : M S A := fun s => (r, s).
Definition external {S A} (a : answer A) : M S A :=
  fun s => match a with
           | Returns v => (Ok v, s)
           | Fails e => (Raise e, s)
           end.

(** [try: m except Exception as e: h e] *)
Definition try_except {S A} (m : M S A) (h : exn -> M S A) : M S A :=
  fun s => match m s with
           | (Ok a, s') => (Ok a, s')
           | (Raise e, s') => h e s'
           | (Exit c, s') => (Exit c, s')
           end.

(** [try: m finally: f] *)
Definition try_finally {S A} (m : M S A) (f : M S unit) : M S A :=
  fun s => match m s with
           | (r, s') =>
               match f s' with
               | (Ok _, s'') => (r, s'')
               | (Raise e, s'') => (Raise e, s'')
               | (Exit c, s'') => (Exit c, s'')
               end
           end.

Definition is_ok {A} (r : result A) : bool :=
  match r with Ok _ => true | _ => false end.

(** A [string] holds a Python [str] in UTF-8, one character of the
    [string] for each byte.  White space is what [str.isspace] says of a
    code point: U+0009 to U+000D, U+001C to U+0020, U+0085, U+00A0,
    U+1680, U+2000 to U+200A, U+2028, U+2029, U+202F, U+205F and U+3000.
    [isspace] decides the code points of one byte, [isspace2] and
    [isspace3] those of two and three bytes. *)
Definition isspace (c : ascii) : bool :=
  let n := N_of_ascii c in
  (((9 <=? n) && (n <=? 13)) || ((28 <=? n) && (n <=? 32)))%N.

Definition isspace2 (a b : ascii) : bool :=
  let x := N_of_ascii a in
  let y := N_of_ascii b in
  ((x =? 194) && ((y =? 133) || (y =? 160)))%N.

Definition isspace3 (a b c : ascii) : bool :=
  let x := N_of_ascii a in
  let y := N_of_ascii b in
  let z := N_of_ascii c in
  (((x =? 225) && (y =? 154) && (z =? 128))
   || ((x =? 226) && (y =? 128)
       && (((128 <=? z) && (z <=? 138)) || (z =? 168) || (z =? 169)
           || (z =? 175)))
   || ((x =? 226) && (y =? 129) && (z =? 159))
   || ((x =? 227) && (y =? 128) && (z =? 128)))%N.

(** [s.lstrip()]: the leading white-space code points are dropped. *)
Fixpoint lstrip (s : string) : string :=
  match s with
  | EmptyString => EmptyString
  | String a s1 =>
      if isspace a then lstrip s1
      else
        match s1 with
        | EmptyString => s
        | String b s2 =>
            if isspace2 a b then lstrip s2
            else
              match s2 with
              | EmptyString => s
              | String c s3 => if isspace3 a b c then lstrip s3 else s
              end
        end
  end.

(** A string of white space only. *)
Definition blank (s : string) : bool :=
  match lstrip s with EmptyString => true | _ => false end.

(** [s.rstrip()]: the text up to the trailing run of white space. *)
Fixpoint rstrip (s : string) : string :=
  match s with
  | EmptyString => EmptyString
  | String c s' => if blank s then EmptyString else String c (rstrip s')
  end.

(** [s.strip()] *)
Definition strip (s : string) : string := rstrip (lstrip s).

(** Truth value of a string: [if s:] *)
Definition truthy (s : string) : bool :=
  match s with EmptyString => false | _ => true end.

Fixpoint rev_string (s : string) : string :=
  match s with
  | EmptyString => EmptyString
  | String c s' => rev_string s' ++ String c EmptyString
  end.

(** [s.endswith(suffix)] *)
Definition endswith (s suffix : string) : bool :=
  String.prefix (rev_string suffix) (rev_string s).

(** [needle in haystack] on strings *)
Fixpoint contains (needle haystack : string) : bool :=
  String.prefix needle haystack ||
  match haystack with
  | EmptyString => false
  | String _ h => contains needle h
  end.

End Py.

Import Py.

Declare Scope py_scope.
Delimit Scope py_scope with py.
Notation "'do' x <- m ; k" := (Py.bind m (fun x => k))
  (at level 10, x name, m at level 100, k at level 200) : py_scope.
Notation "'do' ' p <- m ; k" := (Py.bind m (fun x => match x with p => k end))
  (at level 10, p pattern, m at level 100, k at level 200) : py_scope.
Notation "'run' m ; k" := (Py.bind m (fun _ => k))
  (at level 10, m at level 100, k at level 200) : py_scope.

(** ** The standard [struct], [io.BytesIO] and [wave] modules, as far as
       [synthesize_file] uses them *)

Module Struct.

Definition byte_of_Z (z : Z) : byte :=
  match Byte.of_N (Z.to_N z) with
  | Some b => b
  | None => Byte.x00
  end.

Definition Z_of_byte (b : byte) : Z := Z.of_N (Byte.to_N b).

(** Byte [i] of [n], least significant first. *)
Definition le_byte (n : Z) (i : Z) : byte :=
  byte_of_Z (Z.land (Z.shiftr n (8 * i)) 255).

(** [struct.pack('<L', n)]: four bytes, [struct.error] out of range. *)
Definition pack_L (n : Z) : result (list byte) :=
  if (0 <=? n) && (n <=? 4294967295)
  then Ok [le_byte n 0; le_byte n 1; le_byte n 2; le_byte n 3]
  else Raise StructError.

(** [struct.pack('<H', n)] *)
Definition pack_H (n : Z) : result (list byte) :=
  if (0 <=? n) && (n <=? 65535)
  then Ok [le_byte n 0; le_byte n 1]
  else Raise StructError.

(** [struct.unpack] of a little-endian unsigned field. *)
Fixpoint unpack_le (bs : list byte) : Z :=
  match bs with
  | [] => 0
  | b :: bs' => Z_of_byte b + 256 * unpack_le bs'
  end.

(** The slice [bs[off : off+len]]. *)
Definition slice (bs : list byte) (off len : nat) : list byte :=
  firstn len (skipn off bs).

(** [b'....'] literal. *)
Definition bytes_of (s : string) : list byte := list_byte_of_string s.

End Struct.

Module BytesIO.

Record t := mk { buf : list byte; pos : nat }.

Definition empty : t := {| buf := []; pos := 0 |}.

(** Overwrite the front of [old] with [data], growing it when needed. *)
Fixpoint overwrite (old data : list byte) : list byte :=
  match data with
  | [] => old
  | d :: ds => d :: overwrite (tl old) ds
  end.

(** Write [data] at offset [p] of [old]; a gap past the end is filled
    with zero bytes. *)
Fixpoint write_at (old : list byte) (p : nat) (data : list byte) : list byte :=
  match p with
  | O => overwrite old data
  | S p' =>
      match old with
      | [] => Byte.x00 :: write_at [] p' data
      | b :: bs => b :: write_at bs p' data
      end
  end.

Definition write (f : t) (data : list byte) : t :=
  {| buf := write_at (buf f) (pos f) data;
     pos := (pos f + length data)%nat |}.

Definition tell (f : t) : nat := pos f.

Definition seek (f : t) (p : nat) : t := {| buf := buf f; pos := p |}.

(** What a reader gets from the current position to the end. *)
Definition read (f : t) : list byte := skipn (pos f) (buf f).

End BytesIO.

Module Wave.

Import Struct.

Definition WAVE_FORMAT_PCM : Z := 1.

(** The fields of [wave.Wave_write] that [initfp] sets, with the file
    object it writes to. *)
Record Wave_write := mk {
  _file : BytesIO.t;
  _nchannels : Z;
  _sampwidth : Z;
  _framerate : Z;
  _nframes : Z;
  _nframeswritten : Z;
  _datawritten : Z;
  _datalength : Z;
  _headerwritten : bool;
  _form_length_pos : nat;
  _data_length_pos : nat
}.

Definition initfp (file : BytesIO.t) : Wave_write :=
  {| _file := file; _nchannels := 0; _sampwidth := 0; _framerate := 0;
     _nframes := 0; _nframeswritten := 0; _datawritten := 0;
     _datalength := 0; _headerwritten := false;
     _form_length_pos := 0; _data_length_pos := 0 |}.

Definition set_file f (w : Wave_write) :=
  mk f (_nchannels w) (_sampwidth w) (_framerate w) (_nframes w)
     (_nframeswritten w) (_datawritten w) (_datalength w)
     (_headerwritten w) (_form_length_pos w) (_data_length_pos w).
Definition set_nchannels v (w : Wave_write) :=
  mk (_file w) v (_sampwidth w) (_framerate w) (_nframes w)
     (_nframeswritten w) (_datawritten w) (_datalength w)
     (_headerwritten w) (_form_length_pos w) (_data_length_pos w).
Definition set_sampwidth v (w : Wave_write) :=
  mk (_file w) (_nchannels w) v (_framerate w) (_nframes w)
     (_nframeswritten w) (_datawritten w) (_datalength w)
     (_headerwritten w) (_form_length_pos w) (_data_length_pos w).
Definition set_framerate v (w : Wave_write) :=
  mk (_file w) (_nchannels w) (_sampwidth w) v (_nframes w)
     (_nframeswritten w) (_datawritten w) (_datalength w)
     (_headerwritten w) (_form_length_pos w) (_data_length_pos w).
Definition set_nframes v (w : Wave_write) :=
  mk (_file w) (_nchannels w) (_sampwidth w) (_framerate w) v
     (_nframeswritten w) (_datawritten w) (_datalength w)
     (_headerwritten w) (_form_length_pos w) (_data_length_pos w).
Definition set_nframeswritten v (w : Wave_write) :=
  mk (_file w) (_nchannels w) (_sampwidth w) (_framerate w) (_nframes w)
     v (_datawritten w) (_datalength w)
     (_headerwritten w) (_form_length_pos w) (_data_length_pos w).
Definition set_datawritten v (w : Wave_write) :=
  mk (_file w) (_nchannels w) (_sampwidth w) (_framerate w) (_nframes w)
     (_nframeswritten w) v (_datalength w)
     (_headerwritten w) (_form_length_pos w) (_data_length_pos w).
Definition set_datalength v (w : Wave_write) :=
  mk (_file w) (_nchannels w) (_sampwidth w) (_framerate w) (_nframes w)
     (_nframeswritten w) (_datawritten w) v
     (_headerwritten w) (_form_length_pos w) (_data_length_pos w).
Definition set_headerwritten v (w : Wave_write) :=
  mk (_file w) (_nchannels w) (_sampwidth w) (_framerate w) (_nframes w)
     (_nframeswritten w) (_datawritten w) (_datalength w)
     v (_form_length_pos w) (_data_length_pos w).
Definition set_form_length_pos v (w : Wave_write) :=
  mk (_file w) (_nchannels w) (_sampwidth w) (_framerate w) (_nframes w)
     (_nframeswritten w) (_datawritten w) (_datalength w)
     (_headerwritten w) v (_data_length_pos w).
Definition set_data_length_pos v (w : Wave_write) :=
  mk (_file w) (_nchannels w) (_sampwidth w) (_framerate w) (_nframes w)
     (_nframeswritten w) (_datawritten w) (_datalength w)
     (_headerwritten w) (_form_length_pos w) v.

Local Open Scope py_scope.

Definition W (A : Type) : Type := M Wave_write A.

(** [self._file.write(data)], [self._file.seek(p, 0)] *)
Definition file_write (data : list byte) : W unit :=
  modify (fun w => set_file (BytesIO.write (_file w) data) w).
Definition file_seek (p : nat) : W unit :=
  modify (fun w => set_file (BytesIO.seek (_file w) p) w).
Definition file_tell : W nat := gets (fun w => BytesIO.tell (_file w)).

Definition already_writing : exn :=
  WaveError "cannot change parameters after starting to write".

Definition setnchannels (nchannels : Z) : W unit :=
  do dw <- gets _datawritten;
  if negb (dw =? 0) then raise already_writing
  else if nchannels <? 1 then raise (WaveError "bad # of channels")
  else modify (set_nchannels nchannels).

Definition setsampwidth (sampwidth : Z) : W unit :=
  do dw <- gets _datawritten;
  if negb (dw =? 0) then raise already_writing
  else if (sampwidth <? 1) || (4 <? sampwidth)
       then raise (WaveError "bad sample width")
  else modify (set_sampwidth sampwidth).

(** [framerate] is an integer here, so [int(round(framerate))] is it. *)
Definition setframerate (framerate : Z) : W unit :=
  do dw <- gets _datawritten;
  if negb (dw =? 0) then raise already_writing
  else if framerate <=? 0 then raise (WaveError "bad frame rate")
  else modify (set_framerate framerate).

(** [struct.pack('<L4s4sLHHLLHH4s', ...)] of [_write_header]. *)
Definition pack_header (form_length nchannels framerate byterate
                        blockalign bits : Z) : result (list byte) :=
  match pack_L form_length, pack_L 16, pack_H WAVE_FORMAT_PCM,
        pack_H nchannels, pack_L framerate, pack_L byterate,
        pack_H blockalign, pack_H bits with
  | Ok a, Ok b, Ok c, Ok d, Ok e, Ok f, Ok g, Ok h =>
      Ok (a ++ bytes_of "WAVE" ++ bytes_of "fmt " ++ b ++ c ++ d ++ e
            ++ f ++ g ++ h ++ bytes_of "data")%list
  | _, _, _, _, _, _, _, _ => Raise StructError
  end.

Definition _write_header (initlength : Z) : W unit :=
  run file_write (bytes_of "RIFF");
  do w0 <- get;
  run (if _nframes w0 =? 0
       then modify (set_nframes
                      (initlength / (_nchannels w0 * _sampwidth w0)))
       else ret tt);
  do w1 <- get;
  run modify (set_datalength
                (_nframes w1 * _nchannels w1 * _sampwidth w1));
  do p <- file_tell;
  run modify (set_form_length_pos p);
  do w <- get;
  do hdr <- lift (pack_header (36 + _datalength w) (_nchannels w)
                    (_framerate w)
                    (_nchannels w * _framerate w * _sampwidth w)
                    (_nchannels w * _sampwidth w)
                    (_sampwidth w * 8));
  run file_write hdr;
  do q <- file_tell;
  run modify (set_data_length_pos q);
  do len <- lift (pack_L (_datalength w));
  run file_write len;
  modify (set_headerwritten true).

Definition _ensure_header_written (datasize : Z) : W unit :=
  do w <- get;
  if _headerwritten w then ret tt
  else if _nchannels w =? 0
       then raise (WaveError "# channels not specified")
  else if _sampwidth w =? 0
       then raise (WaveError "sample width not specified")
  else if _framerate w =? 0
       then raise (WaveError "sampling rate not specified")
  else _write_header datasize.

Definition _patchheader : W unit :=
  do w <- get;
  if _datawritten w =? _datalength w then ret tt
  else
    do curpos <- file_tell;
    run file_seek (_form_length_pos w);
    do a <- lift (pack_L (36 + _datawritten w));
    run file_write a;
    run file_seek (_data_length_pos w);
    do b <- lift (pack_L (_datawritten w));
    run file_write b;
    run file_seek curpos;
    modify (set_datalength (_datawritten w)).

(** On a little-endian host the samples are written as they are. *)
Definition writeframesraw (data : list byte) : W unit :=
  let len := Z.of_nat (length data) in
  run _ensure_header_written len;
  do w <- get;
  let nframes := len / (_sampwidth w * _nchannels w) in
  run file_write data;
  run modify (fun w => set_datawritten (_datawritten w + len) w);
  modify (fun w => set_nframeswritten (_nframeswritten w + nframes) w).

Definition writeframes (data : list byte) : W unit :=
  run writeframesraw data;
  do w <- get;
  if negb (_datalength w =? _datawritten w) then _patchheader else ret tt.

Definition close : W unit :=
  run _ensure_header_written 0;
  do w <- get;
  if negb (_datalength w =? _datawritten w) then _patchheader else ret tt.

(** [with wave.open(buf, "wb") as wf: body]: the writer is closed on the
    way out, also when [body] raises. *)
Definition with_open (buf : BytesIO.t) (body : W unit)
  : result unit * BytesIO.t :=
  let (r, w) := try_finally body close (initfp buf) in (r, _file w).

End Wave.

(** ** [server.py]: the HTTP service *)

Module Server.

Local Open Scope py_scope.

Definition CORE_MODEL_PATH : string := "models/kokoro-v1_0.pth".
Definition VOICE_DIR : string := "models/voices".

(** [class Settings(BaseModel)] *)
Record Settings := mkSettings { lang_code : string; voice : string }.

(** [Settings()]: the field defaults. *)
Definition Settings_default : Settings :=
  {| lang_code := "a"; voice := "af_sky" |}.

(** [class SettingsOut(Settings)] *)
Record SettingsOut := mkSettingsOut {
  out_lang_code : string;
  out_voice : string;
  available_voices : list string
}.

(** A value of a decoded JSON body. *)
Inductive value : Type :=
| VNone
| VBool (b : bool)
| VInt (z : Z)
| VStr (s : string)
| VOther.

(** One audio chunk yielded by the pipeline; [tobytes] is what
    [f.tobytes()] gives. *)
Record Audio := mkAudio { tobytes : list byte }.

(** The loaded model object, with its identity. *)
Record KModel := mkKModel { kmodel_id : nat; kmodel_path : string }.

(** A pipeline object: the arguments [KPipeline] was constructed with. *)
Record KPipeline := mkKPipeline { model : KModel; pipe_lang_code : string }.

(** What is found at [VOICE_DIR]. *)
Inductive path_state : Type :=
| Missing
| RegularFile
| Directory (entries : list string).

(** The external engine and the file system at start. *)
Record Env := mkEnv {
  core_model_exists : bool;
  KModel_loads : string -> bool;
  KPipeline_accepts : string -> bool;
  pipeline_yields : KPipeline -> string -> value -> answer (list Audio)
}.

Inductive Event : Type :=
| NewKModel (m : KModel)
| NewKPipeline (p : KPipeline)
| PipelineCall (p : KPipeline) (text : string) (v : value)
| SdPlay (a : Audio)
| SdWait.

(** The module globals, the voice directory as it is now, and what has
    happened so far. *)
Record State := mkState {
  core_model : KModel;
  settings : Settings;
  pipeline : KPipeline;
  voice_dir : path_state;
  events : list Event
}.

Definition set_settings (s : Settings) (st : State) : State :=
  mkState (core_model st) s (pipeline st) (voice_dir st) (events st).
Definition set_pipeline (p : KPipeline) (st : State) : State :=
  mkState (core_model st) (settings st) p (voice_dir st) (events st).
Definition set_voice_dir (d : path_state) (st : State) : State :=
  mkState (core_model st) (settings st) (pipeline st) d (events st).
Definition emit (e : Event) (st : State) : State :=
  mkState (core_model st) (settings st) (pipeline st) (voice_dir st)
          (events st ++ [e]).

Inductive Response : Type :=
| SettingsResponse (out : SettingsOut)
| StreamingResponse (body : list byte) (media_type : string)
                    (headers : list (string * string))
| JSONResponse (fields : list (string * string)).

(** The status FastAPI answers with. *)
Definition http_status (r : result Response) : Z :=
  match r with
  | Ok _ => 200
  | Raise (HTTPException code _) => code
  | _ => 500
  end.

Section handlers.

Context (env : Env).

(** [KPipeline(model=m, lang_code=lang_code)] *)
Definition KPipeline_new (m : KModel) (lang_code : string)
  : result KPipeline :=
  if KPipeline_accepts env lang_code
  then Ok {| model := m; pipe_lang_code := lang_code |}
  else Raise EngineError.

Definition create_pipeline (lang_code : string) : M State KPipeline :=
  do m <- gets core_model;
  do p <- lift (KPipeline_new m lang_code);
  run modify (emit (NewKPipeline p));
  ret p.

(** Module initialisation, lines 26-39: the globals after import. *)
Definition startup (d : path_state) : result State :=
  if negb (core_model_exists env)
  then Raise (RuntimeError ("Core model not found at " ++ CORE_MODEL_PATH))
  else if negb (KModel_loads env CORE_MODEL_PATH) then Raise EngineError
  else
    let m := {| kmodel_id := 0; kmodel_path := CORE_MODEL_PATH |} in
    let s := Settings_default in
    match KPipeline_new m (lang_code s) with
    | Ok p => Ok {| core_model := m; settings := s; pipeline := p;
                    voice_dir := d;
                    events := [NewKModel m; NewKPipeline p] |}
    | Raise e => Raise e
    | Exit c => Exit c
    end.

(** [p.name for p in VOICE_DIR.glob("*.pt")] over what is at
    [VOICE_DIR]. *)
Definition glob_pt (d : path_state) : list string :=
  match d with
  | Directory entries => List.filter (fun n => endswith n ".pt") entries
  | _ => []
  end.

Definition exists_ (d : path_state) : bool :=
  match d with Missing => false | _ => true end.

Definition get_available_voices : M State (list string) :=
  do d <- gets voice_dir;
  if negb (exists_ d) then ret []
  else ret (glob_pt d).

(** [GET /settings] *)
Definition get_settings : M State Response :=
  do st <- get;
  do voices <- get_available_voices;
  ret (SettingsResponse
         {| out_lang_code := lang_code (settings st);
            out_voice := voice (settings st);
            available_voices := voices |}).

(** The text of [{voices}] in the error detail: the names in single
    quotes, as [repr] prints names without quotes or escapes. *)
Definition repr_list (l : list string) : string :=
  "[" ++ String.concat ", " (map (fun s => "'" ++ s ++ "'") l) ++ "]".

(** [POST /settings] *)
Definition update_settings (new : Settings) : M State Response :=
  do voices <- get_available_voices;
  if negb (bool_decide (voice new ∈ voices))
  then raise (HTTPException 400
                ("Voice '" ++ voice new ++ "' not found. Available: "
                   ++ repr_list voices))
  else
    run modify (set_settings new);
    do s <- gets settings;
    do p <- create_pipeline (lang_code s);
    run modify (set_pipeline p);
    do st <- get;
    ret (SettingsResponse
           {| out_lang_code := lang_code (settings st);
              out_voice := voice (settings st);
              available_voices := voices |}).

(** [data.get("text", "").strip()]: [strip] exists on strings only. *)
Definition get_text (data : gmap string value) : result string :=
  match default (VStr "") (data !! "text") with
  | VStr s => Ok (strip s)
  | _ => Raise AttributeError
  end.

(** [pipeline(text, voice=voice)], run to its end. *)
Definition call_pipeline (text : string) (v : value)
  : M State (list Audio) :=
  do p <- gets pipeline;
  run modify (emit (PipelineCall p text v));
  external (pipeline_yields env p text v).

(** Lines 92-99: the frames joined and written through [wave]. *)
Definition write_wav (pcm : list byte) : result (list byte) :=
  let buf := BytesIO.empty in
  let (r, buf) :=
    Wave.with_open buf
      (run Wave.setnchannels 1;
       run Wave.setsampwidth 2;
       run Wave.setframerate 24000;
       Wave.writeframes pcm) in
  match r with
  | Ok _ => Ok (BytesIO.read (BytesIO.seek buf 0))
  | Raise e => Raise e
  | Exit c => Exit c
  end.

(** [POST /synthesize_file] *)
Definition synthesize_file (data : gmap string value) : M State Response :=
  do text <- lift (get_text data);
  do st <- get;
  let v := default (VStr (voice (settings st))) (data !! "voice") in
  if negb (truthy text)
  then raise (HTTPException 400 "`text` required")
  else
    do frames <- call_pipeline text v;
    match frames with
    | [] => raise (HTTPException 500 "No audio generated")
    | _ =>
        let pcm := concat (map tobytes frames) in
        do body <- lift (write_wav pcm);
        ret (StreamingResponse body "audio/wav"
               [("Content-Disposition", "attachment; filename=output.wav")])
    end.

Fixpoint play_all (frames : list Audio) : M State unit :=
  match frames with
  | [] => ret tt
  | a :: rest =>
      run modify (emit (SdPlay a));
      run modify (emit SdWait);
      play_all rest
  end.

(** [POST /play_live] *)
Definition play_live (data : gmap string value) : M State Response :=
  do text <- lift (get_text data);
  do st <- get;
  let v := default (VStr (voice (settings st))) (data !! "voice") in
  if negb (truthy text)
  then raise (HTTPException 400 "`text` required")
  else
    do frames <- call_pipeline text v;
    run play_all frames;
    ret (JSONResponse [("status", "played")]).

(** What reaches the service: a request on one of its routes, or a
    change of the voice directory made from outside. *)
Inductive Request : Type :=
| GetSettings
| PostSettings (new : Settings)
| PostSynthesizeFile (data : gmap string value)
| PostPlayLive (data : gmap string value)
| VoiceDirChanged (d : path_state).

Definition handle (rq : Request) : M State Response :=
  match rq with
  | GetSettings => get_settings
  | PostSettings new => update_settings new
  | PostSynthesizeFile data => synthesize_file data
  | PostPlayLive data => play_live data
  | VoiceDirChanged d =>
      run modify (set_voice_dir d); ret (JSONResponse [])
  end.

(** The state after a sequence of requests. *)
Fixpoint serve (rqs : list Request) (st : State) : State :=
  match rqs with
  | [] => st
  | rq :: rest => serve rest (snd (handle rq st))
  end.

End handlers.

End Server.

(** ** [kokorofile.py]: the command-line tool and its own HTTP mode *)

Module Kokorofile.

Local Open Scope py_scope.

(** Python floats are only passed along by this code. *)
Definition float : Type := QArith_base.Q.

(** The samples [kokoro.create] returns, opaque to this code. *)
Definition Samples : Type := list float.

Inductive inode : Type :=
| File (content : string)
| Dir.

(** A loaded [Kokoro] object, with its identity. *)
Record Kokoro := mkKokoro {
  kokoro_id : nat;
  kokoro_model_path : string;
  kokoro_voices_path : string
}.

(** What [urllib.request.urlretrieve] can do: fetch the whole file, fail
    before the target is created, or fail after writing a part of it. *)
Inductive fetch : Type :=
| Fetched (content : string)
| Unreachable
| Truncated (content : string).

(** How [uvicorn.run] goes: the server starts, answers what arrives and
    the call returns once it is stopped; or the socket cannot be bound,
    an [OSError] that uvicorn logs before it calls [sys.exit(1)]; or
    another exception leaves the call, as [OverflowError] does for a port
    that is no 16-bit number.  What uvicorn writes to its own log is not
    part of the trace. *)
Inductive start : Type :=
| Started
| BindFailed
| Crashed (e : exn).

(** [class TTSRequest(BaseModel)] *)
Record TTSRequest := mkTTSRequest {
  rq_text : string;
  rq_voice : string;
  rq_speed : float;
  rq_lang : string
}.

Inductive Request : Type :=
| PostSynthesize (request : TTSRequest)
| GetVoices
| GetDevices.

Inductive Response : Type :=
| FileResponse (path media_type filename : string)
| VoicesResponse (voices : list string)
| DevicesResponse (devices : string).

(** The [argparse] namespace of [main]. *)
Record Args := mkArgs {
  input : option string;
  output : option string;
  device : option Z;
  list_devices : bool;
  cache_dir : option string;
  data_dir : option string;
  voice : string;
  speed : float;
  lang : string;
  debug : bool;
  server : bool;
  host : string;
  port : Z
}.

(** The external collaborators: platform directories, file permissions,
    the network at each moment, the engine, the sound libraries, the
    interpreter's text input and output, the socket, and the requests
    that arrive in server mode.

    [read_text path bytes] is what [open(path, 'r').read()] gives for a
    file holding [bytes]: the text decoded in the locale's encoding with
    line ends translated, or the exception of a file that cannot be
    opened or decoded.  [stdin_read] is [sys.stdin.read()] likewise.
    [tempfile_name] is the name [tempfile] picks at a given moment, or
    its failure.  [str_exn e] is [str(e)].  [stdout_flushes] tells
    whether what was printed can be written out when the interpreter
    shuts down. *)
Record Env := mkEnv {
  user_cache_dir : string;
  user_data_dir : string;
  makedirs_allowed : string -> bool;
  urlretrieve_outcome : nat -> string -> fetch;
  Kokoro_loads : string -> string -> bool;
  kokoro_create : string -> string -> float -> string
                  -> answer (Samples * Z);
  sf_write_bytes : string -> Samples -> Z -> answer string;
  sd_play_ok : option Z -> bool;
  query_devices : string;
  read_text : string -> string -> answer string;
  stdin_read : answer string;
  tempfile_name : nat -> answer string;
  str_exn : exn -> string;
  uvicorn_start : string -> Z -> start;
  stdout_flushes : bool;
  incoming : list Request
}.

(** The text of a log record, before formatting. *)
Inductive Message : Type :=
| MsgDownloading (name : string)
| MsgGenerating (voice : string) (speed : float) (lang : string)
| MsgError (e : exn).

Inductive Event : Type :=
| Stdout (s : string)
| Stderr (s : string)
| Traceback (e : exn)
| LogRecord (levelno : Z) (msg : Message)
| Makedirs (path : string)
| Urlretrieve (url path : string)
| NewKokoro (k : Kokoro)
| KokoroCreate (k : Kokoro) (text voice : string) (speed : float)
               (lang : string)
| SfWrite (file : string) (audio : Samples) (rate : Z)
| SdPlay (audio : Samples) (rate : Z) (device : option Z)
| SdWait
| QueryDevices
| NamedTemporaryFile (path : string)
| UvicornRun (host : string) (port : Z).

(** The file system, the root logger's level once configured, the number
    of objects created, and what has happened so far. *)
Record World := mkWorld {
  fs : gmap string inode;
  log_level : option Z;
  next_id : nat;
  trace : list Event
}.

Definition set_fs (f : gmap string inode) (w : World) : World :=
  mkWorld f (log_level w) (next_id w) (trace w).
Definition set_log_level (l : option Z) (w : World) : World :=
  mkWorld (fs w) l (next_id w) (trace w).
Definition set_next_id (n : nat) (w : World) : World :=
  mkWorld (fs w) (log_level w) n (trace w).
Definition emit (e : Event) (w : World) : World :=
  mkWorld (fs w) (log_level w) (next_id w) (trace w ++ [e]).

Definition DEBUG : Z := 10.
Definition INFO : Z := 20.
Definition WARNING : Z := 30.
Definition ERROR : Z := 40.

(** [logging.basicConfig(level=...)]: no effect once configured. *)
Definition basicConfig (level : Z) : M World unit :=
  do l <- gets log_level;
  match l with
  | Some _ => ret tt
  | None => modify (set_log_level (Some level))
  end.

(** [logging.info], [logging.error]: configure with the default level if
    nothing did, then write the record when the level lets it through. *)
Definition logging_log (levelno : Z) (msg : Message) : M World unit :=
  run basicConfig WARNING;
  do l <- gets log_level;
  if default WARNING l <=? levelno
  then modify (emit (LogRecord levelno msg))
  else ret tt.

Definition setup_logging (debug : bool) : M World unit :=
  let level := if debug then DEBUG else INFO in
  basicConfig level.

(** [print(s)]: the line goes into the buffer of standard output; a
    device that cannot take it shows when the buffer is written out, at
    the end of the process (see [exit_status]).
    [print(s, file=sys.stderr)] writes the line at once. *)
Definition print (s : string) : M World unit := modify (emit (Stdout s)).
Definition print_stderr (s : string) : M World unit :=
  modify (emit (Stderr s)).
Definition sys_exit {A} (code : Z) : M World A := fun w => (Exit code, w).

(** [os.path.exists], [os.path.isfile] *)
Definition os_path_exists (path : string) : M World bool :=
  gets (fun w => bool_decide (is_Some (fs w !! path))).
Definition os_path_isfile (path : string) : M World bool :=
  gets (fun w => match fs w !! path with
                 | Some (File _) => true
                 | _ => false
                 end).

(** [os.path.join(a, b)] on POSIX. *)
Definition os_path_join (a b : string) : string :=
  if String.prefix "/" b then b
  else if negb (truthy a) || endswith a "/" then a ++ b
  else a ++ "/" ++ b.

(** [os.path.basename(p)]: what follows the last slash. *)
Fixpoint os_path_basename (p : string) : string :=
  match p with
  | EmptyString => EmptyString
  | String c p' =>
      if contains "/" p then os_path_basename p' else p
  end.

(** [str(n)] for an integer. *)
Definition str_int (n : Z) : string :=
  DecimalString.NilZero.string_of_int (Z.to_int n).

Definition is_stdout (e : Event) : bool :=
  match e with Stdout _ => true | _ => false end.

Section program.

Context (env : Env).

(** [os.makedirs(path, exist_ok=True)] *)
Definition os_makedirs (path : string) : M World unit :=
  run modify (emit (Makedirs path));
  do w <- get;
  match fs w !! path with
  | Some Dir => ret tt
  | Some (File _) => raise (OSError path)
  | None =>
      if makedirs_allowed env path
      then modify (set_fs (<[path := Dir]> (fs w)))
      else raise (OSError path)
  end.

Definition get_cache_dirs : M World (string * string) :=
  let cache_dir := user_cache_dir env in
  let data_dir := user_data_dir env in
  run os_makedirs cache_dir;
  run os_makedirs data_dir;
  ret (cache_dir, data_dir).

(** [urllib.request.urlretrieve(url, path)]; the network answers by
    the moment of the call. *)
Definition urlretrieve (url path : string) : M World unit :=
  do w <- get;
  run modify (emit (Urlretrieve url path));
  match urlretrieve_outcome env (length (trace w)) url with
  | Fetched c => modify (set_fs (<[path := File c]> (fs w)))
  | Unreachable => raise (URLError url)
  | Truncated c =>
      run modify (set_fs (<[path := File c]> (fs w)));
      raise (URLError url)
  end.

Definition model_url : string :=
  "https://github.com/thewh1teagle/kokoro-onnx/releases/download/model-files-v1.0/kokoro-v1.0.onnx".
Definition voices_url : string :=
  "https://github.com/thewh1teagle/kokoro-onnx/releases/download/model-files-v1.0/voices-v1.0.bin".

Definition download_file (url path : string) : M World string :=
  do there <- os_path_exists path;
  run (if negb there
       then run logging_log INFO (MsgDownloading (os_path_basename path));
            urlretrieve url path
       else ret tt);
  ret path.

Definition download_model_files (cache_dir : string)
  : M World (string * string) :=
  let model_path := os_path_join cache_dir "kokoro-v1.0.onnx" in
  let voices_path := os_path_join cache_dir "voices-v1.0.bin" in
  do a <- download_file model_url model_path;
  do b <- download_file voices_url voices_path;
  ret (a, b).

(** [Kokoro(model_path, voices_path)]: a new object on every call. *)
Definition Kokoro_new (model_path voices_path : string) : M World Kokoro :=
  do w <- get;
  match fs w !! model_path, fs w !! voices_path with
  | Some (File m), Some (File v) =>
      if Kokoro_loads env m v
      then
        let k := mkKokoro (next_id w) model_path voices_path in
        run modify (set_next_id (S (next_id w)));
        run modify (emit (NewKokoro k));
        ret k
      else raise EngineError
  | _, _ => raise (OSError model_path)
  end.

(** [kokoro.create(text, voice=..., speed=..., lang=...)] *)
Definition Kokoro_create (k : Kokoro) (text voice : string)
           (speed : float) (lang : string) : M World (Samples * Z) :=
  run modify (emit (KokoroCreate k text voice speed lang));
  external (kokoro_create env text voice speed lang).

(** [sf.write(file, audio, rate)] *)
Definition sf_write (file : string) (audio : Samples) (rate : Z)
  : M World unit :=
  run modify (emit (SfWrite file audio rate));
  do c <- external (sf_write_bytes env file audio rate);
  modify (fun w => set_fs (<[file := File c]> (fs w)) w).

(** [sd.play(audio, rate, device=device)], [sd.wait()] *)
Definition sd_play (audio : Samples) (rate : Z) (device : option Z)
  : M World unit :=
  run modify (emit (SdPlay audio rate device));
  if sd_play_ok env device then ret tt else raise (OSError "").
Definition sd_wait : M World unit := modify (emit SdWait).

Definition text_to_speech (text : string) (output_file : option string)
           (device : option Z) (voice : string) (speed : float)
           (lang : string) (debug : bool) : M World unit :=
  do ' (cache_dir, data_dir) <- get_cache_dirs;
  do ' (model_path, voices_path) <- download_model_files cache_dir;
  do kokoro <- Kokoro_new model_path voices_path;
  run logging_log INFO (MsgGenerating voice speed lang);
  do ' (audio, sample_rate) <- Kokoro_create kokoro text voice speed lang;
  let play :=
    match device with
    | Some d => run sd_play audio sample_rate (Some d); sd_wait
    | None => run sd_play audio sample_rate None; sd_wait
    end in
  match output_file with
  | Some f =>
      if truthy f
      then run sf_write f audio sample_rate;
           print ("Audio saved to " ++ f)
      else play
  | None => play
  end.

(** [tempfile.NamedTemporaryFile(suffix=".wav", delete=False)]: a new
    empty file under a name not in use, left on disk; [tempfile] raises
    when it finds no such name or cannot create the file. *)
Definition NamedTemporaryFile_new : M World string :=
  do w <- get;
  do path <- external (tempfile_name env (length (trace w)));
  if bool_decide (is_Some (fs w !! path))
  then raise (OSError path)
  else
    run modify (emit (NamedTemporaryFile path));
    run modify (fun w => set_fs (<[path := File ""]> (fs w)) w);
    ret path.

(** [POST /synthesize] *)
Definition synthesize (request : TTSRequest) : M World Response :=
  try_except
    (do output_path <- NamedTemporaryFile_new;
     run text_to_speech (rq_text request) (Some output_path) None
           (rq_voice request) (rq_speed request) (rq_lang request) false;
     ret (FileResponse output_path "audio/wav" "output.wav"))
    (fun e => raise (HTTPException 500 (str_exn env e))).

(** [GET /voices], [GET /devices] *)
Definition list_voices : M World Response :=
  ret (VoicesResponse ["af_sarah"]).
Definition list_devices_route : M World Response :=
  run modify (emit QueryDevices);
  ret (DevicesResponse (query_devices env)).

Definition handle (rq : Request) : M World Response :=
  match rq with
  | PostSynthesize request => synthesize request
  | GetVoices => list_voices
  | GetDevices => list_devices_route
  end.

(** [uvicorn.run(app, ...)]: every request is answered; an exception
    of a handler ends that request only. *)
Fixpoint serve (rqs : list Request) : M World unit :=
  match rqs with
  | [] => ret tt
  | rq :: rest => fun w => serve rest (snd (handle rq w))
  end.

(** [uvicorn.run(app, host=host, port=port)] *)
Definition uvicorn_run (host : string) (port : Z) : M World unit :=
  run modify (emit (UvicornRun host port));
  match uvicorn_start env host port with
  | Started => serve (incoming env)
  | BindFailed => sys_exit 1
  | Crashed e => raise e
  end.

Definition run_server (host : string) (port : Z) : M World unit :=
  run print ("Server running at http://" ++ host ++ ":" ++ str_int port);
  run print ("API documentation available at http://" ++ host ++ ":"
               ++ str_int port ++ "/docs");
  uvicorn_run host port.

Definition newline : string := String (ascii_of_nat 10) EmptyString.

(** [open(path, 'r').read()] *)
Definition read_file (path : string) : M World string :=
  do w <- get;
  match fs w !! path with
  | Some (File content) => external (read_text env path content)
  | _ => raise (OSError path)
  end.

(** Lines 179-188: where the text comes from. *)
Definition read_input (args : Args) : M World string :=
  if match input args with Some i => truthy i | None => false end
  then
    let i := default "" (input args) in
    do isfile <- os_path_isfile i;
    if isfile
    then do content <- read_file i; ret (strip content)
    else ret i
  else do content <- external (stdin_read env); ret (strip content).

Definition main (args : Args) : M World unit :=
  run setup_logging (debug args);
  if server args then run_server (host args) (port args)
  else if list_devices args then
    run print (newline ++ "Available audio devices:");
    run modify (emit QueryDevices);
    print (query_devices env)
  else
    do text <- read_input args;
    run (if negb (truthy text)
         then run print_stderr "Error: No input text provided";
              sys_exit 1
         else ret tt);
    try_except
      (text_to_speech text (output args) (device args) (voice args)
                      (speed args) (lang args) (debug args))
      (fun e => run logging_log ERROR (MsgError e); sys_exit 1).

(** What the interpreter makes of [main]: status 0 when it returns,
    the argument of [sys.exit], and status 1 after the traceback of an
    exception nothing caught. *)
Definition run_cli (args : Args) (w : World) : Z * World :=
  match main args w with
  | (Ok _, w') => (0, w')
  | (Exit code, w') => (code, w')
  | (Raise e, w') => (1, emit (Traceback e) w')
  end.

(** What the run wrote to standard output: the [print]s since [w]. *)
Definition printed (w w' : World) : list Event :=
  List.filter is_stdout (skipn (length (trace w)) (trace w')).

(** The status the shell sees.  When the interpreter shuts down it
    writes out what [print] left in the buffer of standard output, and
    when that fails the status is 120 whatever [main] did. *)
Definition exit_status (args : Args) (w : World) : Z * World :=
  let (code, w') := run_cli args w in
  match printed w w' with
  | [] => (code, w')
  | _ => if stdout_flushes env then (code, w') else (120, w')
  end.

End program.

Definition is_stderr (e : Event) : bool :=
  match e with
  | Stderr _ | Traceback _ | LogRecord _ _ => true
  | _ => false
  end.

(** The events of the synthesis path: fetching the model files, loading
    the model, running it. *)
Definition is_synthesis (e : Event) : bool :=
  match e with
  | Urlretrieve _ _ | NewKokoro _ | KokoroCreate _ _ _ _ _ => true
  | _ => false
  end.

Definition is_download_of (path : string) (e : Event) : bool :=
  match e with
  | Urlretrieve _ p => String.eqb p path
  | _ => false
  end.

Definition is_NewKokoro (e : Event) : bool :=
  match e with NewKokoro _ => true | _ => false end.

End Kokorofile.

(** ** Definitions used to state the properties *)

Module WaveSpec.

Import Struct Wave.

(** The unsigned little-endian field of [len] bytes at offset [off]. *)
Definition field (out : list byte) (off len : nat) : Z :=
  unpack_le (slice out off len).

Definition u32 (n : Z) : list byte :=
  [le_byte n 0; le_byte n 1; le_byte n 2; le_byte n 3].
Definition u16 (n : Z) : list byte := [le_byte n 0; le_byte n 1].

(** The 44 bytes [wave] ends up with for [n] bytes of mono 16-bit
    samples at 24000 Hz. *)
Definition riff_header (n : Z) : list byte :=
  bytes_of "RIFF" ++ u32 (36 + n) ++ bytes_of "WAVE" ++ bytes_of "fmt "
    ++ u32 16 ++ u16 1 ++ u16 1 ++ u32 24000 ++ u32 48000 ++ u16 2
    ++ u16 16 ++ bytes_of "data" ++ u32 n.

(** The writer after the three setters of [synthesize_file]. *)
Definition configured : Wave_write :=
  Wave.mk BytesIO.empty 1 2 24000 0 0 0 0 false 0 0.

(** The writer once header and samples are in the file: [d] is the
    length the header announces, [dw] the number of bytes written. *)
Definition written (d dw nf nfw : Z) (pcm : list byte) : Wave_write :=
  Wave.mk (BytesIO.mk (riff_header d ++ pcm) (44 + length pcm)) 1 2 24000
          nf nfw dw d true 4 40.

(** The largest sample data whose sizes fit the 32-bit header fields. *)
Definition fits (pcm : list byte) : Prop :=
  36 + Z.of_nat (length pcm) <= 4294967295.

End WaveSpec.

Module ServerSpec.

Import Server.

(** The pipeline speaks the language the settings name. *)
Definition coherent (st : State) : Prop :=
  pipe_lang_code (pipeline st) = lang_code (settings st).

(** The voice a synthesis request runs with: the one of the request, or
    else the stored one. *)
Definition requested_voice (st : State) (data : gmap string value) : value :=
  default (VStr (voice (settings st))) (data !! "voice").

(** The text a request carries, when it is a string. *)
Definition text_field (data : gmap string value) : value :=
  default (VStr "") (data !! "text").

Definition is_NewKModel (e : Event) : bool :=
  match e with NewKModel _ => true | _ => false end.

(** An engine that knows American English only and answers every call
    with one chunk of two samples. *)
Definition strict_env : Env :=
  {| core_model_exists := true;
     KModel_loads := fun _ => true;
     KPipeline_accepts := fun l => String.eqb l "a";
     pipeline_yields := fun _ _ _ =>
       Returns [mkAudio [Byte.x01; Byte.x00; Byte.x02; Byte.x00]] |}.

(** An engine that yields nothing. *)
Definition silent_env : Env :=
  {| core_model_exists := true;
     KModel_loads := fun _ => true;
     KPipeline_accepts := fun l => String.eqb l "a";
     pipeline_yields := fun _ _ _ => Returns [] |}.

Definition one_voice : path_state := Directory ["af_sky.pt"; "notes.txt"].

Definition the_model : KModel :=
  {| kmodel_id := 0; kmodel_path := CORE_MODEL_PATH |}.

(** The state right after start with [one_voice] on disk. *)
Definition st0 : State :=
  {| core_model := the_model;
     settings := Settings_default;
     pipeline := {| model := the_model; pipe_lang_code := "a" |};
     voice_dir := one_voice;
     events := [NewKModel the_model;
                NewKPipeline {| model := the_model; pipe_lang_code := "a" |}] |}.

Definition say_hi : gmap string value := {["text" := VStr " hi "]}.

Definition say_hi_as (v : string) : gmap string value :=
  <["voice" := VStr v]> say_hi.

Definition say_nothing : gmap string value := {["text" := VStr "  "]}.

(** A text of an ideographic space (U+3000) and an em space (U+2003),
    in UTF-8. *)
Definition wide_blank : string :=
  String "227" (String "128" (String "128"
    (String "226" (String "128" (String "131" EmptyString))))).
Definition say_wide_blank : gmap string value :=
  {["text" := VStr wide_blank]}.

End ServerSpec.

Module ServerInvariants.

Import Server.

(** The pipeline in use was built on the shared core model. *)
Definition shares_model (st : State) : Prop :=
  model (pipeline st) = core_model st.

(** An event that loads no model and, where a pipeline is involved,
    involves one built on [m]. *)
Definition uses (m : KModel) (e : Event) : Prop :=
  match e with
  | NewKModel _ => False
  | NewKPipeline p => model p = m
  | PipelineCall p _ _ => model p = m
  | SdPlay _ | SdWait => True
  end.

(** The globals a synthesis request only reads. *)
Definition same_globals (st st' : State) : Prop :=
  core_model st' = core_model st /\ settings st' = settings st /\
  pipeline st' = pipeline st /\ voice_dir st' = voice_dir st.

End ServerInvariants.

Module KokorofileSpec.

Import Kokorofile.
Local Open Scope py_scope.

(** The first half of [text_to_speech]: directories, model files, and
    the model object. *)
Definition prepare (env : Env) : M World Kokoro :=
  do ' (cache_dir, data_dir) <- get_cache_dirs env;
  do ' (model_path, voices_path) <- download_model_files env cache_dir;
  Kokoro_new env model_path voices_path.

(** The end of [text_to_speech]: the audio goes to a file or to a
    device. *)
Definition deliver (env : Env) (audio : Samples) (sample_rate : Z)
           (output_file : option string) (device : option Z)
  : M World unit :=
  let play :=
    match device with
    | Some d => run sd_play env audio sample_rate (Some d); sd_wait
    | None => run sd_play env audio sample_rate None; sd_wait
    end in
  match output_file with
  | Some f =>
      if truthy f
      then run sf_write env f audio sample_rate;
           print ("Audio saved to " ++ f)
      else play
  | None => play
  end.

(** The second half: the engine call on [kokoro] and the output. *)
Definition speak (env : Env) (kokoro : Kokoro) (text : string)
           (output_file : option string) (device : option Z)
           (voice : string) (speed : float) (lang : string)
  : M World unit :=
  run logging_log INFO (MsgGenerating voice speed lang);
  do ' (audio, sample_rate) <- Kokoro_create env kokoro text voice speed lang;
  deliver env audio sample_rate output_file device.

(** A computation that only adds events satisfying [P] to the trace,
    creates no object, leaves a configured log level alone and never
    calls [sys.exit]. *)
Definition steps (P : Event -> Prop) {A} (m : M World A) : Prop :=
  forall w,
    (exists evs, trace (snd (m w)) = (trace w ++ evs)%list /\ Forall P evs)
    /\ next_id (snd (m w)) = next_id w
    /\ (forall l, log_level w = Some l -> log_level (snd (m w)) = Some l)
    /\ (forall c, fst (m w) <> Exit c).

(** An event that neither loads nor runs the model. *)
Definition no_model (e : Event) : Prop :=
  match e with
  | NewKokoro _ | KokoroCreate _ _ _ _ _ => False
  | _ => True
  end.

(** An event that loads no model and runs none but [k]. *)
Definition runs_only (k : Kokoro) (e : Event) : Prop :=
  match e with
  | NewKokoro _ => False
  | KokoroCreate k' _ _ _ _ => k' = k
  | _ => True
  end.

(** How often [urlretrieve] was called for [path]. *)
Definition downloads (path : string) (w : World) : nat :=
  length (List.filter (is_download_of path) (trace w)).

Definition is_KokoroCreate (e : Event) : bool :=
  match e with KokoroCreate _ _ _ _ _ => true | _ => false end.

(** Loading and running of models so far, oldest first. *)
Definition model_events (w : World) : list Event :=
  List.filter (fun e => is_NewKokoro e || is_KokoroCreate e) (trace w).

(** A process that has just started. *)
Definition fresh (w : World) : Prop := log_level w = None.

Definition model_path_in (cache_dir : string) : string :=
  os_path_join cache_dir "kokoro-v1.0.onnx".
Definition voices_path_in (cache_dir : string) : string :=
  os_path_join cache_dir "voices-v1.0.bin".

(** What [str] gives for the exceptions of the examples. *)
Definition texts (e : exn) : string :=
  match e with
  | EngineError => "engine failure"
  | UnicodeDecodeError => "invalid start byte"
  | OSError path => "No such file or directory: '" ++ path ++ "'"
  | _ => ""
  end.

(** Temporary files numbered by the moment they are asked for. *)
Definition fresh_name (n : nat) : answer string :=
  Returns ("/tmp/tmp" ++ str_int (Z.of_nat n) ++ ".wav").

(** A machine where everything works: the network delivers, the engine
    loads and speaks, nothing is typed on standard input. *)
Definition good_env : Env :=
  {| user_cache_dir := "/cache";
     user_data_dir := "/data";
     makedirs_allowed := fun _ => true;
     urlretrieve_outcome := fun _ _ => Fetched "weights";
     Kokoro_loads := fun _ _ => true;
     kokoro_create := fun _ _ _ _ => Returns ([], 24000);
     sf_write_bytes := fun _ _ _ => Returns "RIFF";
     sd_play_ok := fun _ => true;
     query_devices := "0 Built-in Output";
     read_text := fun _ bytes => Returns bytes;
     stdin_read := Returns "";
     tempfile_name := fresh_name;
     str_exn := texts;
     uvicorn_start := fun _ _ => Started;
     stdout_flushes := true;
     incoming := [] |}.

(** The same machine with an engine that fails. *)
Definition mute_env : Env :=
  {| user_cache_dir := "/cache";
     user_data_dir := "/data";
     makedirs_allowed := fun _ => true;
     urlretrieve_outcome := fun _ _ => Fetched "weights";
     Kokoro_loads := fun _ _ => true;
     kokoro_create := fun _ _ _ _ => Fails EngineError;
     sf_write_bytes := fun _ _ _ => Returns "RIFF";
     sd_play_ok := fun _ => true;
     query_devices := "0 Built-in Output";
     read_text := fun _ bytes => Returns bytes;
     stdin_read := Returns "";
     tempfile_name := fresh_name;
     str_exn := texts;
     uvicorn_start := fun _ _ => Started;
     stdout_flushes := true;
     incoming := [] |}.

Definition boot : World :=
  {| fs := ∅; log_level := None; next_id := 0; trace := [] |}.

(** A process that has just started on a disk that has the two
    directories. *)
Definition ready : World :=
  {| fs := <["/cache" := Dir]> (<["/data" := Dir]> ∅);
     log_level := None; next_id := 0; trace := [] |}.

Definition one : float := QArith_base.Qmake 1 1.

(** [kokorofile] with no argument, with a text, and with [-l]. *)
Definition no_args : Args :=
  {| input := None; output := None; device := None; list_devices := false;
     cache_dir := None; data_dir := None; voice := "af_sarah";
     speed := one; lang := "en-us"; debug := false; server := false;
     host := "127.0.0.1"; port := 8000 |}.
Definition hello_args : Args :=
  {| input := Some "hello"; output := None; device := None;
     list_devices := false; cache_dir := None; data_dir := None;
     voice := "af_sarah"; speed := one; lang := "en-us"; debug := false;
     server := false; host := "127.0.0.1"; port := 8000 |}.
Definition list_args : Args :=
  {| input := Some "hello"; output := Some "out.wav"; device := None;
     list_devices := true; cache_dir := None; data_dir := None;
     voice := "af_sarah"; speed := one; lang := "en-us"; debug := false;
     server := false; host := "127.0.0.1"; port := 8000 |}.

(** [kokorofile --server], and a machine on which two requests arrive
    at [/synthesize]. *)
Definition server_args : Args :=
  {| input := None; output := None; device := None; list_devices := false;
     cache_dir := None; data_dir := None; voice := "af_sarah";
     speed := one; lang := "en-us"; debug := false; server := true;
     host := "127.0.0.1"; port := 8000 |}.
Definition busy_env : Env :=
  {| user_cache_dir := "/cache";
     user_data_dir := "/data";
     makedirs_allowed := fun _ => true;
     urlretrieve_outcome := fun _ _ => Fetched "weights";
     Kokoro_loads := fun _ _ => true;
     kokoro_create := fun _ _ _ _ => Returns ([], 24000);
     sf_write_bytes := fun _ _ _ => Returns "RIFF";
     sd_play_ok := fun _ => true;
     query_devices := "0 Built-in Output";
     read_text := fun _ bytes => Returns bytes;
     stdin_read := Returns "";
     tempfile_name := fresh_name;
     str_exn := texts;
     uvicorn_start := fun _ _ => Started;
     stdout_flushes := true;
     incoming :=
       [PostSynthesize (mkTTSRequest "hello" "af_sarah" one "en-us");
        PostSynthesize (mkTTSRequest "again" "no_such_voice" one "en-us")] |}.

(** Two calls of [text_to_speech] in one process. *)
Definition speak_twice (env : Env) (voice : string) : M World unit :=
  run text_to_speech env "hello" None None voice one "en-us" false;
  text_to_speech env "again" None None voice one "en-us" false.

End KokorofileSpec.

(** ** Further definitions: examples and predicates for the properties of
       the remaining routes and helpers *)

Module MoreSpec.

Import Server ServerSpec.

(** An engine that takes every language code. *)
Definition accepting_env : Server.Env :=
  {| core_model_exists := true;
     KModel_loads := fun _ => true;
     KPipeline_accepts := fun _ => true;
     pipeline_yields := fun _ _ _ =>
       Returns [mkAudio [Byte.x01; Byte.x00]; mkAudio [Byte.x02; Byte.x00]] |}.

(** An engine whose only chunk holds no sample. *)
Definition hollow_env : Server.Env :=
  {| core_model_exists := true;
     KModel_loads := fun _ => true;
     KPipeline_accepts := fun l => String.eqb l "a";
     pipeline_yields := fun _ _ _ => Returns [mkAudio []] |}.

(** A machine without the core model file. *)
Definition bare_env : Server.Env :=
  {| core_model_exists := false;
     KModel_loads := fun _ => true;
     KPipeline_accepts := fun _ => true;
     pipeline_yields := fun _ _ _ => Returns [] |}.

(** An engine that answers with one chunk of 4294967260 bytes, a day of
    samples at 24000 Hz. *)
Definition long_chunk : Audio :=
  mkAudio (repeat Byte.x00 (Z.to_nat 4294967260)).
Definition long_env : Server.Env :=
  {| core_model_exists := true;
     KModel_loads := fun _ => true;
     KPipeline_accepts := fun l => String.eqb l "a";
     pipeline_yields := fun _ _ _ => Returns [long_chunk] |}.

(** Bodies [{"text": null}], [{"text": 5}] and [{}]. *)
Definition null_text : gmap string value := {["text" := VNone]}.
Definition number_text : gmap string value := {["text" := VInt 5]}.
Definition no_text : gmap string value := ∅.

(** What one played chunk leaves in the events. *)
Definition played (frames : list Audio) : list Server.Event :=
  flat_map (fun a => [Server.SdPlay a; Server.SdWait]) frames.

End MoreSpec.

Module CliSpec.

Import Kokorofile KokorofileSpec.

(** Events of the set-up work: directories, log records, fetches. *)
Definition housekeeping (e : Event) : Prop :=
  match e with
  | Makedirs _ | LogRecord _ _ | Urlretrieve _ _ => True
  | _ => False
  end.

(** Events that come before the audio is delivered. *)
Definition prelude (e : Event) : Prop :=
  match e with
  | Makedirs _ | LogRecord _ _ | Urlretrieve _ _ | NewKokoro _
  | KokoroCreate _ _ _ _ _ => True
  | _ => False
  end.

(** An event that plays nothing. *)
Definition plays_nothing (e : Event) : Prop :=
  match e with
  | SdPlay _ _ _ | SdWait => False
  | _ => True
  end.

(** An event that writes no audio file and announces none. *)
Definition saves_nothing (e : Event) : Prop :=
  match e with
  | SfWrite _ _ _ | Stdout _ => False
  | _ => True
  end.

(** A computation whose new events all satisfy [P]. *)
Definition emits (P : Event -> Prop) {A} (m : M World A) : Prop :=
  forall w,
    exists evs, trace (snd (m w)) = (trace w ++ evs)%list /\ Forall P evs.

(** A computation that removes nothing from the file system. *)
Definition grows {A} (m : M World A) : Prop :=
  forall w q, is_Some (fs w !! q) -> is_Some (fs (snd (m w)) !! q).

(** The arguments with other [--cache-dir] and [--data-dir]. *)
Definition with_dirs (c d : option string) (args : Args) : Args :=
  {| input := input args; output := output args; device := device args;
     list_devices := list_devices args; cache_dir := c; data_dir := d;
     voice := voice args; speed := speed args; lang := lang args;
     debug := debug args; server := server args; host := host args;
     port := port args |}.

(** A machine whose network breaks off every transfer. *)
Definition flaky_env : Env :=
  {| user_cache_dir := "/cache";
     user_data_dir := "/data";
     makedirs_allowed := fun _ => true;
     urlretrieve_outcome := fun _ _ => Truncated "wei";
     Kokoro_loads := fun m v => String.eqb m "weights" && String.eqb v "weights";
     kokoro_create := fun _ _ _ _ => Returns ([], 24000);
     sf_write_bytes := fun _ _ _ => Returns "RIFF";
     sd_play_ok := fun _ => true;
     query_devices := "0 Built-in Output";
     read_text := fun _ bytes => Returns bytes;
     stdin_read := Returns "";
     tempfile_name := fresh_name;
     str_exn := texts;
     uvicorn_start := fun _ _ => Started;
     stdout_flushes := true;
     incoming := [] |}.

(** The same machine once the network works again. *)
Definition mended_env : Env :=
  {| user_cache_dir := "/cache";
     user_data_dir := "/data";
     makedirs_allowed := fun _ => true;
     urlretrieve_outcome := fun _ _ => Fetched "weights";
     Kokoro_loads := fun m v => String.eqb m "weights" && String.eqb v "weights";
     kokoro_create := fun _ _ _ _ => Returns ([], 24000);
     sf_write_bytes := fun _ _ _ => Returns "RIFF";
     sd_play_ok := fun _ => true;
     query_devices := "0 Built-in Output";
     read_text := fun _ bytes => Returns bytes;
     stdin_read := Returns "";
     tempfile_name := fresh_name;
     str_exn := texts;
     uvicorn_start := fun _ _ => Started;
     stdout_flushes := true;
     incoming := [] |}.

(** A machine without network. *)
Definition offline_env : Env :=
  {| user_cache_dir := "/cache";
     user_data_dir := "/data";
     makedirs_allowed := fun _ => true;
     urlretrieve_outcome := fun _ _ => Unreachable;
     Kokoro_loads := fun _ _ => true;
     kokoro_create := fun _ _ _ _ => Returns ([], 24000);
     sf_write_bytes := fun _ _ _ => Returns "RIFF";
     sd_play_ok := fun _ => true;
     query_devices := "0 Built-in Output";
     read_text := fun _ bytes => Returns bytes;
     stdin_read := Returns "";
     tempfile_name := fresh_name;
     str_exn := texts;
     uvicorn_start := fun _ _ => Started;
     stdout_flushes := true;
     incoming := [] |}.

(** A machine where standard input holds a text and a note lies on
    disk. *)
Definition piped_env : Env :=
  {| user_cache_dir := "/cache";
     user_data_dir := "/data";
     makedirs_allowed := fun _ => true;
     urlretrieve_outcome := fun _ _ => Fetched "weights";
     Kokoro_loads := fun _ _ => true;
     kokoro_create := fun _ _ _ _ => Returns ([], 24000);
     sf_write_bytes := fun _ _ _ => Returns "RIFF";
     sd_play_ok := fun _ => true;
     query_devices := "0 Built-in Output";
     read_text := fun _ bytes => Returns bytes;
     stdin_read := Returns " from a pipe ";
     tempfile_name := fresh_name;
     str_exn := texts;
     uvicorn_start := fun _ _ => Started;
     stdout_flushes := true;
     incoming := [GetDevices] |}.

(** A disk with both directories and two damaged model files. *)
Definition damaged : World :=
  {| fs := <["/cache" := Dir]>
             (<["/data" := Dir]>
                (<["/cache/kokoro-v1.0.onnx" := File "wei"]>
                   (<["/cache/voices-v1.0.bin" := File "wei"]> ∅)));
     log_level := None; next_id := 0; trace := [] |}.

(** A disk with a note on it, and one where a file sits in the place of
    the cache directory. *)
Definition with_note : World :=
  {| fs := {["note.txt" := File "  read me  "]};
     log_level := None; next_id := 0; trace := [] |}.
Definition blocked : World :=
  {| fs := {["/cache" := File "oops"]};
     log_level := None; next_id := 0; trace := [] |}.

Definition args_of (i : option string) (o : option string)
           (d : option Z) (l s : bool) : Args :=
  {| input := i; output := o; device := d; list_devices := l;
     cache_dir := None; data_dir := None; voice := "af_sarah";
     speed := one; lang := "en-us"; debug := false; server := s;
     host := "127.0.0.1"; port := 8000 |}.


(** What a call makes of an answer. *)
Definition outcome {A} (a : answer A) : result A :=
  match a with
  | Returns v => Ok v
  | Fails e => Raise e
  end.

(** [.strip()] of what a read gave. *)
Definition stripped (a : answer string) : answer string :=
  match a with
  | Returns t => Returns (strip t)
  | Fails e => Fails e
  end.

(** The text a command line stands for, in the words of the help text
    ("Input text or file path (if not provided, reads from stdin)"): what
    is read from the file the argument names, else the argument itself,
    else what is read from standard input; what is read is stripped. *)
Definition input_text (env : Env) (args : Args) (w : World)
  : answer string :=
  match input args with
  | Some i =>
      if String.eqb i "" then stripped (stdin_read env)
      else
        match fs w !! i with
        | Some (File bytes) => stripped (read_text env i bytes)
        | _ => Returns i
        end
  | None => stripped (stdin_read env)
  end.


(** A decoder that takes every file but one starting with the byte FF,
    which starts no character in UTF-8. *)
Definition utf8_or_fail (bytes : string) : answer string :=
  match bytes with
  | String c _ =>
      if (N_of_ascii c =? 255)%N then Fails UnicodeDecodeError
      else Returns bytes
  | EmptyString => Returns bytes
  end.

(** A machine that reads files with that decoder. *)
Definition garbled_env : Env :=
  {| user_cache_dir := "/cache";
     user_data_dir := "/data";
     makedirs_allowed := fun _ => true;
     urlretrieve_outcome := fun _ _ => Fetched "weights";
     Kokoro_loads := fun _ _ => true;
     kokoro_create := fun _ _ _ _ => Returns ([], 24000);
     sf_write_bytes := fun _ _ _ => Returns "RIFF";
     sd_play_ok := fun _ => true;
     query_devices := "0 Built-in Output";
     read_text := fun _ bytes => utf8_or_fail bytes;
     stdin_read := Returns "";
     tempfile_name := fresh_name;
     str_exn := texts;
     uvicorn_start := fun _ _ => Started;
     stdout_flushes := true;
     incoming := [] |}.

(** A disk with a file that starts with the bytes FF FE. *)
Definition with_utf16 : World :=
  {| fs := {["note.txt" := File (String "255" (String "254" "hi"))]};
     log_level := None; next_id := 0; trace := [] |}.

(** A machine whose standard output cannot be written, as when it is
    [/dev/full]. *)
Definition clogged_env : Env :=
  {| user_cache_dir := "/cache";
     user_data_dir := "/data";
     makedirs_allowed := fun _ => true;
     urlretrieve_outcome := fun _ _ => Fetched "weights";
     Kokoro_loads := fun _ _ => true;
     kokoro_create := fun _ _ _ _ => Returns ([], 24000);
     sf_write_bytes := fun _ _ _ => Returns "RIFF";
     sd_play_ok := fun _ => true;
     query_devices := "0 Built-in Output";
     read_text := fun _ bytes => Returns bytes;
     stdin_read := Returns "";
     tempfile_name := fresh_name;
     str_exn := texts;
     uvicorn_start := fun _ _ => Started;
     stdout_flushes := false;
     incoming := [] |}.


(** A machine without a directory for temporary files. *)
Definition no_tmp_env : Env :=
  {| user_cache_dir := "/cache";
     user_data_dir := "/data";
     makedirs_allowed := fun _ => true;
     urlretrieve_outcome := fun _ _ => Fetched "weights";
     Kokoro_loads := fun _ _ => true;
     kokoro_create := fun _ _ _ _ => Returns ([], 24000);
     sf_write_bytes := fun _ _ _ => Returns "RIFF";
     sd_play_ok := fun _ => true;
     query_devices := "0 Built-in Output";
     read_text := fun _ bytes => Returns bytes;
     stdin_read := Returns "";
     tempfile_name := fun _ => Fails (OSError "/tmp");
     str_exn := texts;
     uvicorn_start := fun _ _ => Started;
     stdout_flushes := true;
     incoming := [] |}.

End CliSpec.

(** * Properties *)

(** ** [struct]: packing and unpacking agree *)

Module StructFacts.

Import Struct.

Lemma Z_of_byte_of_Z (z : Z) : 0 <= z < 256 -> Z_of_byte (byte_of_Z z) = z.
Proof.
  intros Hz. unfold Z_of_byte, byte_of_Z.
  destruct (Byte.of_N (Z.to_N z)) as [b|] eqn:Hb.
  - apply Byte.to_of_N in Hb. rewrite Hb. lia.
  - apply Byte.of_N_None_iff in Hb. lia.
Qed.

Lemma Z_of_le_byte (n i : Z) :
  0 <= n -> 0 <= i -> Z_of_byte (le_byte n i) = (n / 2 ^ (8 * i)) mod 256.
Proof.
  intros Hn Hi. unfold le_byte.
  change 255 with (Z.ones 8).
  rewrite Z.land_ones, Z.shiftr_div_pow2 by lia.
  apply Z_of_byte_of_Z. apply Z.mod_pos_bound. lia.
Qed.

Lemma unpack_u32 (n : Z) :
  0 <= n <= 4294967295 -> unpack_le (WaveSpec.u32 n) = n.
Proof.
  intros Hn. unfold WaveSpec.u32. cbn [unpack_le].
  rewrite !Z_of_le_byte by lia.
  change (2 ^ (8 * 0)) with 1. change (2 ^ (8 * 1)) with 256.
  change (2 ^ (8 * 2)) with 65536. change (2 ^ (8 * 3)) with 16777216.
  rewrite Z.div_1_r.
  Z.div_mod_to_equations. lia.
Qed.

Lemma pack_L_ok (n : Z) :
  0 <= n <= 4294967295 -> pack_L n = Ok (WaveSpec.u32 n).
Proof.
  intros Hn. unfold pack_L.
  replace ((0 <=? n) && (n <=? 4294967295)) with true; [reflexivity|].
  symmetry; apply andb_true_iff; split; apply Z.leb_le; lia.
Qed.

Lemma pack_L_overflow (n : Z) :
  4294967295 < n -> pack_L n = Raise StructError.
Proof.
  intros Hn. unfold pack_L.
  replace (n <=? 4294967295) with false by (symmetry; apply Z.leb_gt; lia).
  now rewrite andb_false_r.
Qed.

End StructFacts.

(** ** [wave]: what [write_wav] leaves in the buffer *)

Module WaveFacts.

Import Struct Wave WaveSpec StructFacts.

Lemma overwrite_nil (data : list byte) : BytesIO.overwrite [] data = data.
Proof.
  induction data as [|d data IH]; cbn; [reflexivity | now rewrite IH].
Qed.

Lemma write_at_end (old data : list byte) :
  BytesIO.write_at old (length old) data = (old ++ data)%list.
Proof.
  induction old as [|b old IH]; cbn; [apply overwrite_nil | now rewrite IH].
Qed.

(** Writing at the end of the buffer appends. *)
Lemma write_append (f : BytesIO.t) (data : list byte) :
  BytesIO.pos f = length (BytesIO.buf f) ->
  BytesIO.write f data =
  BytesIO.mk (BytesIO.buf f ++ data) (length (BytesIO.buf f) + length data).
Proof.
  intros Hpos. unfold BytesIO.write. rewrite Hpos, write_at_end. reflexivity.
Qed.

Lemma pack_header_ok (d : Z) :
  0 <= d -> 36 + d <= 4294967295 ->
  pack_header (36 + d) 1 24000 48000 2 16 =
  Ok (u32 (36 + d) ++ bytes_of "WAVE" ++ bytes_of "fmt " ++ u32 16
        ++ u16 1 ++ u16 1 ++ u32 24000 ++ u32 48000 ++ u16 2 ++ u16 16
        ++ bytes_of "data")%list.
Proof.
  intros H0 H1. unfold pack_header. rewrite (pack_L_ok (36 + d)) by lia.
  reflexivity.
Qed.

Lemma pack_header_overflow (d : Z) :
  4294967295 < 36 + d ->
  pack_header (36 + d) 1 24000 48000 2 16 = Raise StructError.
Proof.
  intros H. unfold pack_header. now rewrite pack_L_overflow.
Qed.

Ltac run_wave :=
  unfold bind, file_write, file_seek, modify, get, gets, file_tell, ret,
    lift, raise;
  cbn -[pack_L pack_H pack_header Z.div Z.mul Z.add le_byte].

(** The frames go in after a header that announces the even part of
    their length. *)
Lemma writeframesraw_spec (pcm : list byte) :
  let n := Z.of_nat (length pcm) in
  fits pcm ->
  writeframesraw pcm configured =
  (Ok tt, written (n / 2 * 1 * 2) (0 + n) (n / 2) (0 + n / 2) pcm).
Proof.
  intros n Hmax. unfold fits in Hmax.
  pose proof (Nat2Z.is_nonneg (length pcm)) as Hn. fold n in Hn, Hmax.
  assert (Hd : 0 <= n / 2 * 1 * 2 <= n) by (Z.div_mod_to_equations; lia).
  unfold writeframesraw, _ensure_header_written, _write_header, configured.
  fold n. run_wave.
  change (1 * 24000 * 2) with 48000. change (2 * 8) with 16.
  change (1 * 2) with 2 in *. change (2 * 1) with 2.
  set (d := n / 2 * 1 * 2) in *.
  rewrite (pack_header_ok d), (pack_L_ok d) by lia.
  run_wave.
  rewrite (write_append _ pcm) by reflexivity. reflexivity.
Qed.

(** An odd number of bytes: the two size fields are written again. *)
Lemma patchheader_spec (d n nf nfw : Z) (pcm : list byte) :
  d <> n -> 0 <= n -> 36 + n <= 4294967295 ->
  _patchheader (written d n nf nfw pcm) = (Ok tt, written n n nf nfw pcm).
Proof.
  intros Hne Hn Hmax. unfold _patchheader, written. run_wave.
  destruct (Z.eqb_spec n d) as [->|_]; [contradiction|].
  rewrite (pack_L_ok (36 + n)), (pack_L_ok n) by lia.
  run_wave. reflexivity.
Qed.

Lemma write_wav_spec (pcm : list byte) :
  fits pcm ->
  Server.write_wav pcm
  = Ok (riff_header (Z.of_nat (length pcm)) ++ pcm)%list.
Proof.
  intros Hmax.
  pose proof (Nat2Z.is_nonneg (length pcm)) as Hn.
  pose proof (writeframesraw_spec pcm Hmax) as Hraw. cbv zeta in Hraw.
  unfold fits in Hmax.
  set (n := Z.of_nat (length pcm)) in *.
  unfold Server.write_wav, with_open, try_finally.
  assert (Hbody :
    (run setnchannels 1; run setsampwidth 2; run setframerate 24000;
     writeframes pcm)%py (initfp BytesIO.empty)
    = (Ok tt, written n n (n / 2) (0 + n / 2) pcm)).
  { unfold writeframes.
    change ((run setnchannels 1; run setsampwidth 2;
             run setframerate 24000; run writeframesraw pcm; do w <- get;
             if negb (_datalength w =? _datawritten w)
             then _patchheader else ret ())%py (initfp BytesIO.empty))
      with ((run writeframesraw pcm; do w <- get;
             if negb (_datalength w =? _datawritten w)
             then _patchheader else ret ())%py configured).
    unfold bind at 1. rewrite Hraw. unfold bind, get.
    cbn [written _datalength _datawritten].
    destruct (Z.eqb_spec (n / 2 * 1 * 2) (0 + n)) as [He|He]; cbn [negb].
    - rewrite He. unfold ret. do 2 f_equal.
    - rewrite Z.add_0_l. apply patchheader_spec; lia. }
  rewrite Hbody.
  unfold close, _ensure_header_written, bind, get, ret.
  cbn [written _headerwritten _datalength _datawritten].
  rewrite Z.eqb_refl. cbn. reflexivity.
Qed.

(** Past the 32-bit limit [struct.pack] refuses the header. *)
Lemma write_wav_overflow (pcm : list byte) :
  ~ fits pcm -> Server.write_wav pcm = Raise StructError.
Proof.
  intros Hmax. unfold fits in Hmax.
  set (n := Z.of_nat (length pcm)) in *.
  assert (Hd : 4294967295 < 36 + n / 2 * 1 * 2)
    by (Z.div_mod_to_equations; lia).
  assert (Hnf : n / 2 <> 0) by (Z.div_mod_to_equations; lia).
  unfold Server.write_wav, with_open, try_finally.
  unfold writeframes, writeframesraw, close, _ensure_header_written,
    _write_header.
  fold n. run_wave.
  change (1 * 24000 * 2) with 48000. change (2 * 8) with 16.
  change (1 * 2) with 2 in *.
  rewrite pack_header_overflow by exact Hd.
  run_wave.
  destruct (Z.eqb_spec (n / 2) 0) as [He|_]; [contradiction|].
  run_wave.
  change (1 * 24000 * 2) with 48000. change (2 * 8) with 16.
  change (1 * 2) with 2 in *.
  rewrite pack_header_overflow by exact Hd.
  reflexivity.
Qed.

Lemma riff_header_length (n : Z) : length (riff_header n) = 44%nat.
Proof. reflexivity. Qed.

(** C1. Every non-empty PCM byte string that [synthesize_file] hands to
    [wave] comes out behind a 44-byte canonical RIFF header with
    little-endian fields: ChunkSize is 36 + dataSize and Subchunk2Size is
    dataSize, the length of the PCM bytes, NumChannels is 1,
    BitsPerSample 16, SampleRate 24000 and ByteRate
    SampleRate * NumChannels * BitsPerSample / 8.  The output exists
    exactly when these sizes fit their 32-bit fields. *)
Theorem wav_header_canonical (pcm : list byte) :
  pcm <> [] ->
  let dataSize := Z.of_nat (length pcm) in
  (is_ok (Server.write_wav pcm) = true <-> fits pcm) /\
  forall out, Server.write_wav pcm = Ok out ->
    slice out 0 4 = bytes_of "RIFF" /\
    field out 4 4 = 36 + dataSize /\
    slice out 8 4 = bytes_of "WAVE" /\
    slice out 12 4 = bytes_of "fmt " /\
    field out 16 4 = 16 /\
    field out 20 2 = WAVE_FORMAT_PCM /\
    field out 22 2 = 1 /\
    field out 24 4 = 24000 /\
    field out 28 4 = 24000 * 1 * 16 / 8 /\
    field out 28 4 = field out 24 4 * field out 22 2 * field out 34 2 / 8 /\
    field out 32 2 = 1 * 16 / 8 /\
    field out 34 2 = 16 /\
    slice out 36 4 = bytes_of "data" /\
    field out 40 4 = dataSize /\
    skipn 44 out = pcm /\
    length out = (44 + length pcm)%nat.
Proof.
  intros _ dataSize.
  assert (Hdec : fits pcm \/ ~ fits pcm) by (unfold fits; lia).
  split.
  - destruct Hdec as [Hf|Hf].
    + rewrite write_wav_spec by exact Hf. easy.
    + rewrite write_wav_overflow by exact Hf. easy.
  - intros out Hout. destruct Hdec as [Hf|Hf].
    2:{ rewrite write_wav_overflow in Hout by exact Hf. discriminate. }
    rewrite write_wav_spec in Hout by exact Hf.
    injection Hout as <-.
    pose proof (Nat2Z.is_nonneg (length pcm)) as Hn.
    unfold fits in Hf. fold dataSize in Hf, Hn |- *.
    assert (H36 : unpack_le (u32 (36 + dataSize)) = 36 + dataSize)
      by (apply unpack_u32; lia).
    assert (Hds : unpack_le (u32 dataSize) = dataSize)
      by (apply unpack_u32; lia).
    repeat split; try reflexivity.
    + exact H36.
    + exact Hds.
Qed.

Lemma wav_header_canonical_witness :
  let pcm := [Byte.x01; Byte.x02; Byte.x03] in
  Server.write_wav pcm
  = Ok (riff_header 3 ++ pcm)%list /\
  field (riff_header 3 ++ pcm) 4 4 = 39 /\
  field (riff_header 3 ++ pcm) 40 4 = 3.
Proof.
  intros pcm.
  assert (Hne : pcm <> []) by discriminate.
  assert (Hout : Server.write_wav pcm = Ok (riff_header 3 ++ pcm)%list)
    by reflexivity.
  destruct (wav_header_canonical pcm Hne) as [_ Hhdr].
  destruct (Hhdr _ Hout) as (_ & Hchunk & _ & _ & _ & _ & _ & _ & _ & _
                               & _ & _ & _ & Hdata & _).
  split; [exact Hout|]. split; [exact Hchunk | exact Hdata].
Defined.

End WaveFacts.

(** ** [server.py] *)

Module ServerFacts.

Import Server ServerSpec ServerInvariants WaveSpec.

Lemma truthy_true (s : string) : truthy s = true <-> s <> "".
Proof. destruct s; cbn; split; intros H; congruence. Qed.

Lemma get_available_voices_eq (st : State) :
  get_available_voices st = (Ok (glob_pt (voice_dir st)), st).
Proof.
  unfold get_available_voices, bind, gets, ret.
  destruct (voice_dir st); reflexivity.
Qed.

Ltac run_server :=
  unfold bind, gets, get, modify, ret, raise, lift, external; cbn.

(** A rejected voice: the handler raises before touching any global. *)
Lemma update_settings_rejected (env : Env) (st : State) (new : Settings) :
  voice new ∉ glob_pt (voice_dir st) ->
  exists detail,
    update_settings env new st = (Raise (HTTPException 400 detail), st).
Proof.
  intros Hnot. unfold update_settings, bind at 1.
  rewrite get_available_voices_eq.
  rewrite bool_decide_eq_false_2 by exact Hnot. cbn.
  eexists. reflexivity.
Qed.

(** An accepted voice: the settings are stored, then the pipeline is
    built, and only the second step can fail. *)
Lemma update_settings_accepted (env : Env) (st : State) (new : Settings) :
  voice new ∈ glob_pt (voice_dir st) ->
  update_settings env new st =
  match KPipeline_new env (core_model st) (lang_code new) with
  | Ok p =>
      (Ok (SettingsResponse
             {| out_lang_code := lang_code new; out_voice := voice new;
                available_voices := glob_pt (voice_dir st) |}),
       set_pipeline p (emit (NewKPipeline p) (set_settings new st)))
  | Raise e => (Raise e, set_settings new st)
  | Exit c => (Exit c, set_settings new st)
  end.
Proof.
  intros Hin. unfold update_settings, bind at 1.
  rewrite get_available_voices_eq.
  rewrite bool_decide_eq_true_2 by exact Hin. cbn [negb].
  unfold create_pipeline. run_server.
  destruct (KPipeline_new env (core_model st) (lang_code new));
    reflexivity.
Qed.

Lemma voice_dec (st : State) (new : Settings) :
  voice new ∈ glob_pt (voice_dir st) \/ voice new ∉ glob_pt (voice_dir st).
Proof. destruct (decide (voice new ∈ glob_pt (voice_dir st))); auto. Qed.

(** C2. For every server state and every Settings request whose voice is
    not in the list [get_available_voices()] returns, POST /settings
    answers 400 and leaves the global settings and the global pipeline
    (indeed the whole state) as they were; after a successful update the
    settings are the requested value. *)
Theorem post_settings_atomic_on_bad_voice
    (env : Env) (st : State) (new : Settings) :
  (forall voices,
      fst (get_available_voices st) = Ok voices ->
      voice new ∉ voices ->
      http_status (fst (update_settings env new st)) = 400 /\
      settings (snd (update_settings env new st)) = settings st /\
      pipeline (snd (update_settings env new st)) = pipeline st /\
      snd (update_settings env new st) = st) /\
  (forall out st',
      update_settings env new st = (Ok out, st') -> settings st' = new).
Proof.
  split.
  - intros voices Hv Hnot. rewrite get_available_voices_eq in Hv.
    cbn in Hv. injection Hv as <-.
    destruct (update_settings_rejected env st new Hnot) as [detail ->].
    cbn. auto.
  - intros out st' Hrun.
    destruct (voice_dec st new) as [Hin|Hnot].
    + rewrite (update_settings_accepted env st new Hin) in Hrun.
      destruct (KPipeline_new env (core_model st) (lang_code new));
        inversion Hrun; subst; reflexivity.
    + destruct (update_settings_rejected env st new Hnot) as [detail Hr].
      rewrite Hr in Hrun. discriminate.
Qed.

Lemma post_settings_atomic_on_bad_voice_witness :
  http_status
    (fst (update_settings strict_env (mkSettings "a" "af_sky") st0)) = 400
  /\ snd (update_settings strict_env (mkSettings "a" "af_sky") st0) = st0
  /\ settings
       (snd (update_settings strict_env (mkSettings "a" "af_sky.pt") st0))
     = mkSettings "a" "af_sky.pt".
Proof.
  pose proof (post_settings_atomic_on_bad_voice strict_env st0
                (mkSettings "a" "af_sky")) as [Hbad _].
  pose proof (post_settings_atomic_on_bad_voice strict_env st0
                (mkSettings "a" "af_sky.pt")) as [_ Hgood].
  assert (Hv : fst (get_available_voices st0) = Ok ["af_sky.pt"])
    by reflexivity.
  assert (Hnot : voice (mkSettings "a" "af_sky") ∉ ["af_sky.pt"]).
  { cbn. intros Hin. apply list_elem_of_singleton in Hin. discriminate. }
  destruct (Hbad _ Hv Hnot) as (H400 & _ & _ & Hsame).
  split; [exact H400|]. split; [exact Hsame|].
  eapply Hgood. reflexivity.
Defined.

(** C10. When the voices directory does not exist,
    [get_available_voices()] returns the empty list, so every
    POST /settings, whatever voice and lang_code it asks for, answers 400
    and leaves the settings unchanged. *)
Theorem no_voice_dir_rejects_every_update (env : Env) (st : State) :
  voice_dir st = Missing ->
  get_available_voices st = (Ok [], st) /\
  forall new,
    http_status (fst (update_settings env new st)) = 400 /\
    settings (snd (update_settings env new st)) = settings st /\
    snd (update_settings env new st) = st.
Proof.
  intros Hdir. split.
  - rewrite get_available_voices_eq, Hdir. reflexivity.
  - intros new.
    assert (Hnot : voice new ∉ glob_pt (voice_dir st)).
    { rewrite Hdir. cbn. apply not_elem_of_nil. }
    destruct (update_settings_rejected env st new Hnot) as [detail ->].
    cbn. auto.
Qed.

Lemma no_voice_dir_rejects_every_update_witness :
  http_status
    (fst (update_settings strict_env (mkSettings "a" "af_sky.pt")
            (set_voice_dir Missing st0))) = 400.
Proof.
  assert (Hdir : voice_dir (set_voice_dir Missing st0) = Missing)
    by reflexivity.
  destruct (no_voice_dir_rejects_every_update strict_env _ Hdir)
    as [_ Hall].
  exact (proj1 (Hall (mkSettings "a" "af_sky.pt"))).
Defined.


(** [synthesize_file], branch by branch. *)
Lemma synthesize_file_run (env : Env) (st : State)
      (data : gmap string value) :
  synthesize_file env data st =
  match text_field data with
  | VStr s =>
      if truthy (strip s)
      then
        let v := requested_voice st data in
        let st1 := emit (PipelineCall (pipeline st) (strip s) v) st in
        match pipeline_yields env (pipeline st) (strip s) v with
        | Returns [] => (Raise (HTTPException 500 "No audio generated"), st1)
        | Returns frames =>
            (match write_wav (concat (map tobytes frames)) with
             | Ok body =>
                 Ok (StreamingResponse body "audio/wav"
                       [("Content-Disposition",
                         "attachment; filename=output.wav")])
             | Raise e => Raise e
             | Exit c => Exit c
             end, st1)
        | Fails e => (Raise e, st1)
        end
      else (Raise (HTTPException 400 "`text` required"), st)
  | _ => (Raise AttributeError, st)
  end.
Proof.
  unfold synthesize_file, get_text, text_field, requested_voice,
    call_pipeline.
  destruct (default (VStr "") (data !! "text")) as [| | |s|];
    try reflexivity.
  run_server. destruct (truthy (strip s)); cbn; [|reflexivity].
  destruct (pipeline_yields env (pipeline st) (strip s)
              (default (VStr (voice (settings st))) (data !! "voice")))
    as [[|a frames]|e]; cbn; try reflexivity.
  destruct (write_wav (tobytes a ++ concat (map tobytes frames)));
    reflexivity.
Qed.

(** [strip] removes white space of one, two and three bytes, and no
    other character: not the zero-width space U+200B, not the byte A0
    inside a character. *)
Lemma strip_examples :
  strip " hi " = "hi" /\
  strip (wide_blank ++ "hi" ++ wide_blank) = "hi" /\
  strip wide_blank = "" /\
  strip (String "194" (String "160" "a b")) = "a b" /\
  strip (String "226" (String "128" (String "139" "x")))
  = String "226" (String "128" (String "139" "x")) /\
  strip (String "195" (String "160" " ")) = String "195" (String "160" "").
Proof. repeat split. Qed.

(** Frames whose bytes do not fit the header: [struct] refuses the
    size and the request fails. *)
Lemma synthesize_file_overflow (env : Env) (st : State)
      (data : gmap string value) (s : string) (frames : list Audio) :
  text_field data = VStr s ->
  strip s <> "" ->
  pipeline_yields env (pipeline st) (strip s) (requested_voice st data)
  = Returns frames ->
  frames <> [] ->
  ~ fits (concat (map tobytes frames)) ->
  fst (synthesize_file env data st) = Raise StructError.
Proof.
  intros Htext Hne Hy Hfr Hbig.
  rewrite synthesize_file_run, Htext.
  apply truthy_true in Hne. rewrite Hne. cbv zeta. rewrite Hy.
  destruct frames as [|a frames]; [contradiction|].
  rewrite (WaveFacts.write_wav_overflow _ Hbig). reflexivity.
Qed.

(** C6, as the code has it.  POST /synthesize_file answers 400 when the
    text field is empty or only white space, 500 when synthesis yields no
    audio frames, and otherwise, for a non-empty text for which the
    pipeline produces frames, 200 with a non-empty WAV body, the 44-byte
    header followed by the joined frames, as long as the joined frames
    have at most 4294967259 bytes, the most the 32-bit size fields of
    the header can announce; for longer audio the answer is 500. *)
Theorem synthesize_file_status
    (env : Env) (st : State) (data : gmap string value) (s : string) :
  text_field data = VStr s ->
  let r := fst (synthesize_file env data st) in
  let yielded :=
    pipeline_yields env (pipeline st) (strip s) (requested_voice st data) in
  (strip s = "" -> http_status r = 400) /\
  (strip s <> "" -> yielded = Returns [] -> http_status r = 500) /\
  (forall frames,
      strip s <> "" -> yielded = Returns frames -> frames <> [] ->
      fits (concat (map tobytes frames)) ->
      exists body,
        r = Ok (StreamingResponse body "audio/wav"
                  [("Content-Disposition",
                    "attachment; filename=output.wav")]) /\
        http_status r = 200 /\
        body <> [] /\
        body = (riff_header (Z.of_nat (length (concat (map tobytes frames))))
                  ++ concat (map tobytes frames))%list) /\
  (forall frames,
      strip s <> "" -> yielded = Returns frames -> frames <> [] ->
      (fits (concat (map tobytes frames))
       <-> Z.of_nat (length (concat (map tobytes frames))) <= 4294967259) /\
      (~ fits (concat (map tobytes frames)) ->
       r = Raise StructError /\ http_status r = 500)).
Proof.
  intros Htext r yielded.
  split; [|split; [|split]].
  - subst r yielded. rewrite synthesize_file_run, Htext.
    intros ->. reflexivity.
  - subst r yielded. rewrite synthesize_file_run, Htext.
    intros Hne Hy. apply truthy_true in Hne. rewrite Hne. cbn zeta.
    rewrite Hy. reflexivity.
  - subst r yielded. rewrite synthesize_file_run, Htext.
    intros frames Hne Hy Hfr Hfits. apply truthy_true in Hne.
    rewrite Hne. cbn zeta. rewrite Hy.
    destruct frames as [|a frames]; [contradiction|].
    rewrite (WaveFacts.write_wav_spec _ Hfits).
    eexists. split; [reflexivity|]. split; [reflexivity|].
    split; [discriminate | reflexivity].
  - intros frames Hne Hy Hfr. split; [unfold fits; lia|].
    intros Hbig. subst r.
    rewrite (synthesize_file_overflow env st data s frames
               Htext Hne Hy Hfr Hbig).
    split; reflexivity.
Qed.

Lemma synthesize_file_status_witness :
  http_status (fst (synthesize_file strict_env say_nothing st0)) = 400 /\
  http_status (fst (synthesize_file strict_env say_wide_blank st0)) = 400 /\
  http_status (fst (synthesize_file silent_env say_hi st0)) = 500 /\
  http_status (fst (synthesize_file strict_env say_hi st0)) = 200.
Proof.
  assert (Ha : text_field say_nothing = VStr "  ") by reflexivity.
  assert (Hw : text_field say_wide_blank = VStr wide_blank) by reflexivity.
  assert (Hb : text_field say_hi = VStr " hi ") by reflexivity.
  destruct (synthesize_file_status strict_env st0 say_nothing _ Ha)
    as (H400 & _ & _ & _).
  destruct (synthesize_file_status strict_env st0 say_wide_blank _ Hw)
    as (Hwide & _ & _ & _).
  destruct (synthesize_file_status silent_env st0 say_hi _ Hb)
    as (_ & H500 & _ & _).
  destruct (synthesize_file_status strict_env st0 say_hi _ Hb)
    as (_ & _ & H200 & _).
  split; [apply H400; reflexivity|].
  split; [apply Hwide; reflexivity|].
  split; [apply H500; [discriminate | reflexivity]|].
  destruct (H200 [mkAudio [Byte.x01; Byte.x00; Byte.x02; Byte.x00]])
    as (body & _ & Hst & _).
  - discriminate.
  - reflexivity.
  - discriminate.
  - unfold fits. cbn. lia.
  - exact Hst.
Defined.

(** C6 does not hold as stated for long audio: a request with
    the text " hi ", for which the pipeline produces one frame of
    4294967260 bytes, is answered with 500, not with 200 and a WAV
    body. *)
Lemma long_audio_is_answered_500 :
  text_field say_hi = VStr " hi " /\
  strip " hi " = "hi" /\
  pipeline_yields MoreSpec.long_env (pipeline st0) "hi"
    (requested_voice st0 say_hi) = Returns [MoreSpec.long_chunk] /\
  [MoreSpec.long_chunk] <> [] /\
  fst (synthesize_file MoreSpec.long_env say_hi st0) = Raise StructError /\
  http_status (fst (synthesize_file MoreSpec.long_env say_hi st0)) = 500 /\
  http_status (fst (synthesize_file MoreSpec.long_env say_hi st0)) <> 200.
Proof.
  assert (Htext : text_field say_hi = VStr " hi ") by reflexivity.
  assert (Hstrip : strip " hi " = "hi") by reflexivity.
  assert (Hne : strip " hi " <> "") by (rewrite Hstrip; discriminate).
  assert (Hy : pipeline_yields MoreSpec.long_env (pipeline st0)
                 (strip " hi ") (requested_voice st0 say_hi)
               = Returns [MoreSpec.long_chunk]) by reflexivity.
  assert (Hlen : Z.of_nat (length (concat (map tobytes
                                             [MoreSpec.long_chunk])))
                 = 4294967260).
  { change (concat (map tobytes [MoreSpec.long_chunk]))
      with (repeat Byte.x00 (Z.to_nat 4294967260) ++ [])%list.
    rewrite app_nil_r, repeat_length. apply Z2Nat.id. discriminate. }
  assert (Hbig : ~ fits (concat (map tobytes [MoreSpec.long_chunk]))).
  { unfold fits. rewrite Hlen. lia. }
  pose proof (synthesize_file_overflow MoreSpec.long_env st0 say_hi " hi "
                [MoreSpec.long_chunk] Htext Hne Hy
                ltac:(discriminate) Hbig) as Hrun.
  split; [exact Htext|]. split; [exact Hstrip|].
  split; [exact Hy|]. split; [discriminate|]. split; [exact Hrun|].
  rewrite Hrun. split; [reflexivity | discriminate].
Qed.

Lemma play_all_run (frames : list Audio) (st : State) :
  play_all frames st =
  (Ok tt,
   mkState (core_model st) (settings st) (pipeline st) (voice_dir st)
           (events st ++ flat_map (fun a => [SdPlay a; SdWait]) frames)).
Proof.
  revert st. induction frames as [|a frames IH]; intros st.
  - cbn. unfold ret. rewrite app_nil_r. now destruct st.
  - cbn [play_all flat_map]. run_server. rewrite IH. cbn.
    now rewrite <- !app_assoc.
Qed.

(** [play_live], branch by branch. *)
Lemma play_live_run (env : Env) (st : State) (data : gmap string value) :
  play_live env data st =
  match text_field data with
  | VStr s =>
      if truthy (strip s)
      then
        let v := requested_voice st data in
        let call := PipelineCall (pipeline st) (strip s) v in
        match pipeline_yields env (pipeline st) (strip s) v with
        | Returns frames =>
            (Ok (JSONResponse [("status", "played")]),
             mkState (core_model st) (settings st) (pipeline st)
               (voice_dir st)
               ((events st ++ [call])
                  ++ flat_map (fun a => [SdPlay a; SdWait]) frames))
        | Fails e => (Raise e, emit call st)
        end
      else (Raise (HTTPException 400 "`text` required"), st)
  | _ => (Raise AttributeError, st)
  end.
Proof.
  unfold play_live, get_text, text_field, requested_voice, call_pipeline.
  destruct (default (VStr "") (data !! "text")) as [| | |s|];
    try reflexivity.
  run_server. destruct (truthy (strip s)); cbn; [|reflexivity].
  destruct (pipeline_yields env (pipeline st) (strip s)
              (default (VStr (voice (settings st))) (data !! "voice")))
    as [frames|e]; cbn; [|reflexivity].
  rewrite play_all_run. reflexivity.
Qed.

Lemma Forall_play (m : KModel) (frames : list Audio) :
  Forall (uses m) (flat_map (fun a => [SdPlay a; SdWait]) frames).
Proof.
  induction frames as [|a frames IH]; cbn; repeat constructor; exact IH.
Qed.

(** What any request does to the globals: the core model stays, every
    pipeline involved is built on it, no model is loaded, and only
    POST /settings and a change on disk touch settings, pipeline or
    directory. *)
Lemma handle_step (env : Env) (rq : Request) (st : State) :
  shares_model st ->
  let st' := snd (handle env rq st) in
  core_model st' = core_model st /\
  shares_model st' /\
  (exists evs, events st' = (events st ++ evs)%list
               /\ Forall (uses (core_model st)) evs) /\
  match rq with
  | PostSettings _ => True
  | VoiceDirChanged d =>
      settings st' = settings st /\ pipeline st' = pipeline st
  | _ => same_globals st st'
  end.
Proof.
  intros Hsh. destruct rq as [|new|data|data|d]; cbn [handle].
  - unfold get_settings, bind at 1, get, bind.
    rewrite get_available_voices_eq. cbn.
    repeat split; try assumption. exists []. now rewrite app_nil_r.
  - destruct (voice_dec st new) as [Hin|Hnot].
    + rewrite (update_settings_accepted env st new Hin).
      unfold KPipeline_new.
      destruct (KPipeline_accepts env (lang_code new)); cbn.
      * repeat split. eexists. split; [reflexivity|].
        repeat constructor.
      * repeat split; try assumption. exists [].
        now rewrite app_nil_r.
    + destruct (update_settings_rejected env st new Hnot) as [detail ->].
      cbn. repeat split; try assumption. exists [].
      now rewrite app_nil_r.
  - rewrite synthesize_file_run.
    destruct (text_field data) as [| | |s|]; cbn;
      try (repeat split; try assumption; exists [];
           now rewrite app_nil_r).
    destruct (truthy (strip s)); cbn;
      [|repeat split; try assumption; exists []; now rewrite app_nil_r].
    destruct (pipeline_yields env (pipeline st) (strip s)
                (requested_voice st data)) as [[|a frames]|e]; cbn;
      (repeat split; try assumption;
       eexists; split; [reflexivity|]; repeat constructor; exact Hsh).
  - rewrite play_live_run.
    destruct (text_field data) as [| | |s|]; cbn;
      try (repeat split; try assumption; exists [];
           now rewrite app_nil_r).
    destruct (truthy (strip s)); cbn;
      [|repeat split; try assumption; exists []; now rewrite app_nil_r].
    destruct (pipeline_yields env (pipeline st) (strip s)
                (requested_voice st data)) as [frames|e]; cbn.
    + repeat split; try assumption.
      eexists. rewrite <- app_assoc. split; [reflexivity|].
      constructor; [exact Hsh | apply Forall_play].
    + repeat split; try assumption.
      eexists; split; [reflexivity|]. repeat constructor. exact Hsh.
  - run_server. repeat split; try assumption. exists [].
    now rewrite app_nil_r.
Qed.

Lemma startup_run (env : Env) (d : path_state) (st : State) :
  startup env d = Ok st ->
  shares_model st /\ coherent st /\
  settings st = Settings_default /\
  events st = [NewKModel (core_model st); NewKPipeline (pipeline st)].
Proof.
  unfold startup, KPipeline_new. intros H.
  destruct (core_model_exists env); [|discriminate].
  destruct (KModel_loads env CORE_MODEL_PATH); [|discriminate].
  cbn in H. destruct (KPipeline_accepts env "a"); [|discriminate].
  injection H as <-. repeat split.
Qed.

(** After a POST /settings that succeeds, the pipeline is the one built
    from the language code just stored. *)
Lemma post_settings_success_coherent
    (env : Env) (st : State) (new : Settings) (out : Response)
    (st' : State) :
  update_settings env new st = (Ok out, st') ->
  settings st' = new /\
  pipeline st' = {| model := core_model st;
                    pipe_lang_code := lang_code new |} /\
  coherent st'.
Proof.
  intros Hrun. destruct (voice_dec st new) as [Hin|Hnot].
  - rewrite (update_settings_accepted env st new Hin) in Hrun.
    unfold KPipeline_new in Hrun.
    destruct (KPipeline_accepts env (lang_code new));
      inversion Hrun; subst. repeat split.
  - destruct (update_settings_rejected env st new Hnot) as [detail Hr].
    rewrite Hr in Hrun. discriminate.
Qed.

(** A request that does not end in a 500 keeps settings and pipeline in
    step. *)
Lemma handle_coherent (env : Env) (rq : Request) (st : State) :
  coherent st ->
  http_status (fst (handle env rq st)) <> 500 ->
  coherent (snd (handle env rq st)).
Proof.
  intros Hco Hst. destruct rq as [|new|data|data|d].
  - cbn [handle]. unfold get_settings, bind at 1, get, bind.
    rewrite get_available_voices_eq. exact Hco.
  - cbn [handle] in *. destruct (voice_dec st new) as [Hin|Hnot].
    + rewrite (update_settings_accepted env st new Hin) in *.
      unfold KPipeline_new in *.
      destruct (KPipeline_accepts env (lang_code new)); cbn in *;
        [reflexivity | contradiction].
    + destruct (update_settings_rejected env st new Hnot) as [detail Hr].
      rewrite Hr. exact Hco.
  - assert (Hsame : same_globals st (snd (handle env (PostSynthesizeFile data) st))).
    { cbn [handle]. rewrite synthesize_file_run.
      destruct (text_field data) as [| | |s|]; cbn; try easy.
      destruct (truthy (strip s)); cbn; try easy.
      destruct (pipeline_yields env (pipeline st) (strip s)
                  (requested_voice st data)) as [[|a frames]|e]; easy. }
    destruct Hsame as (_ & Hs & Hp & _). unfold coherent.
    now rewrite Hs, Hp.
  - assert (Hsame : same_globals st (snd (handle env (PostPlayLive data) st))).
    { cbn [handle]. rewrite play_live_run.
      destruct (text_field data) as [| | |s|]; cbn; try easy.
      destruct (truthy (strip s)); cbn; try easy.
      destruct (pipeline_yields env (pipeline st) (strip s)
                  (requested_voice st data)) as [frames|e]; easy. }
    destruct Hsame as (_ & Hs & Hp & _). unfold coherent.
    now rewrite Hs, Hp.
  - exact Hco.
Qed.

(** C9. The handler of POST /settings stores the new settings before it
    builds the pipeline.  With an engine that refuses the language code
    "xx", the request below answers 500, the stored language code is
    "xx" and the pipeline is still the one for "a": the coherence that
    held after start is lost between requests. *)
Theorem post_settings_stale_pipeline :
  let rq := mkSettings "xx" "af_sky.pt" in
  let st' := snd (update_settings strict_env rq st0) in
  startup strict_env one_voice = Ok st0 /\
  coherent st0 /\
  voice rq ∈ glob_pt (voice_dir st0) /\
  http_status (fst (update_settings strict_env rq st0)) = 500 /\
  lang_code (settings st') = "xx" /\
  pipe_lang_code (pipeline st') = "a" /\
  ~ coherent st'.
Proof.
  cbn zeta. split; [reflexivity|]. split; [reflexivity|].
  split; [cbn; apply list_elem_of_here|].
  split; [reflexivity|]. split; [reflexivity|]. split; [reflexivity|].
  unfold coherent. cbn. discriminate.
Qed.

End ServerFacts.

(** ** [kokorofile.py] *)

Module KokorofileFacts.

Import Kokorofile KokorofileSpec.

(** *** Computations that only add events *)

Section steps.

Context (P : Event -> Prop).

Lemma steps_ret {A} (a : A) : steps P (ret a).
Proof.
  intros w. cbn. split; [|split; [|split]]; try easy.
  exists []. now rewrite app_nil_r.
Qed.

Lemma steps_raise {A} (e : exn) : steps P (@raise World A e).
Proof.
  intros w. cbn. split; [|split; [|split]]; try easy.
  exists []. now rewrite app_nil_r.
Qed.

Lemma steps_external {A} (a : answer A) : steps P (@external World A a).
Proof.
  intros w. unfold external.
  destruct a; cbn; (split; [|split; [|split]]; try easy);
    exists []; now rewrite app_nil_r.
Qed.

Lemma steps_gets {A} (f : World -> A) : steps P (gets f).
Proof.
  intros w. cbn. split; [|split; [|split]]; try easy.
  exists []. now rewrite app_nil_r.
Qed.

Lemma steps_get : steps P (@get World).
Proof.
  intros w. cbn. split; [|split; [|split]]; try easy.
  exists []. now rewrite app_nil_r.
Qed.

Lemma steps_emit (e : Event) : P e -> steps P (modify (emit e)).
Proof.
  intros He w. cbn. split; [|split; [|split]]; try easy.
  exists [e]. split; [reflexivity | now constructor].
Qed.

Lemma steps_set_fs (g : World -> gmap string inode) :
  steps P (modify (fun w => set_fs (g w) w)).
Proof.
  intros w. cbn. split; [|split; [|split]]; try easy.
  exists []. now rewrite app_nil_r.
Qed.

Lemma steps_bind {A B} (m : M World A) (k : A -> M World B) :
  steps P m -> (forall a, steps P (k a)) -> steps P (bind m k).
Proof.
  intros Hm Hk w. unfold bind.
  destruct (Hm w) as ((evs & Htr & Hev) & Hid & Hlog & Hexit).
  destruct (m w) as [[a|e|c] w1] eqn:Hrun; cbn in *.
  - destruct (Hk a w1) as ((evs' & Htr' & Hev') & Hid' & Hlog' & Hexit').
    split; [|split; [|split]].
    + exists (evs ++ evs')%list. rewrite Htr', Htr, app_assoc.
      split; [reflexivity | now apply Forall_app].
    + congruence.
    + intros l Hl. apply Hlog', Hlog, Hl.
    + exact Hexit'.
  - split; [|split; [|split]]; try easy.
    exists evs. split; assumption.
  - now destruct (Hexit c).
Qed.

Lemma steps_if {A} (b : bool) (m1 m2 : M World A) :
  steps P m1 -> steps P m2 -> steps P (if b then m1 else m2).
Proof. now destruct b. Qed.

Lemma steps_basicConfig (level : Z) : steps P (basicConfig level).
Proof.
  intros w. unfold basicConfig, bind, gets, ret, modify.
  destruct (log_level w) as [l|] eqn:Hl; cbn.
  - split; [|split; [|split]]; try easy; try congruence.
    exists []. now rewrite app_nil_r.
  - split; [|split; [|split]]; try easy.
    exists []. now rewrite app_nil_r.
Qed.

Lemma steps_logging_log (levelno : Z) (msg : Message) :
  P (LogRecord levelno msg) -> steps P (logging_log levelno msg).
Proof.
  intros He. unfold logging_log.
  apply steps_bind; [apply steps_basicConfig | intros _].
  apply steps_bind; [apply steps_gets | intros l].
  apply steps_if; [now apply steps_emit | apply steps_ret].
Qed.

End steps.

(** Weakening of the event predicate. *)
Lemma steps_weaken (P Q : Event -> Prop) {A} (m : M World A) :
  (forall e, P e -> Q e) -> steps P m -> steps Q m.
Proof.
  intros HPQ Hm w.
  destruct (Hm w) as ((evs & Htr & Hev) & Hrest).
  split; [|exact Hrest].
  exists evs. split; [exact Htr|].
  eapply Forall_impl; [exact Hev | exact HPQ].
Qed.

Ltac steps_tac :=
  repeat first
    [ apply steps_ret | apply steps_raise | apply steps_external
    | apply steps_gets | apply steps_get | apply steps_set_fs
    | apply steps_basicConfig
    | apply steps_logging_log; exact I
    | apply steps_emit; exact I
    | apply steps_if
    | apply steps_bind;
      [|let x := fresh "x" in
        intros x;
        try match type of x with (_ * _)%type => destruct x as [? ?] end]
    | match goal with
      | |- steps _ (match ?x with _ => _ end) => destruct x
      end ].

Lemma steps_os_makedirs (env : Env) (path : string) :
  steps no_model (os_makedirs env path).
Proof.
  unfold os_makedirs. steps_tac.
Qed.

Lemma steps_get_cache_dirs (env : Env) :
  steps no_model (get_cache_dirs env).
Proof.
  unfold get_cache_dirs.
  repeat (apply steps_bind; [apply steps_os_makedirs | intros _]).
  apply steps_ret.
Qed.

Lemma steps_urlretrieve (env : Env) (url path : string) :
  steps no_model (urlretrieve env url path).
Proof.
  unfold urlretrieve. steps_tac.
Qed.

Lemma steps_download_file (env : Env) (url path : string) :
  steps no_model (download_file env url path).
Proof.
  unfold download_file. steps_tac.
Qed.

Lemma steps_download_model_files (env : Env) (cache_dir : string) :
  steps no_model (download_model_files env cache_dir).
Proof.
  unfold download_model_files.
  repeat (apply steps_bind; [apply steps_download_file | intros ?]).
  apply steps_ret.
Qed.

Lemma steps_deliver (P : Event -> Prop) (env : Env) (audio : Samples)
      (sample_rate : Z) (output_file : option string) (device : option Z) :
  (forall e, no_model e -> P e) ->
  steps P (deliver env audio sample_rate output_file device).
Proof.
  intros HP. apply (steps_weaken no_model P); [exact HP|].
  unfold deliver, sf_write, sd_play, sd_wait, print. steps_tac.
Qed.

Lemma steps_speak (env : Env) (k : Kokoro) (text : string)
      (output_file : option string) (device : option Z)
      (voice : string) (speed : float) (lang : string) :
  steps (runs_only k) (speak env k text output_file device voice speed lang).
Proof.
  unfold speak, Kokoro_create.
  steps_tac; try (apply steps_emit; reflexivity).
  apply steps_deliver. now intros [].
Qed.

(** *** The model cache *)

Lemma logging_log_run (levelno : Z) (msg : Message) (w : World) :
  exists w',
    logging_log levelno msg w = (Ok tt, w') /\ fs w' = fs w /\
    (trace w' = trace w \/ trace w' = (trace w ++ [LogRecord levelno msg])%list).
Proof.
  unfold logging_log, basicConfig, bind, gets, ret, modify.
  destruct (log_level w) as [l|] eqn:Hl; cbn; rewrite ?Hl; cbn.
  - destruct (l <=? levelno); eexists; (split; [reflexivity|]); cbn; auto.
  - destruct (WARNING <=? levelno); eexists; (split; [reflexivity|]);
      cbn; auto.
Qed.

Lemma downloads_app (q : string) (w w' : World) (evs : list Event) :
  trace w' = (trace w ++ evs)%list ->
  downloads q w' =
  (downloads q w + length (List.filter (is_download_of q) evs))%nat.
Proof.
  intros Htr. unfold downloads.
  now rewrite Htr, List.filter_app, length_app.
Qed.

(** A file that is there is not fetched: nothing happens at all. *)
Lemma download_file_cached (env : Env) (url path : string) (w : World) :
  is_Some (fs w !! path) -> download_file env url path w = (Ok path, w).
Proof.
  intros Hex. unfold download_file, os_path_exists, bind, gets.
  rewrite bool_decide_eq_true_2 by exact Hex. reflexivity.
Qed.

(** A file that is missing is fetched, after a log record when the
    level lets it through. *)
Lemma download_file_missing (env : Env) (url path : string) (w : World) :
  ~ is_Some (fs w !! path) ->
  exists w1,
    fs w1 = fs w /\
    (trace w1 = trace w \/
     trace w1 = (trace w ++ [LogRecord INFO
                               (MsgDownloading (os_path_basename path))])%list)
    /\
    download_file env url path w =
    let w2 := emit (Urlretrieve url path) w1 in
    match urlretrieve_outcome env (length (trace w1)) url with
    | Fetched c => (Ok path, set_fs (<[path := File c]> (fs w1)) w2)
    | Unreachable => (Raise (URLError url), w2)
    | Truncated c =>
        (Raise (URLError url), set_fs (<[path := File c]> (fs w1)) w2)
    end.
Proof.
  intros Hno.
  destruct (logging_log_run INFO (MsgDownloading (os_path_basename path)) w)
    as (w1 & Hlog & Hfs & Htr).
  exists w1. split; [exact Hfs|]. split; [exact Htr|].
  unfold download_file, os_path_exists, bind at 1, gets.
  rewrite bool_decide_eq_false_2 by exact Hno. cbn [negb].
  unfold bind at 1. unfold bind at 1. rewrite Hlog.
  unfold urlretrieve, bind, get, modify, ret, raise.
  destruct (urlretrieve_outcome env (length (trace w1)) url); reflexivity.
Qed.

(** One call of [download_file]: at most one fetch, and only of [path];
    files that were there stay; after a normal return [path] exists. *)
Lemma download_file_run (env : Env) (url path : string) (w : World) :
  let r := fst (download_file env url path w) in
  let w' := snd (download_file env url path w) in
  (forall q, is_Some (fs w !! q) -> is_Some (fs w' !! q)) /\
  (forall q, (downloads q w' <= downloads q w + 1)%nat) /\
  (forall q, q <> path -> downloads q w' = downloads q w) /\
  (forall p, r = Ok p -> p = path /\ is_Some (fs w' !! path)).
Proof.
  destruct (decide (is_Some (fs w !! path))) as [Hex|Hno].
  { rewrite (download_file_cached env url path w Hex). cbn.
    repeat split; auto with lia. congruence. }
  destruct (download_file_missing env url path w Hno)
    as (w1 & Hfs & Htr & ->).
  assert (Hcount : forall q evs,
             trace w1 = (trace w ++ evs)%list ->
             List.filter (is_download_of q) evs = [] ->
             (downloads q (emit (Urlretrieve url path) w1)
              <= downloads q w + 1)%nat /\
             (q <> path ->
              downloads q (emit (Urlretrieve url path) w1) = downloads q w)).
  { intros q evs Hevs Hnone.
    rewrite (downloads_app q w (emit (Urlretrieve url path) w1)
               (evs ++ [Urlretrieve url path]))
      by (cbn; now rewrite Hevs, app_assoc).
    rewrite List.filter_app, Hnone. cbn.
    destruct (String.eqb_spec path q); cbn; split; try lia.
    intros Hq. now subst. }
  assert (Hq : forall q,
             (downloads q (emit (Urlretrieve url path) w1)
              <= downloads q w + 1)%nat /\
             (q <> path ->
              downloads q (emit (Urlretrieve url path) w1) = downloads q w)).
  { intros q. destruct Htr as [Htr|Htr].
    - apply (Hcount q []); [now rewrite app_nil_r | reflexivity].
    - apply (Hcount q [LogRecord INFO (MsgDownloading (os_path_basename path))]);
        [exact Htr | reflexivity]. }
  assert (Hins : forall c q,
             is_Some (fs w !! q) ->
             is_Some (<[path := File c]> (fs w1) !! q)).
  { intros c q Hsome. destruct (decide (path = q)) as [->|Hne].
    - rewrite lookup_insert_eq. eauto.
    - rewrite lookup_insert_ne by exact Hne. now rewrite Hfs. }
  cbv zeta.
  destruct (urlretrieve_outcome env (length (trace w1)) url) as [c| |c];
    cbn; (split; [|split; [|split]]);
    try (intros q; apply Hq); try (intros q; apply Hins);
    try (intros p Hp; discriminate Hp).
  - intros p Hp. injection Hp as <-. split; [reflexivity|].
    rewrite lookup_insert_eq. eauto.
  - intros q Hsome. now rewrite Hfs.
Qed.

(** C5. Resolving the model artifacts twice in succession fetches each
    artifact file at most once: when both files are on disk the resolver
    changes nothing (no fetch, no write, not even a log record) and
    returns the two paths; and once a first call has returned, a second
    one returns the same pair of paths, again without any effect, so that
    both calls together have called [urlretrieve] at most once per
    file. *)
Theorem download_model_files_idempotent
    (env : Env) (cache_dir : string) (w : World) :
  let model_path := model_path_in cache_dir in
  let voices_path := voices_path_in cache_dir in
  (is_Some (fs w !! model_path) -> is_Some (fs w !! voices_path) ->
   download_model_files env cache_dir w = (Ok (model_path, voices_path), w))
  /\
  (forall paths w1,
      download_model_files env cache_dir w = (Ok paths, w1) ->
      paths = (model_path, voices_path) /\
      download_model_files env cache_dir w1 = (Ok paths, w1) /\
      (downloads model_path w1 <= downloads model_path w + 1)%nat /\
      (downloads voices_path w1 <= downloads voices_path w + 1)%nat).
Proof.
  intros model_path voices_path.
  assert (Hcached : forall w0,
             is_Some (fs w0 !! model_path) ->
             is_Some (fs w0 !! voices_path) ->
             download_model_files env cache_dir w0
             = (Ok (model_path, voices_path), w0)).
  { intros w0 Hm Hv. unfold download_model_files, bind.
    fold (model_path_in cache_dir) (voices_path_in cache_dir).
    fold model_path voices_path.
    rewrite (download_file_cached env _ model_path w0 Hm).
    rewrite (download_file_cached env _ voices_path w0 Hv).
    reflexivity. }
  split; [apply Hcached|].
  intros paths w1 Hrun.
  unfold download_model_files, bind in Hrun.
  fold (model_path_in cache_dir) (voices_path_in cache_dir) in Hrun.
  fold model_path voices_path in Hrun.
  pose proof (download_file_run env model_url model_path w)
    as (Hkeep1 & Hle1 & Hne1 & Hok1).
  destruct (download_file env model_url model_path w)
    as [[a|e|c] wa]; try discriminate.
  destruct (Hok1 a eq_refl) as [-> Hma]. cbn in Hkeep1, Hle1, Hne1, Hma.
  pose proof (download_file_run env voices_url voices_path wa)
    as (Hkeep2 & Hle2 & Hne2 & Hok2).
  destruct (download_file env voices_url voices_path wa)
    as [[b|e|c] wb] eqn:Hsecond; try discriminate.
  destruct (Hok2 b eq_refl) as [-> Hvb]. cbn in Hkeep2, Hle2, Hne2, Hvb.
  injection Hrun as <- <-.
  split; [reflexivity|]. split; [apply Hcached; auto|].
  split.
  - destruct (decide (model_path = voices_path)) as [Heq|Hne].
    + (* one path: the second call found the file and did nothing *)
      assert (Hsame : wb = wa).
      { rewrite <- Heq in Hsecond.
        rewrite (download_file_cached env _ model_path wa Hma) in Hsecond.
        congruence. }
      rewrite Hsame. apply Hle1.
    + rewrite (Hne2 model_path Hne). apply Hle1.
  - destruct (decide (voices_path = model_path)) as [Heq|Hne].
    + assert (Hsame : wb = wa).
      { rewrite Heq in Hsecond.
        rewrite (download_file_cached env _ model_path wa Hma) in Hsecond.
        congruence. }
      rewrite Hsame. apply Hle1.
    + specialize (Hle2 voices_path). rewrite (Hne1 voices_path Hne) in Hle2.
      exact Hle2.
Qed.

Lemma download_model_files_idempotent_witness :
  let w1 := snd (download_model_files good_env "/cache" ready) in
  download_model_files good_env "/cache" w1
  = (Ok ("/cache/kokoro-v1.0.onnx", "/cache/voices-v1.0.bin"), w1) /\
  (downloads "/cache/kokoro-v1.0.onnx" w1 <= 1)%nat /\
  (downloads "/cache/voices-v1.0.bin" w1 <= 1)%nat.
Proof.
  intros w1.
  destruct (download_model_files_idempotent good_env "/cache" ready)
    as [_ Htwice].
  assert (Hfirst : download_model_files good_env "/cache" ready
                   = (Ok ("/cache/kokoro-v1.0.onnx",
                          "/cache/voices-v1.0.bin"), w1))
    by (vm_compute; reflexivity).
  destruct (Htwice _ _ Hfirst) as (_ & Hsecond & Hm & Hv).
  split; [exact Hsecond|]. split; [exact Hm | exact Hv].
Defined.

(** *** One call of [text_to_speech] *)

Lemma Kokoro_new_run (env : Env) (model_path voices_path : string)
      (w : World) :
  (exists k,
      k = mkKokoro (next_id w) model_path voices_path /\
      Kokoro_new env model_path voices_path w
      = (Ok k, emit (NewKokoro k) (set_next_id (S (next_id w)) w)))
  \/ (exists e, Kokoro_new env model_path voices_path w = (Raise e, w)).
Proof.
  unfold Kokoro_new, bind, get, modify, ret, raise.
  destruct (fs w !! model_path) as [[m|]|]; try (right; eexists; reflexivity).
  destruct (fs w !! voices_path) as [[v|]|];
    try (right; eexists; reflexivity).
  destruct (Kokoro_loads env m v); [left | right]; eexists;
    [split|]; reflexivity.
Qed.

Lemma text_to_speech_split (env : Env) (text : string)
      (output_file : option string) (device : option Z)
      (voice : string) (speed : float) (lang : string) (debug : bool)
      (w : World) :
  text_to_speech env text output_file device voice speed lang debug w
  = bind (prepare env)
         (fun k => speak env k text output_file device voice speed lang) w.
Proof.
  unfold text_to_speech, prepare, speak, bind.
  destruct (get_cache_dirs env w) as [[[c d]|e|x] w1]; try reflexivity.
  destruct (download_model_files env c w1) as [[[m v]|e|x] w2];
    reflexivity.
Qed.

(** The first half either fails without loading a model, or ends by
    creating a model object that did not exist before. *)
Lemma prepare_run (env : Env) (w : World) :
  exists evs w1,
    trace w1 = (trace w ++ evs)%list /\ Forall no_model evs /\
    next_id w1 = next_id w /\
    (forall l, log_level w = Some l -> log_level w1 = Some l) /\
    ((exists e, prepare env w = (Raise e, w1)) \/
     (exists k,
         kokoro_id k = next_id w /\
         prepare env w
         = (Ok k, emit (NewKokoro k) (set_next_id (S (next_id w)) w1)))).
Proof.
  unfold prepare, bind.
  destruct (steps_get_cache_dirs env w)
    as ((evs1 & Htr1 & Hev1) & Hid1 & Hlog1 & Hexit1).
  destruct (get_cache_dirs env w) as [[[c d]|e|x] w1]; cbn [fst snd] in *.
  - destruct (steps_download_model_files env c w1)
      as ((evs2 & Htr2 & Hev2) & Hid2 & Hlog2 & Hexit2).
    destruct (download_model_files env c w1) as [[[m v]|e|x] w2];
      cbn [fst snd] in *.
    + exists (evs1 ++ evs2)%list, w2.
      split; [now rewrite Htr2, Htr1, app_assoc|].
      split; [now apply Forall_app|].
      split; [congruence|]. split; [auto|].
      destruct (Kokoro_new_run env m v w2) as [(k & Hk & ->)|(e & ->)].
      * right. exists k. subst k. cbn. rewrite Hid2, Hid1. auto.
      * left. eauto.
    + exists (evs1 ++ evs2)%list, w2.
      split; [now rewrite Htr2, Htr1, app_assoc|].
      split; [now apply Forall_app|].
      split; [congruence|]. split; [auto|]. left. eauto.
    + now destruct (Hexit2 x).
  - exists evs1, w1. repeat split; auto. left. eauto.
  - now destruct (Hexit1 x).
Qed.

(** One call of [text_to_speech] never exits the process, keeps the log
    level, and either fails before any model is loaded or loads a new
    model object and runs that object only. *)
Lemma text_to_speech_run (env : Env) (text : string)
      (output_file : option string) (device : option Z)
      (voice : string) (speed : float) (lang : string) (debug : bool)
      (w : World) :
  let res :=
    text_to_speech env text output_file device voice speed lang debug w in
  (forall c, fst res <> Exit c) /\
  (forall l, log_level w = Some l -> log_level (snd res) = Some l) /\
  ((exists evs e,
       fst res = Raise e /\
       trace (snd res) = (trace w ++ evs)%list /\ Forall no_model evs /\
       next_id (snd res) = next_id w)
   \/
   (exists k evs1 evs2,
       kokoro_id k = next_id w /\
       trace (snd res) = (trace w ++ evs1 ++ NewKokoro k :: evs2)%list /\
       Forall no_model evs1 /\ Forall (runs_only k) evs2 /\
       next_id (snd res) = S (next_id w))).
Proof.
  cbv zeta. rewrite text_to_speech_split. unfold bind.
  destruct (prepare_run env w)
    as (evs1 & w1 & Htr1 & Hev1 & Hid1 & Hlog1 & [(e & ->)|(k & Hk & ->)]).
  - cbn. split; [discriminate|]. split; [exact Hlog1|].
    left. exists evs1, e. auto.
  - set (w2 := emit (NewKokoro k) (set_next_id (S (next_id w)) w1)).
    destruct (steps_speak env k text output_file device voice speed lang w2)
      as ((evs2 & Htr2 & Hev2) & Hid2 & Hlog2 & Hexit2).
    split; [exact Hexit2|]. split.
    + intros l Hl. apply Hlog2. cbn. auto.
    + right. exists k, evs1, evs2. split; [exact Hk|].
      split; [|split; [exact Hev1|split; [exact Hev2|]]].
      * rewrite Htr2. cbn. rewrite Htr1.
        now rewrite <- !app_assoc.
      * rewrite Hid2. reflexivity.
Qed.

(** *** The command line *)

Lemma setup_logging_run (debug : bool) (w : World) :
  exists l,
    setup_logging debug w = (Ok tt, snd (setup_logging debug w)) /\
    log_level (snd (setup_logging debug w)) = Some l /\
    (fresh w -> l <= ERROR) /\
    fs (snd (setup_logging debug w)) = fs w /\
    next_id (snd (setup_logging debug w)) = next_id w /\
    trace (snd (setup_logging debug w)) = trace w.
Proof.
  unfold setup_logging, basicConfig, bind, gets, ret, modify, fresh.
  destruct (log_level w) as [l|] eqn:Hl; cbn.
  - exists l. repeat split; try assumption. discriminate.
  - eexists. repeat split. intros _. now destruct debug.
Qed.

(** C8. With [-l] and without [--server], the command prints the device
    list and returns: whatever the other arguments are, no model file is
    fetched, no model is loaded and the engine is not called; the file
    system is as it was. *)
Theorem list_devices_skips_synthesis
    (env : Env) (args : Args) (w : World) :
  server args = false ->
  list_devices args = true ->
  let w' := snd (run_cli env args w) in
  fst (run_cli env args w) = 0 /\
  trace w' = (trace w ++ [Stdout (newline ++ "Available audio devices:");
                          QueryDevices;
                          Stdout (query_devices env)])%list /\
  (forall e, e ∈ trace w' -> is_synthesis e = true -> e ∈ trace w) /\
  fs w' = fs w /\
  next_id w' = next_id w.
Proof.
  intros Hserver Hlist.
  destruct (setup_logging_run (debug args) w)
    as (l & Hrun & _ & _ & Hfs & Hid & Htr).
  assert (Hmain :
    run_cli env args w =
    (0, emit (Stdout (query_devices env))
          (emit QueryDevices
             (emit (Stdout (newline ++ "Available audio devices:"))
                (snd (setup_logging (debug args) w)))))).
  { unfold run_cli, main, bind at 1. rewrite Hrun, Hserver, Hlist.
    reflexivity. }
  rewrite Hmain. cbn [fst snd emit trace fs next_id].
  rewrite Htr, Hfs, Hid, <- !app_assoc. cbn [app].
  repeat split.
  intros e Hin Hsyn. apply elem_of_app in Hin as [Hin|Hin]; [exact Hin|].
  repeat (apply elem_of_cons in Hin as [->|Hin]; [discriminate|]).
  now apply elem_of_nil in Hin.
Qed.

Lemma list_devices_skips_synthesis_witness :
  fst (run_cli good_env list_args boot) = 0 /\
  trace (snd (run_cli good_env list_args boot))
  = [Stdout (newline ++ "Available audio devices:"); QueryDevices;
     Stdout "0 Built-in Output"].
Proof.
  destruct (list_devices_skips_synthesis good_env list_args boot
              eq_refl eq_refl) as (Hcode & Htrace & _).
  split; [exact Hcode | exact Htrace].
Defined.

(** [main] on the synthesis path. *)
Lemma main_synthesis_run (env : Env) (args : Args) (w : World) (text : string) :
  server args = false ->
  list_devices args = false ->
  let w1 := snd (setup_logging (debug args) w) in
  read_input env args w1 = (Ok text, w1) ->
  main env args w =
  if truthy text
  then
    match text_to_speech env text (output args) (device args) (voice args)
                         (speed args) (lang args) (debug args) w1 with
    | (Ok u, w2) => (Ok u, w2)
    | (Raise e, w2) => (Exit 1, snd (logging_log ERROR (MsgError e) w2))
    | (Exit c, w2) => (Exit c, w2)
    end
  else (Exit 1, emit (Stderr "Error: No input text provided") w1).
Proof.
  intros Hserver Hlist w1 Hread.
  destruct (setup_logging_run (debug args) w) as (l & Hrun & _).
  unfold main, bind at 1. rewrite Hrun, Hserver, Hlist. fold w1.
  unfold bind at 1. rewrite Hread.
  destruct (truthy text); cbn [negb]; [|reflexivity].
  unfold bind at 1, ret, try_except.
  destruct (text_to_speech env text (output args) (device args)
              (voice args) (speed args) (lang args) (debug args) w1)
    as [[u|e|c] w2]; try reflexivity.
  unfold bind, sys_exit.
  destruct (logging_log_run ERROR (MsgError e) w2) as (w3 & -> & _).
  reflexivity.
Qed.

End KokorofileFacts.

(** ** The two programs side by side: model lifetime and voice checks *)

Module VariantFacts.

Import ServerSpec ServerInvariants ServerFacts.
Import KokorofileSpec KokorofileFacts.

(** Whatever requests arrive, the server keeps the core model it
    started with, loads no other, and builds and runs pipelines on that
    model only. *)
Lemma serve_shares_model (env : Server.Env) (rqs : list Server.Request)
      (st : Server.State) :
  shares_model st ->
  Server.core_model (Server.serve env rqs st) = Server.core_model st /\
  shares_model (Server.serve env rqs st) /\
  exists evs,
    Server.events (Server.serve env rqs st)
    = (Server.events st ++ evs)%list /\
    Forall (uses (Server.core_model st)) evs.
Proof.
  revert st. induction rqs as [|rq rqs IH]; intros st Hsh.
  - cbn. repeat split; try assumption. exists []. now rewrite app_nil_r.
  - cbn [Server.serve].
    destruct (handle_step env rq st Hsh) as (Hcm & Hsh' & (evs & Hev & Hall) & _).
    destruct (IH _ Hsh') as (Hcm2 & Hsh2 & (evs2 & Hev2 & Hall2)).
    split; [congruence|]. split; [exact Hsh2|].
    exists (evs ++ evs2)%list. rewrite Hev2, Hev, app_assoc.
    split; [reflexivity|]. apply Forall_app. split; [exact Hall|].
    now rewrite Hcm in Hall2.
Qed.

(** C3, as the code has it.  In [server.py] the core model is loaded
    once, at import time and before any request, and every pipeline built
    and every synthesis run afterwards is on that one model.  In
    [kokorofile.py] nothing is kept between calls: a call of
    [text_to_speech] either fails before a model is loaded, or creates a
    model object that did not exist before and runs the engine on that
    object only. *)
Theorem model_loaded_once_in_server_per_call_in_cli :
  (forall env d st,
      Server.startup env d = Ok st ->
      Server.events st = [Server.NewKModel (Server.core_model st);
                          Server.NewKPipeline (Server.pipeline st)] /\
      forall rqs,
        Server.core_model (Server.serve env rqs st) = Server.core_model st /\
        Server.model (Server.pipeline (Server.serve env rqs st))
        = Server.core_model st /\
        exists evs,
          Server.events (Server.serve env rqs st)
          = (Server.events st ++ evs)%list /\
          Forall (uses (Server.core_model st)) evs) /\
  (forall env text output_file device voice speed lang debug w,
      let res := Kokorofile.text_to_speech env text output_file device
                   voice speed lang debug w in
      (exists evs e,
          fst res = Raise e /\
          Kokorofile.trace (snd res) = (Kokorofile.trace w ++ evs)%list /\
          Forall no_model evs)
      \/
      (exists k evs1 evs2,
          Kokorofile.kokoro_id k = Kokorofile.next_id w /\
          Kokorofile.next_id (snd res) = S (Kokorofile.next_id w) /\
          Kokorofile.trace (snd res)
          = (Kokorofile.trace w ++ evs1
               ++ Kokorofile.NewKokoro k :: evs2)%list /\
          Forall no_model evs1 /\ Forall (runs_only k) evs2)).
Proof.
  split.
  - intros env d st Hstart.
    destruct (startup_run env d st Hstart) as (Hsh & _ & _ & Hev).
    split; [exact Hev|]. intros rqs.
    destruct (serve_shares_model env rqs st Hsh) as (Hcm & Hsh' & Hevs).
    split; [exact Hcm|]. split; [|exact Hevs].
    unfold shares_model in Hsh'. congruence.
  - intros env text output_file device voice speed lang debug w res.
    destruct (text_to_speech_run env text output_file device voice speed
                lang debug w) as (_ & _ & [Hfail|Hload]).
    + left. destruct Hfail as (evs & e & He & Htr & Hall & _). eauto.
    + right. destruct Hload as (k & evs1 & evs2 & Hk & Htr & H1 & H2 & Hid).
      exists k, evs1, evs2. auto.
Qed.

Lemma model_loaded_once_in_server_per_call_in_cli_witness :
  Server.events st0
  = [Server.NewKModel the_model;
     Server.NewKPipeline (Server.mkKPipeline the_model "a")] /\
  Server.core_model
    (Server.serve strict_env
       [Server.PostSynthesizeFile say_hi;
        Server.PostSettings (Server.mkSettings "a" "af_sky.pt");
        Server.PostSynthesizeFile say_hi] st0) = the_model.
Proof.
  destruct model_loaded_once_in_server_per_call_in_cli as [Hserver _].
  assert (Hstart : Server.startup strict_env one_voice = Ok st0)
    by reflexivity.
  destruct (Hserver strict_env one_voice st0 Hstart) as [Hev Hall].
  split; [exact Hev|].
  exact (proj1 (Hall _)).
Defined.

(** C3 does not hold as stated: two calls of [text_to_speech] in one
    process load two model objects and each call runs its own; the HTTP
    mode of [kokorofile.py] does the same for two requests; and
    [server.py] has loaded its model when no request has arrived yet. *)
Lemma model_reloaded_on_every_call :
  let k0 := Kokorofile.mkKokoro 0 "/cache/kokoro-v1.0.onnx"
                                "/cache/voices-v1.0.bin" in
  let k1 := Kokorofile.mkKokoro 1 "/cache/kokoro-v1.0.onnx"
                                "/cache/voices-v1.0.bin" in
  model_events (snd (speak_twice good_env "af_sarah" boot))
  = [Kokorofile.NewKokoro k0;
     Kokorofile.KokoroCreate k0 "hello" "af_sarah" one "en-us";
     Kokorofile.NewKokoro k1;
     Kokorofile.KokoroCreate k1 "again" "af_sarah" one "en-us"] /\
  model_events (snd (Kokorofile.run_cli busy_env server_args boot))
  = [Kokorofile.NewKokoro k0;
     Kokorofile.KokoroCreate k0 "hello" "af_sarah" one "en-us";
     Kokorofile.NewKokoro k1;
     Kokorofile.KokoroCreate k1 "again" "no_such_voice" one "en-us"] /\
  Server.startup strict_env one_voice = Ok st0 /\
  List.filter is_NewKModel (Server.events st0)
  = [Server.NewKModel the_model].
Proof.
  cbv zeta. split; [vm_compute; reflexivity|].
  split; [vm_compute; reflexivity|].
  split; reflexivity.
Qed.

(** The engine is called with the voice as it came in. *)
Lemma speak_calls_engine (env : Kokorofile.Env) (k : Kokorofile.Kokoro)
      (text : string) (output_file : option string) (device : option Z)
      (voice : string) (speed : Kokorofile.float) (lang : string)
      (w : Kokorofile.World) :
  Kokorofile.KokoroCreate k text voice speed lang
  ∈ Kokorofile.trace
      (snd (speak env k text output_file device voice speed lang w)).
Proof.
  unfold speak, bind at 1.
  destruct (logging_log_run Kokorofile.INFO
              (Kokorofile.MsgGenerating voice speed lang) w)
    as (w1 & -> & _).
  unfold Kokorofile.Kokoro_create, bind, modify, external.
  destruct (Kokorofile.kokoro_create env text voice speed lang)
    as [[audio rate]|e]; cbn [fst snd].
  - destruct (steps_deliver (fun _ => True) env audio rate output_file
                device (fun _ _ => I)
                (Kokorofile.emit
                   (Kokorofile.KokoroCreate k text voice speed lang) w1))
      as ((evs & Htr & _) & _).
    destruct (deliver env audio rate output_file device _) as [r w2].
    cbn [fst snd] in *. rewrite Htr. cbn.
    apply elem_of_app. left. apply elem_of_app. right.
    apply list_elem_of_here.
  - cbn. apply elem_of_app. right. apply list_elem_of_here.
Qed.

(** C4, as the code has it.  The HTTP service checks a voice against the
    available voices only when POST /settings stores it.  A synthesis
    request (/synthesize_file, /play_live) runs the pipeline with the
    voice of the request, or with the stored voice when the request names
    none, whatever that voice is; and [kokorofile.py] hands the voice it
    was given to the engine whenever the model could be loaded. *)
Theorem voice_checked_by_post_settings_only :
  (forall env st new out st',
      Server.update_settings env new st = (Ok out, st') ->
      Server.voice new ∈ Server.glob_pt (Server.voice_dir st)) /\
  (forall env st data s,
      text_field data = Server.VStr s -> strip s <> "" ->
      Server.events (snd (Server.synthesize_file env data st))
      = (Server.events st
           ++ [Server.PipelineCall (Server.pipeline st) (strip s)
                 (requested_voice st data)])%list) /\
  (forall env st data s,
      text_field data = Server.VStr s -> strip s <> "" ->
      exists evs,
        Server.events (snd (Server.play_live env data st))
        = (Server.events st
             ++ Server.PipelineCall (Server.pipeline st) (strip s)
                  (requested_voice st data) :: evs)%list) /\
  (forall env text output_file device voice speed lang debug w k w1,
      prepare env w = (Ok k, w1) ->
      Kokorofile.KokoroCreate k text voice speed lang
      ∈ Kokorofile.trace
          (snd (Kokorofile.text_to_speech env text output_file device
                  voice speed lang debug w))).
Proof.
  split; [|split; [|split]].
  - intros env st new out st' Hrun.
    destruct (voice_dec st new) as [Hin|Hnot]; [exact Hin|].
    destruct (update_settings_rejected env st new Hnot) as [detail Hr].
    rewrite Hr in Hrun. discriminate.
  - intros env st data s Htext Hne. apply truthy_true in Hne.
    rewrite synthesize_file_run, Htext, Hne. cbv zeta.
    destruct (Server.pipeline_yields env (Server.pipeline st) (strip s)
                (requested_voice st data)) as [[|a frames]|e]; reflexivity.
  - intros env st data s Htext Hne. apply truthy_true in Hne.
    rewrite play_live_run, Htext, Hne. cbv zeta.
    destruct (Server.pipeline_yields env (Server.pipeline st) (strip s)
                (requested_voice st data)) as [frames|e]; cbn.
    + eexists. now rewrite <- app_assoc.
    + now exists [].
  - intros env text output_file device voice speed lang debug w k w1 Hprep.
    rewrite text_to_speech_split. unfold bind. rewrite Hprep.
    apply speak_calls_engine.
Qed.

Lemma voice_checked_by_post_settings_only_witness :
  "af_sky.pt" ∈ Server.glob_pt (Server.voice_dir st0) /\
  Server.events (snd (Server.synthesize_file strict_env
                        (say_hi_as "no_such_voice") st0))
  = (Server.events st0
       ++ [Server.PipelineCall (Server.pipeline st0) "hi"
             (Server.VStr "no_such_voice")])%list.
Proof.
  destruct voice_checked_by_post_settings_only as (Hset & Hsyn & _).
  split.
  - eapply (Hset strict_env st0 (Server.mkSettings "a" "af_sky.pt")).
    reflexivity.
  - apply (Hsyn strict_env st0 (say_hi_as "no_such_voice") " hi ");
      [reflexivity | discriminate].
Defined.

(** C4 does not hold as stated: /synthesize_file runs the pipeline with
    a voice that is not among the available voices, and answers 200; the
    default voice of the settings is itself not among them, since the
    available names are file names ending in ".pt". *)
Lemma synthesis_runs_unchecked_voice :
  Server.get_available_voices st0 = (Ok ["af_sky.pt"], st0) /\
  ("no_such_voice" ∉ ["af_sky.pt"]) /\
  Server.http_status
    (fst (Server.synthesize_file strict_env (say_hi_as "no_such_voice") st0))
  = 200 /\
  last (Server.events
          (snd (Server.synthesize_file strict_env
                  (say_hi_as "no_such_voice") st0)))
  = Some (Server.PipelineCall (Server.pipeline st0) "hi"
            (Server.VStr "no_such_voice")) /\
  (Server.voice (Server.settings st0) ∉ ["af_sky.pt"]) /\
  last (Server.events (snd (Server.synthesize_file strict_env say_hi st0)))
  = Some (Server.PipelineCall (Server.pipeline st0) "hi"
            (Server.VStr "af_sky")).
Proof.
  split; [reflexivity|].
  split; [intros H; apply list_elem_of_singleton in H; discriminate|].
  split; [reflexivity|]. split; [reflexivity|].
  split; [intros H; apply list_elem_of_singleton in H; discriminate|].
  reflexivity.
Qed.

End VariantFacts.

(** ** [server.py]: the other routes, start-up, and what requests leave
       alone *)

Module ServerMore.

Import Server ServerSpec ServerInvariants WaveSpec MoreSpec ServerFacts.

(** A name that [glob("*.pt")] lists is a directory entry ending in
  ".pt". *)
Lemma glob_pt_elem (d : path_state) (name : string) :
name ∈ glob_pt d ->
endswith name ".pt" = true /\
exists entries, d = Directory entries /\ name ∈ entries.
Proof.
destruct d as [| |entries]; cbn [glob_pt]; intros Hin;
  try (now apply elem_of_nil in Hin).
apply list_elem_of_In, List.filter_In in Hin as [Hin Hpt].
split; [exact Hpt|]. exists entries. split; [reflexivity|].
now apply list_elem_of_In.
Qed.

(** X1. GET /settings always answers 200 and changes nothing; right after
  a POST /settings that succeeded it reports exactly what that POST
  answered: the language code and voice just stored and the voices
  found on disk. *)
Theorem get_settings_reads_back
  (env : Env) (st : State) (new : Settings) (out : Response) (st' : State) :
(exists r, get_settings st = (Ok r, st)) /\
(update_settings env new st = (Ok out, st') ->
 get_settings st' = (Ok out, st') /\
 out = SettingsResponse
         {| out_lang_code := lang_code new; out_voice := voice new;
            available_voices := glob_pt (voice_dir st) |}).
Proof.
split.
- unfold get_settings, bind at 1, get, bind.
  rewrite get_available_voices_eq. eexists. reflexivity.
- intros Hrun. destruct (voice_dec st new) as [Hin|Hnot].
  + rewrite (update_settings_accepted env st new Hin) in Hrun.
    destruct (KPipeline_new env (core_model st) (lang_code new));
      inversion Hrun; subst.
    split; [|reflexivity].
    unfold get_settings, bind at 1, get, bind.
    rewrite get_available_voices_eq. reflexivity.
  + destruct (update_settings_rejected env st new Hnot) as [detail Hr].
    rewrite Hr in Hrun. discriminate.
Qed.

Lemma get_settings_reads_back_witness :
get_settings
  (snd (update_settings strict_env (mkSettings "a" "af_sky.pt") st0))
= (Ok (SettingsResponse
         {| out_lang_code := "a"; out_voice := "af_sky.pt";
            available_voices := ["af_sky.pt"] |}),
   snd (update_settings strict_env (mkSettings "a" "af_sky.pt") st0)).
Proof.
destruct (get_settings_reads_back strict_env st0
            (mkSettings "a" "af_sky.pt")
            (SettingsResponse
               {| out_lang_code := "a"; out_voice := "af_sky.pt";
                  available_voices := ["af_sky.pt"] |})
            (snd (update_settings strict_env
                    (mkSettings "a" "af_sky.pt") st0)))
  as [_ Hback].
exact (proj1 (Hback eq_refl)).
Defined.

(** X2. A voice that POST /settings accepts is the name of an entry of
  the voices directory and ends in ".pt": the names are file names, so a
  voice given without the extension is always refused. *)
Theorem accepted_voice_is_a_pt_file
  (env : Env) (st : State) (new : Settings) (out : Response) (st' : State) :
update_settings env new st = (Ok out, st') ->
endswith (voice new) ".pt" = true /\
exists entries,
  voice_dir st = Directory entries /\ voice new ∈ entries.
Proof.
intros Hrun. destruct (voice_dec st new) as [Hin|Hnot].
- now apply glob_pt_elem.
- destruct (update_settings_rejected env st new Hnot) as [detail Hr].
  rewrite Hr in Hrun. discriminate.
Qed.

Lemma accepted_voice_is_a_pt_file_witness :
endswith "af_sky.pt" ".pt" = true /\
exists entries,
  voice_dir st0 = Directory entries /\ "af_sky.pt" ∈ entries.
Proof.
eapply (accepted_voice_is_a_pt_file strict_env st0
          (mkSettings "a" "af_sky.pt")).
reflexivity.
Defined.

(** X3. Start-up never checks the default voice: whatever is on disk, the
  service that has started holds the default settings, and their voice
  "af_sky" is not among the available voices, so it could not be stored
  again through POST /settings. *)
Theorem startup_voice_is_not_available
  (env : Env) (d : path_state) (st : State) :
startup env d = Ok st ->
settings st = Settings_default /\
(voice (settings st) ∉ glob_pt (voice_dir st)) /\
http_status (fst (update_settings env (settings st) st)) = 400.
Proof.
intros Hstart.
destruct (startup_run env d st Hstart) as (_ & _ & Hset & _).
assert (Hnot : voice (settings st) ∉ glob_pt (voice_dir st)).
{ rewrite Hset. intros Hin. apply glob_pt_elem in Hin as [Hpt _].
  discriminate Hpt. }
split; [exact Hset|]. split; [exact Hnot|].
destruct (update_settings_rejected env st (settings st) Hnot)
  as [detail ->].
reflexivity.
Qed.

Lemma startup_voice_is_not_available_witness :
voice (settings st0) ∉ glob_pt (voice_dir st0).
Proof.
assert (Hstart : startup strict_env one_voice = Ok st0) by reflexivity.
exact (proj1 (proj2 (startup_voice_is_not_available _ _ _ Hstart))).
Defined.

(** X4. The module starts exactly when the core model file exists, the
  model loads and the pipeline for the default language can be built;
  without the file it stops with "Core model not found at
  models/kokoro-v1_0.pth".  The voices directory plays no part. *)
Theorem startup_succeeds_iff (env : Env) (d : path_state) :
(is_ok (startup env d) = true <->
 core_model_exists env = true /\
 KModel_loads env CORE_MODEL_PATH = true /\
 KPipeline_accepts env "a" = true) /\
(core_model_exists env = false ->
 startup env d
 = Raise (RuntimeError "Core model not found at models/kokoro-v1_0.pth")).
Proof.
unfold startup, KPipeline_new. cbn [Settings_default lang_code].
destruct (core_model_exists env), (KModel_loads env CORE_MODEL_PATH),
  (KPipeline_accepts env "a"); cbn; intuition congruence.
Qed.

Lemma startup_succeeds_iff_witness :
startup bare_env Missing
= Raise (RuntimeError "Core model not found at models/kokoro-v1_0.pth").
Proof.
exact (proj2 (startup_succeeds_iff bare_env Missing) eq_refl).
Defined.

Lemma synthesis_same_globals
    (env : Env) (st : State) (data : gmap string value) :
same_globals st (snd (synthesize_file env data st)) /\
same_globals st (snd (play_live env data st)).
Proof.
rewrite synthesize_file_run, play_live_run.
destruct (text_field data) as [| | |s|]; cbn; try easy.
destruct (truthy (strip s)); cbn; try easy.
destruct (pipeline_yields env (pipeline st) (strip s)
            (requested_voice st data)) as [[|a frames]|e]; easy.
Qed.

(** X5. The synthesis routes only read the globals: whatever the body and
  whatever the answer, /synthesize_file and /play_live leave the core
  model, the settings, the pipeline and the voices directory as they
  were, and only add to the record of events. *)
Theorem synthesis_routes_read_only
  (env : Env) (st : State) (data : gmap string value) :
same_globals st (snd (synthesize_file env data st)) /\
same_globals st (snd (play_live env data st)) /\
(exists evs, events (snd (synthesize_file env data st))
             = (events st ++ evs)%list) /\
(exists evs, events (snd (play_live env data st))
             = (events st ++ evs)%list).
Proof.
rewrite synthesize_file_run, play_live_run.
destruct (text_field data) as [| | |s|]; cbn;
  try (repeat split; exists []; now rewrite app_nil_r).
destruct (truthy (strip s)); cbn;
  [|repeat split; exists []; now rewrite app_nil_r].
destruct (pipeline_yields env (pipeline st) (strip s)
            (requested_voice st data)) as [[|a frames]|e]; cbn;
  repeat split; eexists; try reflexivity;
  rewrite <- app_assoc; reflexivity.
Qed.

(** X6. A body without "text" is answered 400 and a body whose "text" is
  not a string (null, a number) is answered 500, by /synthesize_file and
  by /play_live alike; in both cases the pipeline is not run and the
  state is untouched. *)
Theorem text_missing_or_not_a_string
  (env : Env) (st : State) (data : gmap string value) :
(data !! "text" = None ->
 http_status (fst (synthesize_file env data st)) = 400 /\
 http_status (fst (play_live env data st)) = 400 /\
 snd (synthesize_file env data st) = st /\
 snd (play_live env data st) = st) /\
(forall v, data !! "text" = Some v -> (forall s, v <> VStr s) ->
 fst (synthesize_file env data st) = Raise AttributeError /\
 fst (play_live env data st) = Raise AttributeError /\
 http_status (fst (synthesize_file env data st)) = 500 /\
 http_status (fst (play_live env data st)) = 500 /\
 snd (synthesize_file env data st) = st /\
 snd (play_live env data st) = st).
Proof.
rewrite synthesize_file_run, play_live_run. unfold text_field. split.
- intros ->. cbn. auto.
- intros v -> Hv. cbn [default from_option id].
  destruct v as [|b|z|s|]; try (now destruct (Hv s));
    cbn; repeat split.
Qed.

Lemma text_missing_or_not_a_string_witness :
http_status (fst (synthesize_file strict_env no_text st0)) = 400 /\
http_status (fst (synthesize_file strict_env null_text st0)) = 500 /\
http_status (fst (play_live strict_env number_text st0)) = 500.
Proof.
destruct (text_missing_or_not_a_string strict_env st0 no_text)
  as [Hnone _].
destruct (text_missing_or_not_a_string strict_env st0 null_text)
  as [_ Hnull].
destruct (text_missing_or_not_a_string strict_env st0 number_text)
  as [_ Hnum].
split; [exact (proj1 (Hnone eq_refl))|]. split.
- destruct (Hnull VNone eq_refl) as (_ & _ & H & _);
    [discriminate | exact H].
- destruct (Hnum (VInt 5) eq_refl) as (_ & _ & _ & H & _);
    [discriminate | exact H].
Defined.

(** X7. When the pipeline runs to its end on a non-empty text, /play_live
  plays every chunk in the order it was produced, waiting after each,
  and answers 200 with status "played"; it does so as well when the
  pipeline produced no chunk at all, where /synthesize_file answers
  500. *)
Theorem play_live_plays_every_chunk
  (env : Env) (st : State) (data : gmap string value) (s : string)
  (frames : list Audio) :
text_field data = VStr s ->
strip s <> "" ->
pipeline_yields env (pipeline st) (strip s) (requested_voice st data)
= Returns frames ->
fst (play_live env data st) = Ok (JSONResponse [("status", "played")]) /\
http_status (fst (play_live env data st)) = 200 /\
events (snd (play_live env data st))
= (events st
     ++ PipelineCall (pipeline st) (strip s) (requested_voice st data)
     :: played frames)%list /\
(frames = [] ->
 http_status (fst (synthesize_file env data st)) = 500).
Proof.
intros Htext Hne Hy. apply truthy_true in Hne.
rewrite play_live_run, synthesize_file_run, Htext, Hne. cbv zeta.
rewrite Hy. cbn [fst snd events http_status].
split; [reflexivity|]. split; [reflexivity|]. split.
- now rewrite <- app_assoc.
- intros ->. reflexivity.
Qed.

Lemma play_live_plays_every_chunk_witness :
events (snd (play_live accepting_env say_hi st0))
= (events st0
     ++ [PipelineCall (pipeline st0) "hi" (VStr "af_sky");
         SdPlay (mkAudio [Byte.x01; Byte.x00]); SdWait;
         SdPlay (mkAudio [Byte.x02; Byte.x00]); SdWait])%list /\
http_status (fst (play_live silent_env say_hi st0)) = 200.
Proof.
split.
- apply (play_live_plays_every_chunk accepting_env st0 say_hi " hi "
           [mkAudio [Byte.x01; Byte.x00]; mkAudio [Byte.x02; Byte.x00]]);
    [reflexivity | discriminate | reflexivity].
- apply (play_live_plays_every_chunk silent_env st0 say_hi " hi " []);
    [reflexivity | discriminate | reflexivity].
Defined.

(** X8. Settings take effect on the next request: after a POST /settings
  that succeeded, a /synthesize_file request that names no voice runs
  the pipeline built for the new language code, on the shared core
  model, with the new voice. *)
Theorem stored_settings_drive_next_synthesis
  (env : Env) (st : State) (new : Settings) (out : Response) (st' : State)
  (data : gmap string value) (s : string) :
update_settings env new st = (Ok out, st') ->
text_field data = VStr s ->
strip s <> "" ->
data !! "voice" = None ->
events (snd (synthesize_file env data st'))
= (events st'
     ++ [PipelineCall
           {| model := core_model st; pipe_lang_code := lang_code new |}
           (strip s) (VStr (voice new))])%list.
Proof.
intros Hrun Htext Hne Hvoice.
destruct (post_settings_success_coherent env st new out st' Hrun)
  as (Hset & Hpipe & _).
apply truthy_true in Hne.
rewrite synthesize_file_run, Htext, Hne. cbv zeta.
unfold requested_voice. rewrite Hvoice, Hset, Hpipe. cbn [default].
destruct (pipeline_yields env _ (strip s) _) as [[|a frames]|e];
  reflexivity.
Qed.

Lemma stored_settings_drive_next_synthesis_witness :
let st' := snd (update_settings accepting_env
                  (mkSettings "b" "af_sky.pt") st0) in
events (snd (synthesize_file accepting_env say_hi st'))
= (events st'
     ++ [PipelineCall {| model := the_model; pipe_lang_code := "b" |}
           "hi" (VStr "af_sky.pt")])%list.
Proof.
intros st'.
eapply (stored_settings_drive_next_synthesis accepting_env st0
          (mkSettings "b" "af_sky.pt") _ st' say_hi " hi ");
  [reflexivity | reflexivity | discriminate | reflexivity].
Defined.

(** With an engine that takes every language code, one request keeps
  settings and pipeline in step. *)
Lemma handle_coherent_accepting (env : Env) (rq : Request) (st : State) :
(forall l, KPipeline_accepts env l = true) ->
coherent st -> coherent (snd (handle env rq st)).
Proof.
intros Hacc Hco. destruct rq as [|new|data|data|d]; cbn [handle].
- unfold get_settings, bind at 1, get, bind.
  rewrite get_available_voices_eq. exact Hco.
- destruct (voice_dec st new) as [Hin|Hnot].
  + rewrite (update_settings_accepted env st new Hin).
    unfold KPipeline_new. rewrite Hacc. reflexivity.
  + destruct (update_settings_rejected env st new Hnot) as [detail ->].
    exact Hco.
- destruct (synthesis_same_globals env st data)
    as ((_ & Hs & Hp & _) & _).
  unfold coherent. now rewrite Hs, Hp.
- destruct (synthesis_same_globals env st data)
    as (_ & (_ & Hs & Hp & _)).
  unfold coherent. now rewrite Hs, Hp.
- exact Hco.
Qed.

(** X9. With an engine that accepts every language code, the pipeline in
  use speaks the language the settings name at every point of every run:
  after start and after any sequence of requests and changes of the
  voices directory. *)
Theorem coherent_while_engine_accepts
  (env : Env) (d : path_state) (st : State) (rqs : list Request) :
(forall l, KPipeline_accepts env l = true) ->
startup env d = Ok st ->
coherent (serve env rqs st).
Proof.
intros Hacc Hstart.
destruct (startup_run env d st Hstart) as (_ & Hco & _).
clear Hstart. revert st Hco.
induction rqs as [|rq rqs IH]; intros st Hco; cbn [serve].
- exact Hco.
- apply IH. now apply handle_coherent_accepting.
Qed.

Lemma coherent_while_engine_accepts_witness :
coherent
  (serve accepting_env
     [PostSettings (mkSettings "xx" "af_sky.pt");
      PostSynthesizeFile say_hi;
      VoiceDirChanged Missing;
      PostSettings (mkSettings "b" "af_sky.pt")] st0).
Proof.
apply (coherent_while_engine_accepts accepting_env one_voice);
  [reflexivity | reflexivity].
Defined.

(** X10. Chunks without samples are not "no audio": when the pipeline
  yields at least one chunk but no byte at all, /synthesize_file answers
  200 and the body is the bare 44-byte header announcing 0 bytes of
  data. *)
Theorem hollow_chunks_give_header_only
  (env : Env) (st : State) (data : gmap string value) (s : string)
  (frames : list Audio) :
text_field data = VStr s ->
strip s <> "" ->
pipeline_yields env (pipeline st) (strip s) (requested_voice st data)
= Returns frames ->
frames <> [] ->
concat (map tobytes frames) = [] ->
exists body,
  fst (synthesize_file env data st)
  = Ok (StreamingResponse body "audio/wav"
          [("Content-Disposition", "attachment; filename=output.wav")]) /\
  body = riff_header 0 /\ length body = 44%nat /\
  field body 4 4 = 36 /\ field body 40 4 = 0.
Proof.
intros Htext Hne Hy Hfr Hnil. apply truthy_true in Hne.
rewrite synthesize_file_run, Htext, Hne. cbv zeta. rewrite Hy.
destruct frames as [|a frames]; [contradiction|].
rewrite Hnil. exists (riff_header 0). cbn [fst].
split; [reflexivity|]. repeat split.
Qed.

Lemma hollow_chunks_give_header_only_witness :
exists body,
  fst (synthesize_file hollow_env say_hi st0)
  = Ok (StreamingResponse body "audio/wav"
          [("Content-Disposition", "attachment; filename=output.wav")]) /\
  body = riff_header 0 /\ length body = 44%nat /\
  field body 4 4 = 36 /\ field body 40 4 = 0.
Proof.
apply (hollow_chunks_give_header_only hollow_env st0 say_hi " hi "
         [mkAudio []]);
  [reflexivity | discriminate | reflexivity | discriminate | reflexivity].
Defined.

End ServerMore.

(** ** [kokorofile.py]: directories, failed fetches, output, server mode *)

Module CliFacts.

Import Kokorofile KokorofileSpec CliSpec KokorofileFacts.

(** [os.makedirs(path, exist_ok=True)], case by case. *)
Lemma os_makedirs_run (env : Env) (path : string) (w : World) :
os_makedirs env path w =
let w1 := emit (Makedirs path) w in
match fs w !! path with
| Some Dir => (Ok tt, w1)
| Some (File _) => (Raise (OSError path), w1)
| None =>
    if makedirs_allowed env path
    then (Ok tt, set_fs (<[path := Dir]> (fs w)) w1)
    else (Raise (OSError path), w1)
end.
Proof.
unfold os_makedirs, bind, modify, get, ret, raise. cbn.
destruct (fs w !! path) as [[c|]|]; try reflexivity.
destruct (makedirs_allowed env path); reflexivity.
Qed.

Lemma os_makedirs_ok (env : Env) (path : string) (w w' : World) :
os_makedirs env path w = (Ok tt, w') ->
fs w' !! path = Some Dir /\
(forall q x, fs w !! q = Some x -> fs w' !! q = Some x) /\
(fs w !! path = Some Dir -> fs w' = fs w).
Proof.
rewrite os_makedirs_run. cbv zeta.
destruct (fs w !! path) as [[c|]|] eqn:Hp; try discriminate.
- intros H. injection H as <-. cbn. auto.
- destruct (makedirs_allowed env path); [|discriminate].
  intros H. injection H as <-. cbn.
  split; [apply lookup_insert_eq|]. split; [|discriminate].
  intros q x Hq. rewrite lookup_insert_ne; [exact Hq|].
  intros ->. congruence.
Qed.

Lemma os_makedirs_existing (env : Env) (path : string) (w : World) :
fs w !! path = Some Dir ->
os_makedirs env path w = (Ok tt, emit (Makedirs path) w).
Proof. intros H. rewrite os_makedirs_run. cbv zeta. now rewrite H. Qed.

(** X11. When [get_cache_dirs] returns, it returns the two platform
  directories, both exist as directories, and every file or directory
  that was there before is still there unchanged; calling it again
  succeeds and leaves the file system as it is.  When a regular file
  sits at the cache path, it raises and the file system is
  untouched. *)
Theorem get_cache_dirs_creates_both
  (env : Env) (w : World) :
(forall dirs w',
    get_cache_dirs env w = (Ok dirs, w') ->
    dirs = (user_cache_dir env, user_data_dir env) /\
    fs w' !! user_cache_dir env = Some Dir /\
    fs w' !! user_data_dir env = Some Dir /\
    (forall q x, fs w !! q = Some x -> fs w' !! q = Some x) /\
    fst (get_cache_dirs env w') = Ok dirs /\
    fs (snd (get_cache_dirs env w')) = fs w') /\
(forall c,
    fs w !! user_cache_dir env = Some (File c) ->
    fst (get_cache_dirs env w) = Raise (OSError (user_cache_dir env)) /\
    fs (snd (get_cache_dirs env w)) = fs w).
Proof.
split.
- intros dirs w' Hrun. unfold get_cache_dirs, bind, ret in Hrun.
  destruct (os_makedirs env (user_cache_dir env) w)
    as [[[]|e|c] w1] eqn:H1; try discriminate.
  destruct (os_makedirs env (user_data_dir env) w1)
    as [[[]|e|c] w2] eqn:H2; try discriminate.
  injection Hrun as <- <-.
  destruct (os_makedirs_ok _ _ _ _ H1) as (Hc1 & Hkeep1 & _).
  destruct (os_makedirs_ok _ _ _ _ H2) as (Hd2 & Hkeep2 & _).
  pose proof (Hkeep2 _ _ Hc1) as Hc2.
  split; [reflexivity|]. split; [exact Hc2|]. split; [exact Hd2|].
  split; [auto|].
  assert (Hagain :
    get_cache_dirs env w2
    = (Ok (user_cache_dir env, user_data_dir env),
       emit (Makedirs (user_data_dir env))
         (emit (Makedirs (user_cache_dir env)) w2))).
  { unfold get_cache_dirs, bind at 1.
    rewrite (os_makedirs_existing env _ w2 Hc2). unfold bind at 1.
    rewrite os_makedirs_existing by exact Hd2. reflexivity. }
  rewrite Hagain. cbn. auto.
- intros c Hfile. unfold get_cache_dirs, bind.
  rewrite os_makedirs_run. cbv zeta. rewrite Hfile. cbn. auto.
Qed.

Lemma get_cache_dirs_creates_both_witness :
fs (snd (get_cache_dirs good_env with_note)) !! "/cache" = Some Dir /\
fs (snd (get_cache_dirs good_env with_note)) !! "note.txt"
= Some (File "  read me  ") /\
fst (get_cache_dirs good_env blocked) = Raise (OSError "/cache").
Proof.
destruct (get_cache_dirs_creates_both good_env with_note) as [Hok _].
destruct (get_cache_dirs_creates_both good_env blocked) as [_ Hbad].
assert (Hrun : get_cache_dirs good_env with_note
               = (Ok ("/cache", "/data"),
                  snd (get_cache_dirs good_env with_note)))
  by (vm_compute; reflexivity).
destruct (Hok _ _ Hrun) as (_ & Hc & _ & Hkeep & _).
split; [exact Hc|]. split.
- apply Hkeep. vm_compute. reflexivity.
- apply (Hbad "oops"). vm_compute. reflexivity.
Defined.

(** X12. A fetch that fails before the file is created leaves the file
  system as it was, so the next call tries again.  A fetch that breaks
  off after part of the file was written raises as well, but leaves the
  partial file in place, and from then on [download_file] returns the
  path without fetching: the partial file is taken for the artifact. *)
Theorem failed_fetch_and_the_cache
  (env : Env) (url path : string) (w : World) :
~ is_Some (fs w !! path) ->
let res := download_file env url path w in
((forall t, urlretrieve_outcome env t url = Unreachable) ->
 fst res = Raise (URLError url) /\ fs (snd res) = fs w) /\
(forall c,
    (forall t, urlretrieve_outcome env t url = Truncated c) ->
    fst res = Raise (URLError url) /\
    fs (snd res) !! path = Some (File c) /\
    forall env', download_file env' url path (snd res)
                 = (Ok path, snd res)).
Proof.
intros Hno res. subst res.
destruct (download_file_missing env url path w Hno)
  as (w1 & Hfs & _ & ->). cbv zeta.
split.
- intros Hout. rewrite Hout. cbn. auto.
- intros c Hout. rewrite Hout. cbn [fst snd fs set_fs].
  split; [reflexivity|].
  split; [apply lookup_insert_eq|].
  intros env'. apply download_file_cached. cbn.
  rewrite lookup_insert_eq. eauto.
Qed.

Lemma failed_fetch_and_the_cache_witness :
fs (snd (download_file offline_env model_url "/cache/m" ready)) = fs ready /\
download_file mended_env model_url "/cache/m"
  (snd (download_file flaky_env model_url "/cache/m" ready))
= (Ok "/cache/m", snd (download_file flaky_env model_url "/cache/m" ready)).
Proof.
assert (Hno : ~ is_Some (fs ready !! "/cache/m")).
{ intros [x Hx]. vm_compute in Hx. discriminate Hx. }
destruct (failed_fetch_and_the_cache offline_env model_url "/cache/m"
            ready Hno) as [Hoff _].
destruct (failed_fetch_and_the_cache flaky_env model_url "/cache/m"
            ready Hno) as [_ Hflaky].
split.
- apply Hoff. reflexivity.
- apply (Hflaky "wei"). reflexivity.
Defined.

Lemma append_cancel (a x y : string) : a ++ x = a ++ y -> x = y.
Proof.
induction a as [|c a IH]; cbn; intros H; [exact H|].
injection H as H. auto.
Qed.

Lemma artifact_paths_differ (cache_dir : string) :
model_path_in cache_dir <> voices_path_in cache_dir.
Proof.
unfold model_path_in, voices_path_in, os_path_join. cbn [String.prefix].
cbn.
destruct (negb (truthy cache_dir) || endswith cache_dir "/");
  intros H; apply append_cancel in H; discriminate.
Qed.

(** X13. The two artifacts have different paths, and they are fetched in
  order: when the fetch of the model file raises, [download_model_files]
  raises the same exception at once and the voices file is not
  fetched. *)
Theorem model_fetch_failure_skips_voices
  (env : Env) (cache_dir : string) (w w1 : World) (e : exn) :
download_file env model_url (model_path_in cache_dir) w = (Raise e, w1) ->
download_model_files env cache_dir w = (Raise e, w1) /\
model_path_in cache_dir <> voices_path_in cache_dir /\
downloads (voices_path_in cache_dir) w1
= downloads (voices_path_in cache_dir) w.
Proof.
intros Hrun. pose proof (artifact_paths_differ cache_dir) as Hne.
split; [|split; [exact Hne|]].
- unfold download_model_files, bind.
  fold (model_path_in cache_dir). now rewrite Hrun.
- pose proof (download_file_run env model_url (model_path_in cache_dir) w)
    as (_ & _ & Hsame & _).
  rewrite Hrun in Hsame. cbn [fst snd] in Hsame. apply Hsame.
  intros H. apply Hne. now symmetry.
Qed.

Lemma model_fetch_failure_skips_voices_witness :
fst (download_model_files offline_env "/cache" boot)
= Raise (URLError model_url) /\
downloads "/cache/voices-v1.0.bin"
  (snd (download_model_files offline_env "/cache" boot)) = 0%nat.
Proof.
assert (Hrun : download_file offline_env model_url (model_path_in "/cache")
                 boot
               = (Raise (URLError model_url),
                  snd (download_file offline_env model_url
                         (model_path_in "/cache") boot)))
  by (vm_compute; reflexivity).
destruct (model_fetch_failure_skips_voices offline_env "/cache" boot _ _
            Hrun) as (Hall & _ & Hcount).
rewrite Hall. split; [reflexivity | exact Hcount].
Defined.

(** X14. A damaged cache is never repaired: when both directories and
  both artifact files exist but the engine cannot load the files,
  [text_to_speech] raises, fetches nothing and leaves the files as they
  are, so every later call fails in the same way. *)
Theorem damaged_cache_is_kept
  (env : Env) (text : string) (output_file : option string)
  (device : option Z) (voice : string) (speed : float) (lang : string)
  (debug : bool) (w : World) (m v : string) :
fs w !! user_cache_dir env = Some Dir ->
fs w !! user_data_dir env = Some Dir ->
fs w !! model_path_in (user_cache_dir env) = Some (File m) ->
fs w !! voices_path_in (user_cache_dir env) = Some (File v) ->
Kokoro_loads env m v = false ->
let res := text_to_speech env text output_file device voice speed lang
             debug w in
fst res = Raise EngineError /\
fs (snd res) = fs w /\
next_id (snd res) = next_id w /\
trace (snd res)
= (trace w ++ [Makedirs (user_cache_dir env);
               Makedirs (user_data_dir env)])%list.
Proof.
intros Hc Hd Hm Hv Hload res. subst res.
set (w2 := emit (Makedirs (user_data_dir env))
             (emit (Makedirs (user_cache_dir env)) w)).
assert (Hfs : fs w2 = fs w) by reflexivity.
assert (Hrun :
  text_to_speech env text output_file device voice speed lang debug w
  = (Raise EngineError, w2)).
{ unfold text_to_speech, bind at 1, get_cache_dirs, bind at 1.
  rewrite (os_makedirs_existing env _ w Hc). unfold bind at 1.
  rewrite os_makedirs_existing by exact Hd. unfold ret at 1.
  fold w2.
  unfold bind at 1. unfold download_model_files, bind at 1.
  fold (model_path_in (user_cache_dir env))
       (voices_path_in (user_cache_dir env)).
  rewrite (download_file_cached env model_url _ w2)
    by (rewrite Hfs, Hm; eauto).
  unfold bind at 1.
  rewrite (download_file_cached env voices_url _ w2)
    by (rewrite Hfs, Hv; eauto).
  unfold ret at 1. unfold bind at 1.
  unfold Kokoro_new, bind at 1, get.
  rewrite Hfs, Hm, Hv, Hload. reflexivity. }
rewrite Hrun. cbn [fst snd]. repeat split.
subst w2. cbn. now rewrite <- app_assoc.
Qed.

Lemma damaged_cache_is_kept_witness :
fst (text_to_speech flaky_env "hello" None None "af_sarah" one "en-us"
       false damaged) = Raise EngineError /\
fs (snd (text_to_speech mended_env "hello" None None "af_sarah" one
           "en-us" false damaged)) = fs damaged.
Proof.
split.
- apply (damaged_cache_is_kept flaky_env "hello" None None "af_sarah" one
           "en-us" false damaged "wei" "wei");
    vm_compute; reflexivity.
- apply (damaged_cache_is_kept mended_env "hello" None None "af_sarah" one
           "en-us" false damaged "wei" "wei");
    vm_compute; reflexivity.
Defined.

(** *** Where the audio goes *)

Lemma deliver_to_file (env : Env) (audio : Samples) (rate : Z) (f : string)
    (device : option Z) (w : World) :
truthy f = true ->
deliver env audio rate (Some f) device w =
let w1 := emit (SfWrite f audio rate) w in
match sf_write_bytes env f audio rate with
| Returns c =>
    (Ok tt, emit (Stdout ("Audio saved to " ++ f))
              (set_fs (<[f := File c]> (fs w1)) w1))
| Fails e => (Raise e, w1)
end.
Proof.
intros Hf. unfold deliver. rewrite Hf.
unfold sf_write, print, bind, modify, external. cbn.
destruct (sf_write_bytes env f audio rate); reflexivity.
Qed.

Lemma deliver_to_device (env : Env) (audio : Samples) (rate : Z)
    (output_file : option string) (device : option Z) (w : World) :
match output_file with Some f => truthy f = false | None => True end ->
deliver env audio rate output_file device w =
let w1 := emit (SdPlay audio rate device) w in
if sd_play_ok env device then (Ok tt, emit SdWait w1)
else (Raise (OSError ""), w1).
Proof.
intros Hout. unfold deliver.
assert (Hplay :
  (match device with
   | Some d => (run sd_play env audio rate (Some d); sd_wait)%py
   | None => (run sd_play env audio rate None; sd_wait)%py
   end) w
  = let w1 := emit (SdPlay audio rate device) w in
    if sd_play_ok env device then (Ok tt, emit SdWait w1)
    else (Raise (OSError ""), w1)).
{ unfold sd_play, sd_wait, bind, modify, ret, raise.
  destruct device as [d|]; cbn;
    [destruct (sd_play_ok env (Some d)) | destruct (sd_play_ok env None)];
    reflexivity. }
destruct output_file as [f|]; [rewrite Hout|]; exact Hplay.
Qed.

Lemma steps_prelude_get_cache_dirs (env : Env) :
steps prelude (get_cache_dirs env).
Proof. unfold get_cache_dirs, os_makedirs. steps_tac. Qed.

Lemma steps_prelude_download_model_files (env : Env) (cache_dir : string) :
steps prelude (download_model_files env cache_dir).
Proof. unfold download_model_files, download_file. steps_tac. Qed.

(** Up to the delivery: either the call has failed, or the audio is there
  and only [deliver] remains; all events so far are set-up work, the
  model, and the engine call. *)
Lemma text_to_speech_until_delivery
    (env : Env) (text : string) (output_file : option string)
    (device : option Z) (voice : string) (speed : float) (lang : string)
    (debug : bool) (w : World) :
exists evs w1,
  trace w1 = (trace w ++ evs)%list /\ Forall prelude evs /\
  ((exists e,
       text_to_speech env text output_file device voice speed lang debug w
       = (Raise e, w1))
   \/
   (exists audio rate,
       text_to_speech env text output_file device voice speed lang debug w
       = deliver env audio rate output_file device w1)).
Proof.
pose proof (text_to_speech_split env text output_file device voice speed
              lang debug w) as HT.
set (T := text_to_speech env text output_file device voice speed lang
            debug w) in *.
clearbody T. unfold bind at 1, prepare, bind at 1 in HT.
destruct (steps_prelude_get_cache_dirs env w)
  as ((evs1 & Htr1 & Hev1) & _ & _ & Hexit1).
destruct (get_cache_dirs env w) as [[[c d]|e|x] w1]; cbn [fst snd] in *;
  [| exists evs1, w1; eauto 6 | now destruct (Hexit1 x)].
unfold bind at 1 in HT.
destruct (steps_prelude_download_model_files env c w1)
  as ((evs2 & Htr2 & Hev2) & _ & _ & Hexit2).
destruct (download_model_files env c w1) as [[[m v]|e|x] w2];
  cbn [fst snd] in *;
  [| exists (evs1 ++ evs2)%list, w2;
     split; [now rewrite Htr2, Htr1, app_assoc|];
     split; [now apply Forall_app|]; eauto
   | now destruct (Hexit2 x)].
assert (Htr : trace w2 = (trace w ++ evs1 ++ evs2)%list)
  by now rewrite Htr2, Htr1, app_assoc.
assert (Hev : Forall prelude (evs1 ++ evs2)) by now apply Forall_app.
destruct (Kokoro_new_run env m v w2) as [(k & Hk & Hnew)|(e & Hnew)];
  rewrite Hnew in HT;
  [| exists (evs1 ++ evs2)%list, w2; eauto 6].
assert (Htr3 : trace (emit (NewKokoro k)
                         (set_next_id (S (next_id w2)) w2))
               = (trace w ++ (evs1 ++ evs2) ++ [NewKokoro k])%list)
  by (cbn; rewrite Htr, <- !app_assoc; reflexivity).
set (w3 := emit (NewKokoro k) (set_next_id (S (next_id w2)) w2)) in *.
assert (Hev3 : Forall prelude ((evs1 ++ evs2) ++ [NewKokoro k]))
  by (apply Forall_app; split; [exact Hev | now repeat constructor]).
unfold speak, bind at 1 in HT.
destruct (logging_log_run INFO (MsgGenerating voice speed lang) w3)
  as (w4 & Hrun4 & _ & Hlog).
rewrite Hrun4 in HT.
assert (Hpre4 : exists evs4,
           trace w4 = (trace w ++ evs4)%list /\ Forall prelude evs4).
{ destruct Hlog as [Hlog|Hlog].
  - exists ((evs1 ++ evs2) ++ [NewKokoro k])%list.
    rewrite Hlog, Htr3. split; [reflexivity | exact Hev3].
  - exists (((evs1 ++ evs2) ++ [NewKokoro k])
              ++ [LogRecord INFO (MsgGenerating voice speed lang)])%list.
    rewrite Hlog, Htr3, <- !app_assoc. split; [reflexivity|].
    rewrite !app_assoc.
    apply Forall_app. split; [exact Hev3 | now repeat constructor]. }
destruct Hpre4 as (evs4 & Htr4 & Hev4).
unfold Kokoro_create, bind, modify, external in HT.
exists (evs4 ++ [KokoroCreate k text voice speed lang])%list,
       (emit (KokoroCreate k text voice speed lang) w4).
split; [cbn; now rewrite Htr4, app_assoc|].
split; [apply Forall_app; split; [exact Hev4 | now repeat constructor]|].
destruct (kokoro_create env text voice speed lang) as [[audio rate]|e].
- right. exists audio, rate. exact HT.
- left. exists e. exact HT.
Qed.

Lemma truthy_false (s : string) : truthy s = false -> s = "".
Proof. now destruct s. Qed.

Lemma prelude_plays_nothing (e : Event) : prelude e -> plays_nothing e.
Proof. now destruct e. Qed.

Lemma prelude_saves_nothing (e : Event) : prelude e -> saves_nothing e.
Proof. now destruct e. Qed.

(** X15. The audio goes to the file or to the device, never to both.
  With a non-empty [output_file] nothing is played, and when the call
  returns the file exists and the last line printed is
  "Audio saved to <file>".  Without [output_file] (or with an empty
  one) no file is written and nothing is printed, and when the call
  returns the audio was played on the requested device and waited
  for. *)
Theorem audio_goes_to_file_or_device
  (env : Env) (text : string) (output_file : option string)
  (device : option Z) (voice : string) (speed : float) (lang : string)
  (debug : bool) (w : World) :
let res := text_to_speech env text output_file device voice speed lang
             debug w in
exists evs,
  trace (snd res) = (trace w ++ evs)%list /\
  (forall f,
      output_file = Some f -> f <> "" ->
      Forall plays_nothing evs /\
      (fst res = Ok tt ->
       last evs = Some (Stdout ("Audio saved to " ++ f)) /\
       exists c, fs (snd res) !! f = Some (File c))) /\
  (match output_file with Some f => f = "" | None => True end ->
   Forall saves_nothing evs /\
   (fst res = Ok tt ->
    last evs = Some SdWait /\
    exists audio rate, SdPlay audio rate device ∈ evs)).
Proof.
cbv zeta.
destruct (text_to_speech_until_delivery env text output_file device voice
            speed lang debug w)
  as (evs & w1 & Htr & Hev & [(e & ->)|(audio & rate & ->)]).
- exists evs. cbn [fst snd]. split; [exact Htr|]. split.
  + intros f _ _. split; [|discriminate].
    eapply Forall_impl; [exact Hev | exact prelude_plays_nothing].
  + intros _. split; [|discriminate].
    eapply Forall_impl; [exact Hev | exact prelude_saves_nothing].
- destruct output_file as [f|]; [destruct (truthy f) eqn:Hf|].
  + (* to the file *)
    rewrite (deliver_to_file env audio rate f device w1 Hf). cbv zeta.
    destruct (sf_write_bytes env f audio rate) as [c|e]; cbn [fst snd].
    * exists ((evs ++ [SfWrite f audio rate])
                ++ [Stdout ("Audio saved to " ++ f)])%list.
      split; [cbn; now rewrite Htr, !app_assoc|]. split.
      -- intros f' [= <-] _. split.
         ++ repeat (apply Forall_app; split);
              try (now repeat constructor).
            eapply Forall_impl; [exact Hev | exact prelude_plays_nothing].
         ++ intros _. rewrite last_snoc. split; [reflexivity|].
            exists c. cbn. apply lookup_insert_eq.
      -- intros ->. discriminate Hf.
    * exists (evs ++ [SfWrite f audio rate])%list.
      split; [cbn; now rewrite Htr, !app_assoc|]. split.
      -- intros f' _ _. split; [|discriminate].
         apply Forall_app; split; [|now repeat constructor].
         eapply Forall_impl; [exact Hev | exact prelude_plays_nothing].
      -- intros ->. discriminate Hf.
  + (* an empty file name: to the device *)
    rewrite (deliver_to_device env audio rate (Some f) device w1 Hf).
    cbv zeta. apply truthy_false in Hf.
    destruct (sd_play_ok env device); cbn [fst snd].
    * exists ((evs ++ [SdPlay audio rate device]) ++ [SdWait])%list.
      split; [cbn; now rewrite Htr, !app_assoc|]. split.
      -- intros f' [= <-] Hne. congruence.
      -- intros _. split.
         ++ repeat (apply Forall_app; split);
              try (now repeat constructor).
            eapply Forall_impl; [exact Hev | exact prelude_saves_nothing].
         ++ intros _. rewrite last_snoc. split; [reflexivity|].
            exists audio, rate. apply elem_of_app. left.
            apply elem_of_app. right. apply list_elem_of_here.
    * exists (evs ++ [SdPlay audio rate device])%list.
      split; [cbn; now rewrite Htr, !app_assoc|]. split.
      -- intros f' [= <-] Hne. congruence.
      -- intros _. split; [|discriminate].
         apply Forall_app; split; [|now repeat constructor].
         eapply Forall_impl; [exact Hev | exact prelude_saves_nothing].
  + (* no file name: to the device *)
    rewrite (deliver_to_device env audio rate None device w1 I).
    cbv zeta.
    destruct (sd_play_ok env device); cbn [fst snd].
    * exists ((evs ++ [SdPlay audio rate device]) ++ [SdWait])%list.
      split; [cbn; now rewrite Htr, !app_assoc|]. split.
      -- intros f' Hf'. discriminate Hf'.
      -- intros _. split.
         ++ repeat (apply Forall_app; split);
              try (now repeat constructor).
            eapply Forall_impl; [exact Hev | exact prelude_saves_nothing].
         ++ intros _. rewrite last_snoc. split; [reflexivity|].
            exists audio, rate. apply elem_of_app. left.
            apply elem_of_app. right. apply list_elem_of_here.
    * exists (evs ++ [SdPlay audio rate device])%list.
      split; [cbn; now rewrite Htr, !app_assoc|]. split.
      -- intros f' Hf'. discriminate Hf'.
      -- intros _. split; [|discriminate].
         apply Forall_app; split; [|now repeat constructor].
         eapply Forall_impl; [exact Hev | exact prelude_saves_nothing].
Qed.

Lemma audio_goes_to_file_or_device_witness :
(exists c,
    fs (snd (text_to_speech good_env "hello" (Some "out.wav") None
               "af_sarah" one "en-us" false boot)) !! "out.wav"
    = Some (File c)) /\
(exists evs,
    trace (snd (text_to_speech good_env "hello" None (Some 3) "af_sarah"
                  one "en-us" false boot)) = (trace boot ++ evs)%list /\
    last evs = Some SdWait).
Proof.
destruct (audio_goes_to_file_or_device good_env "hello" (Some "out.wav")
            None "af_sarah" one "en-us" false boot)
  as (evs1 & _ & Hfile & _).
destruct (audio_goes_to_file_or_device good_env "hello" None (Some 3)
            "af_sarah" one "en-us" false boot)
  as (evs2 & Htr & _ & Hdev).
split.
- destruct (Hfile "out.wav" eq_refl) as [_ Hok]; [discriminate|].
  apply Hok. vm_compute. reflexivity.
- exists evs2. split; [exact Htr|].
  destruct (Hdev I) as [_ Hok]. apply Hok. vm_compute. reflexivity.
Defined.

(** *** Nothing is removed from the file system *)

Lemma is_Some_insert (m : gmap string inode) (p q : string) (x : inode) :
is_Some (m !! q) -> is_Some (<[p := x]> m !! q).
Proof.
intros H. destruct (decide (p = q)) as [->|Hne].
- rewrite lookup_insert_eq. eauto.
- now rewrite lookup_insert_ne.
Qed.

Lemma grows_ret {A} (a : A) : grows (ret a).
Proof. now intros w q H. Qed.

Lemma grows_raise {A} (e : exn) : grows (@raise World A e).
Proof. now intros w q H. Qed.

Lemma grows_external {A} (a : answer A) : grows (@external World A a).
Proof. intros w q H. unfold external. now destruct a. Qed.

Lemma grows_gets {A} (f : World -> A) : grows (gets f).
Proof. now intros w q H. Qed.

Lemma grows_emit (e : Event) : grows (modify (emit e)).
Proof. now intros w q H. Qed.

Lemma grows_insert (p : World -> string) (x : World -> inode) :
grows (modify (fun w => set_fs (<[p w := x w]> (fs w)) w)).
Proof. intros w q H. cbn. now apply is_Some_insert. Qed.

Lemma grows_bind {A B} (m : M World A) (k : A -> M World B) :
grows m -> (forall a, grows (k a)) -> grows (bind m k).
Proof.
intros Hm Hk w q H. unfold bind. specialize (Hm w q H).
destruct (m w) as [[a|e|c] w1]; cbn [snd] in *; try exact Hm.
now apply Hk.
Qed.

Lemma grows_if {A} (b : bool) (m1 m2 : M World A) :
grows m1 -> grows m2 -> grows (if b then m1 else m2).
Proof. now destruct b. Qed.

Lemma grows_logging_log (levelno : Z) (msg : Message) :
grows (logging_log levelno msg).
Proof.
intros w q H.
destruct (logging_log_run levelno msg w) as (w1 & -> & Hfs & _).
cbn. now rewrite Hfs.
Qed.

Lemma grows_os_makedirs (env : Env) (path : string) :
grows (os_makedirs env path).
Proof.
intros w q H. rewrite os_makedirs_run. cbv zeta.
destruct (fs w !! path) as [[c|]|]; cbn; try exact H.
destruct (makedirs_allowed env path); cbn; [|exact H].
now apply is_Some_insert.
Qed.

Lemma grows_urlretrieve (env : Env) (url path : string) :
grows (urlretrieve env url path).
Proof.
intros w q H. unfold urlretrieve, bind, get, modify, ret, raise. cbn.
destruct (urlretrieve_outcome env (length (trace w)) url); cbn;
  try exact H; now apply is_Some_insert.
Qed.

Lemma grows_Kokoro_new (env : Env) (model_path voices_path : string) :
grows (Kokoro_new env model_path voices_path).
Proof.
intros w q H.
destruct (Kokoro_new_run env model_path voices_path w)
  as [(k & _ & ->)|(e & ->)]; exact H.
Qed.

Ltac grows_tac :=
repeat first
  [ apply grows_ret | apply grows_raise | apply grows_external
  | apply grows_gets | apply grows_emit | apply grows_logging_log
  | apply grows_os_makedirs | apply grows_urlretrieve
  | apply grows_Kokoro_new
  | apply (grows_insert (fun _ => _) (fun _ => _))
  | apply grows_if
  | apply grows_bind;
    [|let x := fresh "x" in
      intros x;
      try match type of x with (_ * _)%type => destruct x as [? ?] end]
  | match goal with
    | |- grows (match ?x with _ => _ end) => destruct x
    end ].

Lemma grows_text_to_speech
    (env : Env) (text : string) (output_file : option string)
    (device : option Z) (voice : string) (speed : float) (lang : string)
    (debug : bool) :
grows (text_to_speech env text output_file device voice speed lang debug).
Proof.
unfold text_to_speech, get_cache_dirs, download_model_files, download_file,
  os_path_exists, Kokoro_create, sf_write, sd_play, sd_wait, print.
grows_tac.
Qed.

(** *** The temporary file and the answer of [/synthesize] *)

(** [synthesize], branch by branch: the name [tempfile] gives, the file
  created under it, and the call of [text_to_speech] on that file. *)
Lemma synthesize_run (env : Env) (request : TTSRequest) (w : World) :
synthesize env request w =
match tempfile_name env (length (trace w)) with
| Fails e => (Raise (HTTPException 500 (str_exn env e)), w)
| Returns path =>
    if bool_decide (is_Some (fs w !! path))
    then (Raise (HTTPException 500 (str_exn env (OSError path))), w)
    else
      let w1 := set_fs (<[path := File ""]> (fs w))
                  (emit (NamedTemporaryFile path) w) in
      match text_to_speech env (rq_text request) (Some path) None
              (rq_voice request) (rq_speed request) (rq_lang request)
              false w1 with
      | (Ok _, w2) => (Ok (FileResponse path "audio/wav" "output.wav"), w2)
      | (Raise e, w2) => (Raise (HTTPException 500 (str_exn env e)), w2)
      | (Exit c, w2) => (Exit c, w2)
      end
end.
Proof.
unfold synthesize, try_except, bind at 1, NamedTemporaryFile_new.
unfold bind at 1, get. unfold bind at 1, external.
destruct (tempfile_name env (length (trace w))) as [path|e];
  [|reflexivity].
destruct (bool_decide (is_Some (fs w !! path))); [reflexivity|].
unfold bind at 1, modify. unfold bind at 1. unfold ret at 1.
cbn [fs emit]. cbv zeta.
set (w1 := set_fs _ _).
unfold bind at 1.
destruct (text_to_speech env (rq_text request) (Some path) None
            (rq_voice request) (rq_speed request) (rq_lang request) false
            w1) as [[[]|e|c] w2]; reflexivity.
Qed.

(** X16. POST /synthesize of [kokorofile.py].  When [tempfile] gives no
  new name the answer is a 500 with the text of its exception and
  nothing has happened.  Otherwise the temporary file is created first,
  [text_to_speech] runs on the text of the request with that file as its
  output, and the answer is the file when the call returned and a 500
  with the text of the exception the call raised when it raised; the
  temporary file is still on disk afterwards, also after a failure.  No
  request is answered in another way (none is refused with a 400, none
  ends the process), and no file that existed is removed or emptied by
  the creation of the temporary file. *)
Theorem synthesize_answers_file_or_500
  (env : Env) (request : TTSRequest) (w : World) :
let res := synthesize env request w in
match tempfile_name env (length (trace w)) with
| Fails e => res = (Raise (HTTPException 500 (str_exn env e)), w)
| Returns path =>
    match fs w !! path with
    | Some _ =>
        res = (Raise (HTTPException 500 (str_exn env (OSError path))), w)
    | None =>
        let w1 := set_fs (<[path := File ""]> (fs w))
                    (emit (NamedTemporaryFile path) w) in
        let tts := text_to_speech env (rq_text request) (Some path) None
                     (rq_voice request) (rq_speed request)
                     (rq_lang request) false w1 in
        snd res = snd tts /\
        match fst tts with
        | Ok _ => fst res = Ok (FileResponse path "audio/wav" "output.wav")
        | Raise e => fst res = Raise (HTTPException 500 (str_exn env e))
        | Exit _ => False
        end /\
        is_Some (fs (snd res) !! path) /\
        exists evs,
          trace (snd res)
          = (trace w ++ NamedTemporaryFile path :: evs)%list
    end
end /\
((exists path, fst res = Ok (FileResponse path "audio/wav" "output.wav"))
 \/ exists detail, fst res = Raise (HTTPException 500 detail)) /\
(forall q, is_Some (fs w !! q) -> is_Some (fs (snd res) !! q)).
Proof.
intros res. subst res. rewrite synthesize_run.
destruct (tempfile_name env (length (trace w))) as [path|e];
  [|split; [reflexivity|]; split; [right; eauto | now intros q Hq]].
destruct (fs w !! path) as [x|] eqn:Hfree.
{ rewrite bool_decide_eq_true_2 by eauto.
  split; [reflexivity|]. split; [right; eauto | now intros q Hq]. }
rewrite bool_decide_eq_false_2 by (intros [x Hx]; discriminate Hx).
cbv zeta.
set (w1 := set_fs (<[path := File ""]> (fs w))
             (emit (NamedTemporaryFile path) w)).
set (T := text_to_speech env (rq_text request) (Some path) None
            (rq_voice request) (rq_speed request) (rq_lang request) false
            w1).
pose proof (text_to_speech_run env (rq_text request) (Some path) None
              (rq_voice request) (rq_speed request) (rq_lang request)
              false w1) as (Hexit & _ & Hshape).
pose proof (grows_text_to_speech env (rq_text request) (Some path) None
              (rq_voice request) (rq_speed request) (rq_lang request)
              false w1) as Hgrow.
cbv zeta in Hexit, Hshape. fold T in Hexit, Hshape, Hgrow.
assert (Hpath : is_Some (fs w1 !! path))
  by (cbn; rewrite lookup_insert_eq; eauto).
assert (Hkeep : forall q, is_Some (fs w !! q) -> is_Some (fs w1 !! q))
  by (intros q Hq; cbn; now apply is_Some_insert).
assert (Htrace : exists evs,
           trace (snd T) = (trace w ++ NamedTemporaryFile path :: evs)%list).
{ destruct Hshape as [(evs & e & _ & Htr & _)
                     |(k & evs1 & evs2 & _ & Htr & _)].
  - exists evs. rewrite Htr. cbn. now rewrite <- app_assoc.
  - exists (evs1 ++ NewKokoro k :: evs2)%list. rewrite Htr. cbn.
    now rewrite <- app_assoc. }
destruct T as [[[]|e|c] w2]; cbn [fst snd] in *.
- split; [split; [reflexivity|]; split; [reflexivity|];
          split; [now apply Hgrow | exact Htrace]|].
  split; [left; eauto|]. intros q Hq. now apply Hgrow, Hkeep.
- split; [split; [reflexivity|]; split; [reflexivity|];
          split; [now apply Hgrow | exact Htrace]|].
  split; [right; eauto|]. intros q Hq. now apply Hgrow, Hkeep.
- now destruct (Hexit c).
Qed.

Lemma synthesize_answers_file_or_500_witness :
fst (synthesize good_env (mkTTSRequest "" "af_sarah" one "en-us") boot)
= Ok (FileResponse "/tmp/tmp0.wav" "audio/wav" "output.wav") /\
fst (synthesize mute_env (mkTTSRequest "hello" "af_sarah" one "en-us") boot)
= Raise (HTTPException 500 "engine failure") /\
synthesize no_tmp_env (mkTTSRequest "hello" "af_sarah" one "en-us") boot
= (Raise (HTTPException 500 "No such file or directory: '/tmp'"), boot).
Proof.
pose proof (synthesize_answers_file_or_500 good_env
              (mkTTSRequest "" "af_sarah" one "en-us") boot) as [Hgood _].
pose proof (synthesize_answers_file_or_500 mute_env
              (mkTTSRequest "hello" "af_sarah" one "en-us") boot)
  as [Hmute _].
pose proof (synthesize_answers_file_or_500 no_tmp_env
              (mkTTSRequest "hello" "af_sarah" one "en-us") boot)
  as [Hnone _].
split; [|split].
- cbv zeta in Hgood.
  change (tempfile_name good_env (length (trace boot)))
    with (@Returns string "/tmp/tmp0.wav") in Hgood.
  change (fs boot !! "/tmp/tmp0.wav") with (@None inode) in Hgood.
  destruct Hgood as (_ & Hans & _).
  exact Hans.
- cbv zeta in Hmute.
  change (tempfile_name mute_env (length (trace boot)))
    with (@Returns string "/tmp/tmp0.wav") in Hmute.
  change (fs boot !! "/tmp/tmp0.wav") with (@None inode) in Hmute.
  destruct Hmute as (_ & Hans & _).
  exact Hans.
- exact Hnone.
Defined.

(** *** What a run prints *)

Lemma printed_app (w w' : World) (evs : list Event) :
trace w' = (trace w ++ evs)%list ->
printed w w' = List.filter is_stdout evs.
Proof.
intros Htr. unfold printed. rewrite Htr, skipn_app, skipn_all.
now rewrite Nat.sub_diag.
Qed.

Lemma prelude_prints_nothing (evs : list Event) :
Forall prelude evs -> List.filter is_stdout evs = [].
Proof.
induction 1 as [|e evs He _ IH]; [reflexivity|].
cbn. rewrite IH. now destruct e.
Qed.

(** [text_to_speech] prints one line, "Audio saved to <file>", as its last
  action when it wrote the file, and nothing in any other case. *)
Lemma text_to_speech_printed
    (env : Env) (text : string) (output_file : option string)
    (device : option Z) (voice : string) (speed : float) (lang : string)
    (debug : bool) (w : World) :
let res := text_to_speech env text output_file device voice speed lang
             debug w in
exists evs,
  trace (snd res) = (trace w ++ evs)%list /\
  List.filter is_stdout evs =
  match fst res, output_file with
  | Ok _, Some f =>
      if truthy f then [Stdout ("Audio saved to " ++ f)] else []
  | _, _ => []
  end.
Proof.
cbv zeta.
destruct (text_to_speech_until_delivery env text output_file device voice
            speed lang debug w)
  as (evs & w1 & Htr & Hev & [(e & ->)|(audio & rate & ->)]).
{ exists evs. split; [exact Htr|]. now apply prelude_prints_nothing. }
apply prelude_prints_nothing in Hev.
assert (Hdev :
  match output_file with Some f => truthy f = false | None => True end ->
  exists evs',
    trace (snd (deliver env audio rate output_file device w1))
    = (trace w ++ evs')%list /\
    List.filter is_stdout evs' = []).
{ intros Hout.
  rewrite (deliver_to_device env audio rate output_file device w1 Hout).
  cbv zeta. destruct (sd_play_ok env device); cbn [fst snd].
  - exists ((evs ++ [SdPlay audio rate device]) ++ [SdWait])%list.
    split; [cbn; now rewrite Htr, !app_assoc|].
    rewrite !List.filter_app, Hev. reflexivity.
  - exists (evs ++ [SdPlay audio rate device])%list.
    split; [cbn; now rewrite Htr, !app_assoc|].
    rewrite !List.filter_app, Hev. reflexivity. }
destruct output_file as [f|]; [destruct (truthy f) eqn:Hf|].
- rewrite (deliver_to_file env audio rate f device w1 Hf). cbv zeta.
  destruct (sf_write_bytes env f audio rate) as [c|e]; cbn [fst snd].
  + exists ((evs ++ [SfWrite f audio rate])
              ++ [Stdout ("Audio saved to " ++ f)])%list.
    split; [cbn; now rewrite Htr, !app_assoc|].
    rewrite !List.filter_app, Hev. reflexivity.
  + exists (evs ++ [SfWrite f audio rate])%list.
    split; [cbn; now rewrite Htr, !app_assoc|].
    rewrite !List.filter_app, Hev. reflexivity.
- destruct (Hdev eq_refl) as (evs' & Htr' & Hno). exists evs'.
  split; [exact Htr'|]. rewrite Hno.
  now destruct (fst (deliver env audio rate (Some f) device w1)).
- destruct (Hdev I) as (evs' & Htr' & Hno). exists evs'.
  split; [exact Htr'|]. rewrite Hno.
  now destruct (fst (deliver env audio rate None device w1)).
Qed.

(** *** Server mode *)








(** *** Where the text comes from *)

Lemma input_text_fs (env : Env) (args : Args) (w0 w : World) :
fs w0 = fs w -> input_text env args w0 = input_text env args w.
Proof. intros Hfs. unfold input_text. now rewrite Hfs. Qed.

(** Lines 179-188 change nothing; they give the text of the command line,
  or raise what reading it raised. *)
Lemma read_input_run (env : Env) (args : Args) (w : World) :
read_input env args w = (outcome (input_text env args w), w).
Proof.
unfold read_input, input_text.
destruct (input args) as [[|ch i]|]; cbn [truthy String.eqb from_option id].
- unfold bind, external, ret, stripped, outcome.
  now destruct (stdin_read env).
- unfold bind at 1, os_path_isfile, gets.
  destruct (fs w !! String ch i) as [[bytes|]|] eqn:Hfile;
    try reflexivity.
  unfold read_file, bind, get, external, ret, stripped, outcome.
  rewrite Hfile. now destruct (read_text env (String ch i) bytes).
- unfold bind, external, ret, stripped, outcome.
  now destruct (stdin_read env).
Qed.

(** An exception of the read is caught by nothing: it leaves [main]. *)
Lemma main_unread_run (env : Env) (args : Args) (w : World) (e : exn) :
server args = false ->
list_devices args = false ->
let w1 := snd (setup_logging (debug args) w) in
read_input env args w1 = (Raise e, w1) ->
main env args w = (Raise e, w1).
Proof.
intros Hserver Hlist w1 Hread.
destruct (setup_logging_run (debug args) w) as (l & Hrun & _).
unfold main, bind at 1. rewrite Hrun, Hserver, Hlist. fold w1.
unfold bind at 1. now rewrite Hread.
Qed.

(** X18. Where the text comes from.  A positional argument that names an
  existing file gives what reading the file as text gives, stripped,
  and when that read raises (the file cannot be opened or decoded) the
  exception is the outcome; any other non-empty argument is the text
  itself, as it is, so that an argument of white space only is not "no
  input" but goes to the engine; without argument, or with an empty one,
  the text is what reading standard input gives, stripped, or the
  exception of that read.  Reading changes nothing, and an exception of
  the read leaves [main] before anything else is done. *)
Theorem input_text_cases (env : Env) (args : Args) (w : World) :
(forall i bytes,
    input args = Some i -> i <> "" -> fs w !! i = Some (File bytes) ->
    read_input env args w
    = (match read_text env i bytes with
       | Returns t => Ok (strip t)
       | Fails e => Raise e
       end, w)) /\
(forall i,
    input args = Some i -> i <> "" ->
    (forall c, fs w !! i <> Some (File c)) ->
    read_input env args w = (Ok i, w) /\
    (server args = false -> list_devices args = false ->
     main env args w
     = match text_to_speech env i (output args) (device args) (voice args)
               (speed args) (lang args) (debug args)
               (snd (setup_logging (debug args) w)) with
       | (Ok u, w2) => (Ok u, w2)
       | (Raise e, w2) => (Exit 1, snd (logging_log ERROR (MsgError e) w2))
       | (Exit c, w2) => (Exit c, w2)
       end)) /\
(match input args with Some i => i = "" | None => True end ->
 read_input env args w
 = (match stdin_read env with
    | Returns t => Ok (strip t)
    | Fails e => Raise e
    end, w)) /\
(forall e,
    fst (read_input env args w) = Raise e ->
    server args = false -> list_devices args = false ->
    main env args w = (Raise e, snd (setup_logging (debug args) w))).
Proof.
assert (Hfile : forall w0 i,
           i <> "" -> input args = Some i ->
           read_input env args w0
           = match fs w0 !! i with
             | Some (File bytes) =>
                 (match read_text env i bytes with
                  | Returns t => Ok (strip t)
                  | Fails e => Raise e
                  end, w0)
             | _ => (Ok i, w0)
             end).
{ intros w0 i Hne Hin. rewrite read_input_run. unfold input_text.
  rewrite Hin. destruct i as [|ch i]; [contradiction|].
  cbn [String.eqb].
  destruct (fs w0 !! String ch i) as [[bytes|]|]; try reflexivity.
  unfold stripped, outcome.
  now destruct (read_text env (String ch i) bytes). }
split; [|split; [|split]].
- intros i bytes Hin Hne Hf. now rewrite (Hfile w i Hne Hin), Hf.
- intros i Hin Hne Hno.
  assert (Hlit : forall w0, fs w0 = fs w -> read_input env args w0 = (Ok i, w0)).
  { intros w0 Hfs. rewrite (Hfile w0 i Hne Hin), Hfs.
    destruct (fs w !! i) as [[c|]|] eqn:Hf; try reflexivity.
    now destruct (Hno c). }
  split; [now apply Hlit|].
  intros Hserver Hlist.
  destruct (setup_logging_run (debug args) w)
    as (l & _ & _ & _ & Hfs & _).
  rewrite (main_synthesis_run env args w i Hserver Hlist (Hlit _ Hfs)).
  apply ServerFacts.truthy_true in Hne. now rewrite Hne.
- intros Hnone. rewrite read_input_run. unfold input_text.
  destruct (input args) as [i|]; [rewrite Hnone; cbn [String.eqb]|];
    unfold stripped, outcome; now destruct (stdin_read env).
- intros e Hraise Hserver Hlist.
  destruct (setup_logging_run (debug args) w)
    as (l & _ & _ & _ & Hfs & _).
  apply (main_unread_run env args w e Hserver Hlist).
  rewrite read_input_run in Hraise |- *. cbn [fst] in Hraise.
  rewrite (input_text_fs env args _ w Hfs). now rewrite Hraise.
Qed.

Lemma input_text_cases_witness :
read_input piped_env (args_of (Some "note.txt") None None false false)
  with_note = (Ok "read me", with_note) /\
read_input garbled_env (args_of (Some "note.txt") None None false false)
  with_utf16 = (Raise UnicodeDecodeError, with_utf16) /\
read_input piped_env (args_of (Some "  ") None None false false) with_note
= (Ok "  ", with_note) /\
read_input piped_env (args_of (Some "") None None false false) with_note
= (Ok "from a pipe", with_note) /\
fst (main garbled_env (args_of (Some "note.txt") None None false false)
       with_utf16) = Raise UnicodeDecodeError.
Proof.
split; [|split; [|split; [|split]]].
- apply (proj1 (input_text_cases piped_env _ with_note)
           "note.txt" "  read me  "); [reflexivity | discriminate|].
  vm_compute. reflexivity.
- apply (proj1 (input_text_cases garbled_env _ with_utf16)
           "note.txt" (String "255" (String "254" "hi")));
    [reflexivity | discriminate|].
  vm_compute. reflexivity.
- apply (proj1 (proj2 (input_text_cases piped_env _ with_note)) "  ");
    [reflexivity | discriminate|].
  intros c Hc. vm_compute in Hc. discriminate Hc.
- apply (proj1 (proj2 (proj2 (input_text_cases piped_env _ with_note)))).
  reflexivity.
- rewrite (proj2 (proj2 (proj2 (input_text_cases garbled_env
                                   (args_of (Some "note.txt") None None
                                      false false) with_utf16)))
             UnicodeDecodeError); reflexivity.
Defined.

(** X19. [--cache-dir] and [--data-dir] are parsed and then ignored: the
  run of the command, its exit code and everything it does, is the same
  whatever they are. *)
Theorem dir_options_are_ignored
  (env : Env) (args : Args) (c d : option string) (w : World) :
run_cli env (with_dirs c d args) w = run_cli env args w.
Proof. reflexivity. Qed.


(** *** The exit status of a synthesis run *)

(** The status on the synthesis path of a process that has just started,
  case by case. *)
Lemma exit_status_synthesis (env : Env) (args : Args) (w : World) :
fresh w ->
server args = false ->
list_devices args = false ->
let w1 := snd (setup_logging (debug args) w) in
exit_status env args w =
match input_text env args w with
| Fails e => (1, emit (Traceback e) w1)
| Returns text =>
    if truthy text
    then
      match text_to_speech env text (output args) (device args)
              (voice args) (speed args) (lang args) (debug args) w1 with
      | (Ok _, w2) =>
          (if match output args with Some f => truthy f | None => false end
              && negb (stdout_flushes env)
           then 120 else 0, w2)
      | (Raise e, w2) => (1, emit (LogRecord ERROR (MsgError e)) w2)
      | (Exit c, w2) => (c, w2)
      end
    else (1, emit (Stderr "Error: No input text provided") w1)
end.
Proof.
intros Hfresh Hserver Hlist w1.
destruct (setup_logging_run (debug args) w)
  as (l & _ & Hl & Hle & Hfs & _ & Htr).
fold w1 in Hl, Hfs, Htr. specialize (Hle Hfresh).
pose proof (read_input_run env args w1) as Hread.
rewrite (input_text_fs env args w1 w Hfs) in Hread.
unfold exit_status, run_cli.
destruct (input_text env args w) as [text|e]; cbn [outcome] in Hread.
2:{ rewrite (main_unread_run env args w e Hserver Hlist Hread). fold w1.
    rewrite (printed_app w (emit (Traceback e) w1) [Traceback e])
      by (cbn; now rewrite Htr).
    reflexivity. }
rewrite (main_synthesis_run env args w text Hserver Hlist Hread). fold w1.
destruct (truthy text).
2:{ rewrite (printed_app w _ [Stderr "Error: No input text provided"])
      by (cbn; now rewrite Htr).
    reflexivity. }
pose proof (text_to_speech_run env text (output args) (device args)
              (voice args) (speed args) (lang args) (debug args) w1)
  as (Hexit & Hlog & _).
destruct (text_to_speech_printed env text (output args) (device args)
            (voice args) (speed args) (lang args) (debug args) w1)
  as (evs & Hevs & Hout).
cbv zeta in Hexit, Hlog. specialize (Hlog l Hl). rewrite Htr in Hevs.
destruct (text_to_speech env text (output args) (device args)
            (voice args) (speed args) (lang args) (debug args) w1)
  as [[[]|e|c] w2]; cbn [fst snd] in *.
- (* the call returned *)
  rewrite (printed_app w w2 evs Hevs), Hout.
  destruct (output args) as [f|]; [destruct (truthy f)|];
    try reflexivity.
  now destruct (stdout_flushes env).
- (* the call raised *)
  assert (Hrec : snd (logging_log ERROR (MsgError e) w2)
                 = emit (LogRecord ERROR (MsgError e)) w2).
  { unfold logging_log, basicConfig, bind, gets, ret, modify.
    rewrite Hlog. cbn. rewrite Hlog. cbn.
    replace (l <=? ERROR) with true by (symmetry; now apply Z.leb_le).
    reflexivity. }
  rewrite Hrec.
  rewrite (printed_app w _ (evs ++ [LogRecord ERROR (MsgError e)]))
    by (cbn; now rewrite Hevs, app_assoc).
  rewrite List.filter_app, Hout. reflexivity.
- now destruct (Hexit c).
Qed.

(** C7, as the code has it.  On the synthesis path (neither [--server]
  nor [-l]) of a process that has just started, the command exits with
  status 1
  exactly when the text cannot be read (the file or standard input
  cannot be opened or decoded), or the text it resolved is empty, or
  [text_to_speech] raises; the last thing written is then on standard
  error: the traceback of the read, "Error: No input text provided", or
  the error record of the exception.  In the first two cases nothing
  else has happened: [text_to_speech] was not called.  When the text is
  not empty and [text_to_speech] returns, the status is 0, unless the
  line "Audio saved to ..." was printed and standard output cannot be
  written out, when it is 120.  Without positional argument (or with an
  empty one) and with nothing but white space on standard input, the
  status is 1 and the message contains "No input text provided". *)
Theorem cli_exit_status (env : Env) (args : Args) (w : World) :
fresh w ->
server args = false ->
list_devices args = false ->
let w1 := snd (setup_logging (debug args) w) in
let tts text :=
  text_to_speech env text (output args) (device args) (voice args)
    (speed args) (lang args) (debug args) w1 in
let saved := match output args with Some f => truthy f | None => false end in
let code := fst (exit_status env args w) in
let w' := snd (exit_status env args w) in
(code = 1 <->
 (exists e, input_text env args w = Fails e) \/
 input_text env args w = Returns "" \/
 (exists text e,
     input_text env args w = Returns text /\ fst (tts text) = Raise e)) /\
(code = 1 ->
 exists ev, last (trace w') = Some ev /\ is_stderr ev = true) /\
(forall e,
    input_text env args w = Fails e ->
    code = 1 /\ w' = emit (Traceback e) w1 /\
    trace w' = (trace w ++ [Traceback e])%list) /\
(input_text env args w = Returns "" ->
 code = 1 /\ w' = emit (Stderr "Error: No input text provided") w1 /\
 trace w' = (trace w ++ [Stderr "Error: No input text provided"])%list) /\
(forall text e,
    input_text env args w = Returns text -> text <> "" ->
    fst (tts text) = Raise e ->
    code = 1 /\
    w' = emit (LogRecord ERROR (MsgError e)) (snd (tts text))) /\
(forall text,
    input_text env args w = Returns text -> text <> "" ->
    fst (tts text) = Ok tt ->
    w' = snd (tts text) /\
    code = (if saved && negb (stdout_flushes env) then 120 else 0)) /\
(forall t,
    match input args with Some i => i = "" | None => True end ->
    stdin_read env = Returns t -> strip t = "" ->
    code = 1 /\
    exists msg, last (trace w') = Some (Stderr msg) /\
                contains "No input text provided" msg = true).
Proof.
intros Hfresh Hserver Hlist w1 tts saved. cbv zeta.
rewrite (exit_status_synthesis env args w Hfresh Hserver Hlist).
fold w1. subst tts saved.
destruct (setup_logging_run (debug args) w)
  as (l & _ & _ & _ & _ & _ & Htr). fold w1 in Htr.
assert (Hblank : forall t,
           match input args with Some i => i = "" | None => True end ->
           stdin_read env = Returns t -> strip t = "" ->
           input_text env args w = Returns "").
{ intros t Hnone Hin Hempty. unfold input_text.
  destruct (input args) as [i|]; [rewrite Hnone; cbn [String.eqb]|];
    rewrite Hin; cbn [stripped]; now rewrite Hempty. }
destruct (input_text env args w) as [text|e0].
2:{ (* the read raised *)
    cbn [fst snd].
    split; [split; [eauto | reflexivity]|].
    split; [intros _; eexists; split;
            [cbn [emit trace]; apply last_snoc | reflexivity]|].
    split; [intros e [= <-]; cbn; now rewrite Htr|].
    split; [discriminate|]. split; [discriminate|].
    split; [discriminate|].
    intros t Hnone Hin Hempty. discriminate (Hblank t Hnone Hin Hempty). }
destruct text as [|ch text]; cbn [truthy].
{ (* no text *)
  cbn [fst snd].
  split; [split; [auto | reflexivity]|].
  split; [intros _; eexists; split;
          [cbn [emit trace]; apply last_snoc | reflexivity]|].
  split; [discriminate|].
  split; [intros _; cbn; now rewrite Htr|].
  split; [intros text e [= <-] Hne; contradiction|].
  split; [intros text [= <-] Hne; contradiction|].
  intros t _ _ _. split; [reflexivity|].
  cbn [emit trace]. rewrite last_snoc. eexists. split; reflexivity. }
pose proof (text_to_speech_run env (String ch text) (output args)
              (device args) (voice args) (speed args) (lang args)
              (debug args) w1) as (Hexit & _).
cbv zeta in Hexit.
destruct (text_to_speech env (String ch text) (output args) (device args)
            (voice args) (speed args) (lang args) (debug args) w1)
  as [[[]|e|c] w2] eqn:Hrun; cbn [fst snd] in *.
- (* the call returned *)
  split.
  { split.
    - destruct (match output args with
                | Some f => truthy f
                | None => false
                end && negb (stdout_flushes env)); discriminate.
    - intros [[e He]|[He|(t & e & [= <-] & He)]]; try discriminate.
      rewrite Hrun in He. discriminate He. }
  split.
  { destruct (match output args with
              | Some f => truthy f
              | None => false
              end && negb (stdout_flushes env)); discriminate. }
  split; [discriminate|]. split; [discriminate|].
  split.
  { intros t e [= <-] _ He. rewrite Hrun in He. discriminate He. }
  split.
  { intros t [= <-] _ _. rewrite Hrun. split; reflexivity. }
  intros t Hnone Hin Hempty. discriminate (Hblank t Hnone Hin Hempty).
- (* the call raised *)
  split.
  { split; [|reflexivity]. intros _. right. right.
    exists (String ch text), e. rewrite Hrun. split; reflexivity. }
  split; [intros _; eexists; split;
          [cbn [emit trace]; apply last_snoc | reflexivity]|].
  split; [discriminate|]. split; [discriminate|].
  split.
  { intros t e' [= <-] _ He. rewrite Hrun in He |- *. cbn in He.
    injection He as <-. split; reflexivity. }
  split.
  { intros t [= <-] _ He. rewrite Hrun in He. discriminate He. }
  intros t Hnone Hin Hempty. discriminate (Hblank t Hnone Hin Hempty).
- now destruct (Hexit c).
Qed.

Lemma cli_exit_status_witness :
fst (exit_status good_env no_args boot) = 1 /\
fst (exit_status mute_env hello_args boot) = 1 /\
fst (exit_status good_env hello_args boot) = 0 /\
fst (exit_status clogged_env hello_args boot) = 0 /\
fst (exit_status good_env
       (args_of (Some "note.txt") (Some "out.wav") None false false)
       with_note) = 0.
Proof.
assert (Hfresh : fresh boot) by reflexivity.
assert (Hnote : fresh with_note) by reflexivity.
pose proof (cli_exit_status good_env no_args boot Hfresh eq_refl eq_refl)
  as (_ & _ & _ & _ & _ & _ & Hstdin).
pose proof (cli_exit_status mute_env hello_args boot Hfresh eq_refl eq_refl)
  as (Hiff & _).
pose proof (cli_exit_status good_env hello_args boot Hfresh eq_refl eq_refl)
  as (_ & _ & _ & _ & _ & Hok & _).
pose proof (cli_exit_status clogged_env hello_args boot Hfresh eq_refl
              eq_refl)
  as (_ & _ & _ & _ & _ & Hplayed & _).
pose proof (cli_exit_status good_env
              (args_of (Some "note.txt") (Some "out.wav") None false false)
              with_note Hnote eq_refl eq_refl)
  as (_ & _ & _ & _ & _ & Hsaved & _).
split; [exact (proj1 (Hstdin "" I eq_refl eq_refl))|].
split.
{ apply Hiff. right. right. exists "hello", EngineError.
  split; vm_compute; reflexivity. }
split.
{ apply (Hok "hello"); [reflexivity | discriminate|].
  vm_compute. reflexivity. }
split.
{ apply (Hplayed "hello"); [reflexivity | discriminate|].
  vm_compute. reflexivity. }
apply (Hsaved "read me"); [vm_compute; reflexivity | discriminate|].
vm_compute. reflexivity.
Defined.

(** C7 does not hold as stated, in two ways.  A positional
  argument that names a file starting with the bytes FF FE, on a machine
  that reads text as UTF-8: the status is 1 and the only thing written
  is the traceback of [UnicodeDecodeError], although no empty text was
  resolved and no synthesis call raised (none was made).  And a text
  saved with [-o] while standard output cannot be written: the synthesis
  call returns, and the status is 120, not 0. *)
Lemma exit_1_without_empty_text_or_failed_synthesis :
let args := args_of (Some "note.txt") None None false false in
let saving := args_of (Some "hello") (Some "out.wav") None false false in
let w1 := snd (setup_logging false with_utf16) in
(input args = Some "note.txt" /\
 fs with_utf16 !! "note.txt"
 = Some (File (String "255" (String "254" "hi"))) /\
 read_input garbled_env args w1 = (Raise UnicodeDecodeError, w1) /\
 exit_status garbled_env args with_utf16
 = (1, emit (Traceback UnicodeDecodeError) w1) /\
 trace (snd (exit_status garbled_env args with_utf16))
 = [Traceback UnicodeDecodeError] /\
 ~ (fst (exit_status garbled_env args with_utf16) = 1 <->
    input_text garbled_env args with_utf16 = Returns "" \/
    exists text e,
      input_text garbled_env args with_utf16 = Returns text /\
      fst (text_to_speech garbled_env text (output args) (device args)
             (voice args) (speed args) (lang args) (debug args) w1)
      = Raise e)) /\
(fst (text_to_speech clogged_env "hello" (Some "out.wav") None "af_sarah"
        one "en-us" false (snd (setup_logging false boot))) = Ok tt /\
 fst (exit_status clogged_env saving boot) = 120).
Proof.
cbv zeta. split.
- split; [reflexivity|]. split; [reflexivity|].
  split; [vm_compute; reflexivity|].
  assert (Hrun : exit_status garbled_env
                   (args_of (Some "note.txt") None None false false)
                   with_utf16
                 = (1, emit (Traceback UnicodeDecodeError)
                         (snd (setup_logging false with_utf16))))
    by (vm_compute; reflexivity).
  split; [exact Hrun|]. split; [rewrite Hrun; reflexivity|].
  rewrite Hrun. cbn [fst].
  assert (Hread : input_text garbled_env
                    (args_of (Some "note.txt") None None false false)
                    with_utf16 = Fails UnicodeDecodeError)
    by (vm_compute; reflexivity).
  rewrite Hread. intros [Himp _].
  destruct (Himp eq_refl) as [Hempty|(text & e & Htext & _)];
    discriminate.
- split; vm_compute; reflexivity.
Qed.

(** *** The exit status of a device listing *)



End CliFacts.
